(** * WhatsApp bot (Andy's Don Cash): disable registry, business hours,
      automatic reactivation and the conversation handlers.

    A shallow embedding of
      - src/services/commandHandler.js   (CommandHandler)
      - src/services/timeManager.js      (TimeManager)
      - src/services/stateManager.js     (StateManager)
      - src/services/messageService.js   (sendBotMessage,
                                          wasBotGeneratedMessage)
      - src/modules/autoReactivationManager.js
      - src/handlers/incomingMessage.js, src/handlers/intentProcessor.js,
        src/handlers/outgoingMessage.js
      - the older single-file index.js, which carries its own copy of
        [processIntent]
    followed by the properties proved about them. *)

From Stdlib Require Import ZArith QArith String Ascii List Lia Bool.
From Stdlib Require Import DecimalString.
From stdpp Require Import base gmap strings list.

Local Open Scope Z_scope.
Local Open Scope string_scope.

(** ** JavaScript values *)

Module JS.

(** A JavaScript number: NaN, an infinity, or a finite value (every finite
    double is a rational). *)
Inductive number :=
| NaN
| Infinity (negative : bool)
| Fin (q : Q).

Inductive value :=
| Undefined
| Null
| Boolean (b : bool)
| Number (n : number)
| String (s : string).

Definition of_Z (z : Z) : value := Number (Fin (inject_Z z)).

(** ToBoolean. *)
Definition truthy (v : value) : bool :=
  match v with
  | Undefined | Null => false
  | Boolean b => b
  | Number NaN => false
  | Number (Infinity _) => true
  | Number (Fin q) => negb (Qeq_bool q 0)
  | String s => negb (String.eqb s "")
  end.

(** [a || b]: it returns one of its operands. *)
Definition or (a b : value) : value := if truthy a then a else b.

Definition number_eq (a b : number) : bool :=
  match a, b with
  | Fin p, Fin q => Qeq_bool p q
  | Infinity s, Infinity t => Bool.eqb s t
  | _, _ => false
  end.

(** [a === b]. *)
Definition strict_eq (a b : value) : bool :=
  match a, b with
  | Undefined, Undefined => true
  | Null, Null => true
  | Boolean x, Boolean y => Bool.eqb x y
  | Number x, Number y => number_eq x y
  | String x, String y => String.eqb x y
  | _, _ => false
  end.

(** [Array.prototype.includes] (SameValueZero: like [===], except that NaN
    is found). *)
Definition same_value_zero (a b : value) : bool :=
  match a, b with
  | Number NaN, Number NaN => true
  | _, _ => strict_eq a b
  end.

Definition includes (l : list value) (v : value) : bool :=
  existsb (same_value_zero v) l.

(** An optional string seen as a value ([undefined] when absent). *)
Definition of_string (o : option string) : value :=
  match o with Some s => String s | None => Undefined end.

End JS.

(** ** String operations used by the handlers *)

Module Str.

(** [s.startsWith(p)] *)
Definition startsWith (s p : string) : bool := String.prefix p s.

(** [s.endsWith(p)] *)
Definition endsWith (s p : string) : bool :=
  let n := String.length s in
  let k := String.length p in
  (k <=? n)%nat && String.eqb (substring (n - k) k s) p.

(** [s.includes(c)] for a one-character needle. *)
Fixpoint includes_char (c : ascii) (s : string) : bool :=
  match s with
  | EmptyString => false
  | String.String a r => Ascii.eqb a c || includes_char c r
  end.

(** [s.split(c)] for a one-character separator: never empty. *)
Fixpoint split (c : ascii) (s : string) : list string :=
  match s with
  | EmptyString => [EmptyString]
  | String.String a r =>
      if Ascii.eqb a c then EmptyString :: split c r
      else match split c r with
           | w :: ws => String.String a w :: ws
           | [] => [String.String a EmptyString]
           end
  end.

(** [s.split(c)[0]] *)
Definition first_part (c : ascii) (s : string) : string :=
  match split c s with
  | w :: _ => w
  | [] => EmptyString
  end.

(** White space as [trim] and [parseInt] see it (the WhiteSpace and
    LineTerminator characters of the language). A text is held in UTF-8, so
    a character is one to three bytes here. One byte: tab, line feed,
    vertical tab, form feed, carriage return and space. *)
Definition is_white (a : ascii) : bool :=
  let n := N_of_ascii a in
  ((9 <=? n) && (n <=? 13))%N || (n =? 32)%N.

(** Two bytes: U+00A0 (C2 A0). *)
Definition is_white2 (a b : ascii) : bool :=
  (N_of_ascii a =? 194)%N && (N_of_ascii b =? 160)%N.

(** Three bytes: U+1680 (E1 9A 80), U+2000 to U+200A (E2 80 80 to E2 80 8A),
    U+2028 and U+2029 (E2 80 A8, E2 80 A9), U+202F (E2 80 AF), U+205F
    (E2 81 9F), U+3000 (E3 80 80) and U+FEFF (EF BB BF). *)
Definition is_white3 (a b c : ascii) : bool :=
  let x := N_of_ascii a in
  let y := N_of_ascii b in
  let z := N_of_ascii c in
  ((x =? 225) && (y =? 154) && (z =? 128))%N
  || ((x =? 226) && (y =? 128)
      && (((128 <=? z) && (z <=? 138)) || (z =? 168) || (z =? 169) || (z =? 175)))%N
  || ((x =? 226) && (y =? 129) && (z =? 159))%N
  || ((x =? 227) && (y =? 128) && (z =? 128))%N
  || ((x =? 239) && (y =? 187) && (z =? 191))%N.

Fixpoint trimStart (s : string) : string :=
  match s with
  | EmptyString => EmptyString
  | String.String a r =>
      if is_white a then trimStart r
      else
        match r with
        | String.String b r1 =>
            if is_white2 a b then trimStart r1
            else
              match r1 with
              | String.String c r2 =>
                  if is_white3 a b c then trimStart r2 else s
              | EmptyString => s
              end
        | EmptyString => s
        end
  end.

(** The text without its longest suffix of white space: a text that is white
    space throughout becomes empty, any other keeps its first byte. *)
Fixpoint trimEnd (s : string) : string :=
  match s with
  | EmptyString => EmptyString
  | String.String a r =>
      match trimStart s with
      | EmptyString => EmptyString
      | _ => String.String a (trimEnd r)
      end
  end.

Definition trim (s : string) : string := trimEnd (trimStart s).

(** [s.toLowerCase()] on the letters A-Z and on the capital letters of
    Latin-1, U+00C0 to U+00DE without the sign U+00D7 (in UTF-8 the byte C3
    followed by 80 to 9E, 97 apart): they lower by 32. The capital letters
    beyond Latin-1 are left as they are: the function is exact on the texts
    whose capital letters are all of A-Z or of Latin-1. *)
Definition lower_ascii (a : ascii) : ascii :=
  let n := N_of_ascii a in
  if ((65 <=? n) && (n <=? 90))%N then ascii_of_N (n + 32) else a.

Definition is_latin1_capital (b : ascii) : bool :=
  let n := N_of_ascii b in
  ((128 <=? n) && (n <=? 158) && negb (n =? 151))%N.

Fixpoint toLowerCase (s : string) : string :=
  match s with
  | EmptyString => EmptyString
  | String.String a r =>
      if (N_of_ascii a =? 195)%N
      then
        match r with
        | String.String b r1 =>
            if is_latin1_capital b
            then String.String a
                   (String.String (ascii_of_N (N_of_ascii b + 32)) (toLowerCase r1))
            else String.String a (toLowerCase r)
        | EmptyString => String.String a EmptyString
        end
      else String.String (lower_ascii a) (toLowerCase r)
  end.

(** [n.toString()] for an integer. *)
Definition toString (n : Z) : string := NilZero.string_of_int (Z.to_int n).

(** [s.padStart(len, "0")] *)
Fixpoint zeros (k : nat) : string :=
  match k with
  | O => EmptyString
  | S k' => String.String "0"%char (zeros k')
  end.

Definition padStart0 (len : nat) (s : string) : string :=
  zeros (len - String.length s) ++ s.

(** *** parseInt(s) without a radix argument *)

Definition digit_value (a : ascii) : option Z :=
  let n := Z.of_N (N_of_ascii a) in
  if ((48 <=? n) && (n <=? 57))%Z then Some (n - 48)
  else if ((97 <=? n) && (n <=? 122))%Z then Some (n - 87)
  else if ((65 <=? n) && (n <=? 90))%Z then Some (n - 55)
  else None.

(** The longest prefix of digits below [radix], read as a number; [None]
    when that prefix is empty. [acc] is the value read so far. *)
Fixpoint digits (radix : Z) (acc : option Z) (s : string) : option Z :=
  match s with
  | EmptyString => acc
  | String.String a r =>
      match digit_value a with
      | Some d =>
          if (d <? radix)%Z
          then digits radix (Some (default 0 acc * radix + d)) r
          else acc
      | None => acc
      end
  end.

Definition strip_sign (s : string) : Z * string :=
  match s with
  | String.String "-"%char r => (-1, r)
  | String.String "+"%char r => (1, r)
  | _ => (1, s)
  end.

Definition strip_hex (s : string) : Z * string :=
  match s with
  | String.String "0"%char (String.String "x"%char r) => (16, r)
  | String.String "0"%char (String.String "X"%char r) => (16, r)
  | _ => (10, s)
  end.

(** [None] stands for NaN. The value is exact (JavaScript rounds beyond
    2^53, which no comparison made by the callers can observe). *)
Definition parseInt (s : string) : option Z :=
  let '(sign, s1) := strip_sign (trimStart s) in
  let '(radix, s2) := strip_hex s1 in
  match digits radix None s2 with
  | Some n => Some (sign * n)
  | None => None
  end.

End Str.

(** ** timeManager.js *)

Module TimeManager.

Inductive weekday :=
| Sunday | Monday | Tuesday | Wednesday | Thursday | Friday | Saturday.

(** What the handlers read of a [Date], in local time: [getMonth()] is
    0..11, [getDate()] 1..31, [getDay()] a day of the week, [getHours()]
    0..23. *)
Record Date := {
  getMonth : Z;
  getDate : Z;
  weekDay : weekday;
  getHours : Z
}.

(** [getDay()]: 0 = Sunday, ..., 6 = Saturday. *)
Definition getDay (d : Date) : Z :=
  match weekDay d with
  | Sunday => 0 | Monday => 1 | Tuesday => 2 | Wednesday => 3
  | Thursday => 4 | Friday => 5 | Saturday => 6
  end.

(** An entry of [this.businessHours]: [{ open: false }] or
    [{ open: true, start, end }]. *)
Inductive DayHours :=
| Closed
| Open (start finish : Z).

Definition businessHours (day : weekday) : DayHours :=
  match day with
  | Sunday => Closed
  | Monday => Open 10 17
  | Tuesday => Open 10 17
  | Wednesday => Open 10 17
  | Thursday => Open 10 17
  | Friday => Open 10 17
  | Saturday => Open 10 12
  end.

(** [this.holidays], in MM-DD form. *)
Definition holidays : list string := ["01-01"; "07-04"; "12-25"].

Definition isHoliday (date : Date) : bool :=
  let month := getMonth date + 1 in
  let day := getDate date in
  let dateStr :=
    Str.padStart0 2 (Str.toString month) ++ "-"
    ++ Str.padStart0 2 (Str.toString day) in
  existsb (String.eqb dateStr) holidays.

(** [isBusinessHours()], as a function of the date that
    [getCurrentDate()] returns. *)
Definition isBusinessHours (now : Date) : bool :=
  let hour := getHours now in
  if isHoliday now then false
  else
    match businessHours (weekDay now) with
    | Closed => false
    | Open start finish => (start <=? hour)%Z && (hour <? finish)%Z
    end.

End TimeManager.

(** ** Outgoing message contents *)

(** The literal texts built inside the handlers are kept as [Text]; the
    templates of messageProvider.js, and the texts that embed a formatted
    date, are named by a constructor carrying what selects or fills them. *)
Inductive Content :=
| Text (s : string)
| GoodByMessage
| HelpMessage
| DeactivatedNotice (hours expiryTime : Z)
| CommandFailure
| WelcomeMessage
| LanguagePrompt
| OutOfHoursMessage (english : bool)
| BusinessHoursMenu (english : bool)
| WatchesResponse (english : bool)
| DiamondsResponse (english : bool)
| GoldResponse (english : bool)
| ClosingMessage (english inBusinessHours : bool)
| FallbackMessage (english : bool)
| DefaultResponse (english : bool)
| Paragraphs (first second : Content).

(** ** messageProvider.js: every getter tests [languageCode === "en"] *)

Module MessageProvider.

Definition is_en (languageCode : option string) : bool :=
  match languageCode with
  | Some s => String.eqb s "en"
  | None => false
  end.

Definition getWelcomeMessage : Content := WelcomeMessage.
Definition getLanguagePrompt : Content := LanguagePrompt.
Definition getOutOfHoursMessage (languageCode : option string) : Content :=
  OutOfHoursMessage (is_en languageCode).
Definition getBusinessHoursMenu (languageCode : option string) : Content :=
  BusinessHoursMenu (is_en languageCode).
Definition getWatchesResponse (languageCode : option string) : Content :=
  WatchesResponse (is_en languageCode).
Definition getDiamondsResponse (languageCode : option string) : Content :=
  DiamondsResponse (is_en languageCode).
Definition getGoldResponse (languageCode : option string) : Content :=
  GoldResponse (is_en languageCode).
Definition getClosingMessage (languageCode : option string)
    (inBusinessHours : bool) : Content :=
  ClosingMessage (is_en languageCode) inBusinessHours.
Definition getFallbackMessage (languageCode : option string) : Content :=
  FallbackMessage (is_en languageCode).
Definition getDefaultResponse (languageCode : option string) : Content :=
  DefaultResponse (is_en languageCode).

End MessageProvider.

(** ** State of the singletons *)

(** The three kinds of entries of the disable registry. *)
Record CommandDisable := {
  cd_disabledBy : string;
  cd_startTime : Z;
  cd_expiry : Z
}.

Record ManualIntervention := {
  mi_startTime : Z;
  mi_expiry : Z
}.

Record CompletedChat := {
  cc_completedAt : Z;
  cc_expiry : Z
}.

(** Every entry has an [expiry] field (milliseconds since the epoch). *)
Class Expiring (A : Type) := expiry : A -> Z.
#[global] Instance CommandDisable_expiring : Expiring CommandDisable := cd_expiry.
#[global] Instance ManualIntervention_expiring : Expiring ManualIntervention := mi_expiry.
#[global] Instance CompletedChat_expiring : Expiring CompletedChat := cc_expiry.

Record CommandHandler := {
  ownerNumber : string;
  disabledChats : gmap string CommandDisable;
  manualInterventions : gmap string ManualIntervention;
  completedChats : gmap string CompletedChat
}.

(** A session record of stateManager.js. [userInfo] is left out: it is
    created with the record and never read or written again. [text] and
    [languageSelectionComplete] are absent from a fresh record. *)
Record UserState := {
  languageCode : option string;
  currentContext : string;
  lastInteraction : Z;
  sessionStarted : Z;
  selectedProduct : JS.value;
  processCompleted : bool;
  processStage : string;
  languageSelectionComplete : option bool;
  text : option string
}.

Record StateManager := {
  states : gmap string UserState
}.

Record AutoReactivationManager := {
  checkInterval : Z;
  isRunning : bool;
  lastCheck : option Z;
  recentlyReactivated : list string;
  wasBusinessHours : option bool;
  massReactivationDone : Z * Z
}.

(** What a turn does to the outside, in order: the two JSON files and the
    transport. A [Sent] event records the attempt and whether the transport
    accepted it. *)
Inductive Event :=
| SavedDisabledState (d : gmap string CommandDisable)
    (m : gmap string ManualIntervention) (c : gmap string CompletedChat)
| SavedStates (s : gmap string UserState)
| Sent (chatId : string) (content : Content) (accepted : bool).

Record World := {
  commandHandler : CommandHandler;
  stateManager : StateManager;
  autoReactivation : AutoReactivationManager;
  effects : list Event
}.

(** The answer of Dialogflow that the handlers read:
    [queryResult.intent.displayName] and [queryResult.parameters.fields],
    of which only [number] and [language] are used. *)
Record ParameterValue := {
  numberValue : option JS.number;
  stringValue : option string
}.

Record Parameters := {
  number : option ParameterValue;
  language : option ParameterValue
}.

Record QueryResult := {
  intent : string;
  parameters : Parameters
}.

(** The collaborators of one synchronous piece of work: the clock (one
    reading of [Date.now()] and one of [timeManager.getCurrentDate()] for
    the whole piece), the transport (does [sock.sendMessage] resolve?), and
    Dialogflow ([None]: the call rejects). *)
Record Host := {
  now : Z;
  today : TimeManager.Date;
  accepts : string -> Content -> bool;
  detectIntentWithContexts :
    string -> string -> string -> list string -> option QueryResult
}.

(** ** Computations with state and exceptions *)

Inductive Error :=
| TransportError
| DialogflowError.

Inductive Outcome (A : Type) :=
| Done (a : A)
| Thrown (e : Error).
Arguments Done {A} a.
Arguments Thrown {A} e.

Definition Turn (A : Type) : Type := World -> Outcome A * World.

Definition ret {A} (a : A) : Turn A := fun w => (Done a, w).

Definition bind {A B} (c : Turn A) (k : A -> Turn B) : Turn B :=
  fun w =>
    match c w with
    | (Done a, w') => k a w'
    | (Thrown e, w') => (Thrown e, w')
    end.

Definition throw {A} (e : Error) : Turn A := fun w => (Thrown e, w).

(** [try { c } catch (error) { handler }] *)
Definition try_catch {A} (c : Turn A) (handler : Error -> Turn A) : Turn A :=
  fun w =>
    match c w with
    | (Done a, w') => (Done a, w')
    | (Thrown e, w') => handler e w'
    end.

Definition gets {A} (f : World -> A) : Turn A := fun w => (Done (f w), w).
Definition modify (f : World -> World) : Turn unit := fun w => (Done tt, f w).

Notation "x <- c ;; k" := (bind c (fun x => k))
  (at level 100, c at next level, right associativity).
Notation "c ;;; k" := (bind c (fun _ => k))
  (at level 100, right associativity).

Definition result {A} (r : Outcome A * World) : Outcome A := fst r.
Definition after {A} (r : Outcome A * World) : World := snd r.

Definition set_commandHandler (f : CommandHandler -> CommandHandler) (w : World) : World :=
  {| commandHandler := f (commandHandler w);
     stateManager := stateManager w;
     autoReactivation := autoReactivation w;
     effects := effects w |}.

Definition set_states (f : gmap string UserState -> gmap string UserState)
    (w : World) : World :=
  {| commandHandler := commandHandler w;
     stateManager := {| states := f (states (stateManager w)) |};
     autoReactivation := autoReactivation w;
     effects := effects w |}.

Definition set_autoReactivation
    (f : AutoReactivationManager -> AutoReactivationManager) (w : World) : World :=
  {| commandHandler := commandHandler w;
     stateManager := stateManager w;
     autoReactivation := f (autoReactivation w);
     effects := effects w |}.

Definition emit (e : Event) (w : World) : World :=
  {| commandHandler := commandHandler w;
     stateManager := stateManager w;
     autoReactivation := autoReactivation w;
     effects := effects w ++ [e] |}.

Definition set_disabledChats (f : gmap string CommandDisable -> gmap string CommandDisable)
    (c : CommandHandler) : CommandHandler :=
  {| ownerNumber := ownerNumber c;
     disabledChats := f (disabledChats c);
     manualInterventions := manualInterventions c;
     completedChats := completedChats c |}.

Definition set_manualInterventions
    (f : gmap string ManualIntervention -> gmap string ManualIntervention)
    (c : CommandHandler) : CommandHandler :=
  {| ownerNumber := ownerNumber c;
     disabledChats := disabledChats c;
     manualInterventions := f (manualInterventions c);
     completedChats := completedChats c |}.

Definition set_completedChats
    (f : gmap string CompletedChat -> gmap string CompletedChat)
    (c : CommandHandler) : CommandHandler :=
  {| ownerNumber := ownerNumber c;
     disabledChats := disabledChats c;
     manualInterventions := manualInterventions c;
     completedChats := f (completedChats c) |}.

(** ** messageService.js *)

(** [sock.sendMessage(chatId, content)]: resolves or rejects. *)
Definition sock_sendMessage (h : Host) (chatId : string) (content : Content)
    : Turn unit :=
  fun w =>
    if accepts h chatId content
    then (Done tt, emit (Sent chatId content true) w)
    else (Thrown TransportError, emit (Sent chatId content false) w).

(** [sendBotMessage] forwards to the socket and rethrows its error. The set
    of recently sent message ids that it also maintains is only read by the
    outgoing-message handler and is not part of this model. *)
Definition sendBotMessage (h : Host) (chatId : string) (content : Content)
    : Turn unit :=
  try_catch (sock_sendMessage h chatId content) (fun error => throw error).

(** ** stateManager.js *)

Module StateManagerOps.

Definition saveStates : Turn unit :=
  fun w => (Done tt, emit (SavedStates (states (stateManager w))) w).

Definition freshState (h : Host) : UserState :=
  {| languageCode := None;
     currentContext := "welcome";
     lastInteraction := now h;
     sessionStarted := now h;
     selectedProduct := JS.Null;
     processCompleted := false;
     processStage := "initial";
     languageSelectionComplete := None;
     text := None |}.

Definition getUserState (h : Host) (userId : string) : Turn UserState :=
  known <- gets (fun w => states (stateManager w) !! userId) ;;
  match known with
  | Some userState => ret userState
  | None =>
      modify (set_states (insert userId (freshState h))) ;;;
      saveStates ;;;
      ret (freshState h)
  end.

(** One property of the [updates] object literal. *)
Inductive Update :=
| set_languageCode (v : string)
| set_currentContext (v : string)
| set_languageSelectionComplete (v : bool)
| set_selectedProduct (v : JS.value)
| set_processCompleted (v : bool).

Definition assign (s : UserState) (u : Update) : UserState :=
  match u with
  | set_languageCode v =>
      {| languageCode := Some v; currentContext := currentContext s;
         lastInteraction := lastInteraction s; sessionStarted := sessionStarted s;
         selectedProduct := selectedProduct s; processCompleted := processCompleted s;
         processStage := processStage s;
         languageSelectionComplete := languageSelectionComplete s; text := text s |}
  | set_currentContext v =>
      {| languageCode := languageCode s; currentContext := v;
         lastInteraction := lastInteraction s; sessionStarted := sessionStarted s;
         selectedProduct := selectedProduct s; processCompleted := processCompleted s;
         processStage := processStage s;
         languageSelectionComplete := languageSelectionComplete s; text := text s |}
  | set_languageSelectionComplete v =>
      {| languageCode := languageCode s; currentContext := currentContext s;
         lastInteraction := lastInteraction s; sessionStarted := sessionStarted s;
         selectedProduct := selectedProduct s; processCompleted := processCompleted s;
         processStage := processStage s;
         languageSelectionComplete := Some v; text := text s |}
  | set_selectedProduct v =>
      {| languageCode := languageCode s; currentContext := currentContext s;
         lastInteraction := lastInteraction s; sessionStarted := sessionStarted s;
         selectedProduct := v; processCompleted := processCompleted s;
         processStage := processStage s;
         languageSelectionComplete := languageSelectionComplete s; text := text s |}
  | set_processCompleted v =>
      {| languageCode := languageCode s; currentContext := currentContext s;
         lastInteraction := lastInteraction s; sessionStarted := sessionStarted s;
         selectedProduct := selectedProduct s; processCompleted := v;
         processStage := processStage s;
         languageSelectionComplete := languageSelectionComplete s; text := text s |}
  end.

Definition stamp (t : Z) (s : UserState) : UserState :=
  {| languageCode := languageCode s; currentContext := currentContext s;
     lastInteraction := t; sessionStarted := sessionStarted s;
     selectedProduct := selectedProduct s; processCompleted := processCompleted s;
     processStage := processStage s;
     languageSelectionComplete := languageSelectionComplete s; text := text s |}.

(** [{ ...userState, ...updates, lastInteraction: Date.now() }]: a new
    record replaces the stored one. *)
Definition updateUserState (h : Host) (userId : string) (updates : list Update)
    : Turn UserState :=
  userState <- getUserState h userId ;;
  let updated := stamp (now h) (fold_left assign updates userState) in
  modify (set_states (insert userId updated)) ;;;
  saveStates ;;;
  ret updated.

End StateManagerOps.

(** ** commandHandler.js *)

Module CommandHandlerOps.

(** [Object.keys(this.commands)] *)
Definition commands : list string :=
  ["👋"; "/help"; "/off"; "/on"; "/status"; "/reset"; "/stats"; "/clean";
   "/cleanusers"; "/setinactive"; "/reactivation"; "/reactivate"].

Definition isOwner (c : CommandHandler) (userId : string) : bool :=
  String.eqb userId (ownerNumber c).

Definition isCommand (message : string) : bool :=
  let trimmedMessage := Str.trim message in
  String.eqb trimmedMessage "👋"
  || (Str.startsWith trimmedMessage "/"
      && existsb (String.eqb (Str.first_part " " trimmedMessage)) commands).

Definition saveDisabledState : Turn unit :=
  fun w =>
    let c := commandHandler w in
    (Done tt,
     emit (SavedDisabledState (disabledChats c) (manualInterventions c)
             (completedChats c)) w).

(** A loop [for (chat in m) if (cond(m[chat])) { delete m[chat]; n++ }]:
    what is left, and how many entries went. *)
Definition remaining {A} (cond : A -> Prop) `{!forall a, Decision (cond a)}
    (m : gmap string A) : gmap string A :=
  filter (fun kv => ~ cond kv.2) m.

Definition removed {A} (cond : A -> Prop) `{!forall a, Decision (cond a)}
    (m : gmap string A) : gmap string A :=
  filter (fun kv => cond kv.2) m.

(** The test of the sweep in [cleanExpiredEntries]: [expiry < now]. *)
Definition expired {A} `{Expiring A} (t : Z) (e : A) : Prop := expiry e < t.
#[global] Instance expired_dec {A} `{Expiring A} t (e : A) : Decision (expired t e).
Proof. unfold expired. apply _. Defined.

Definition cleanExpiredEntries (h : Host) : Turn unit :=
  c <- gets commandHandler ;;
  let cleaned :=
    (size (removed (expired (now h)) (disabledChats c))
     + size (removed (expired (now h)) (manualInterventions c))
     + size (removed (expired (now h)) (completedChats c)))%nat in
  modify (set_commandHandler (fun c =>
    set_completedChats (remaining (expired (now h)))
      (set_manualInterventions (remaining (expired (now h)))
         (set_disabledChats (remaining (expired (now h))) c)))) ;;;
  if (0 <? cleaned)%nat then saveDisabledState else ret tt.

(** [m[chatId] && m[chatId].expiry > Date.now()] *)
Definition liveIn {A} `{Expiring A} (h : Host) (m : gmap string A)
    (chatId : string) : JS.value :=
  match m !! chatId with
  | Some e => JS.Boolean (now h <? expiry e)%Z
  | None => JS.Undefined
  end.

Definition isChatDisabled (h : Host) (chatId : string) : Turn JS.value :=
  cleanExpiredEntries h ;;;
  c <- gets commandHandler ;;
  let isDisabledByCommand := liveIn h (disabledChats c) chatId in
  let isDisabledByIntervention := liveIn h (manualInterventions c) chatId in
  let isDisabledByCompletion := liveIn h (completedChats c) chatId in
  ret (JS.or (JS.or isDisabledByCommand isDisabledByIntervention)
         isDisabledByCompletion).

Definition detectOwnerMessage (chatId message : string) : Turn bool :=
  c <- gets commandHandler ;;
  if negb (isOwner c (Str.first_part "@" chatId)) then ret false
  else if Str.startsWith message "/on" then ret false
  else ret true.

(** [hours = 1] is the declared default of both registration methods. A
    duration is a whole number of hours here, for which the product
    [hours * 60 * 60 * 1000] of the code, made in doubles, is exact as long
    as it stays below 2^53; no caller passes a duration at all. *)
Definition registerManualIntervention (h : Host) (chatId : string)
    (hours : option Z) : Turn unit :=
  let hours := default 1 hours in
  let expiryTime := now h + hours * 60 * 60 * 1000 in
  modify (set_commandHandler (set_manualInterventions
    (insert chatId {| mi_startTime := now h; mi_expiry := expiryTime |}))) ;;;
  saveDisabledState.

Definition markProcessCompleted (h : Host) (chatId : string)
    (hours : option Z) : Turn unit :=
  let hours := default 1 hours in
  let expiryTime := now h + hours * 60 * 60 * 1000 in
  modify (set_commandHandler (set_completedChats
    (insert chatId {| cc_completedAt := now h; cc_expiry := expiryTime |}))) ;;;
  saveDisabledState.

Definition showGoodByMessage (h : Host) (chatId : string) : Turn unit :=
  sendBotMessage h chatId GoodByMessage.

Definition showHelp (h : Host) (chatId : string) : Turn unit :=
  sendBotMessage h chatId HelpMessage.

Definition invalidHours : string :=
  "❌ Por favor especifica un número válido de horas (1-168)".

(** [args[0] ? parseInt(args[0]) : 24]; [None] is NaN. *)
Definition requestedHours (args : list string) : option Z :=
  match args with
  | arg :: _ => if JS.truthy (JS.String arg) then Str.parseInt arg else Some 24
  | [] => Some 24
  end.

Definition deactivateBot (h : Host) (chatId : string) (args : list string)
    : Turn unit :=
  match requestedHours args with
  | None => sendBotMessage h chatId (Text invalidHours)
  | Some hours =>
      if (hours <=? 0)%Z || (168 <? hours)%Z
      then sendBotMessage h chatId (Text invalidHours)
      else
        let expiryTime := now h + hours * 60 * 60 * 1000 in
        owner <- gets (fun w => ownerNumber (commandHandler w)) ;;
        modify (set_commandHandler (set_disabledChats
          (insert chatId {| cd_disabledBy := owner;
                            cd_startTime := now h;
                            cd_expiry := expiryTime |}))) ;;;
        saveDisabledState ;;;
        sendBotMessage h chatId (DeactivatedNotice hours expiryTime)
  end.

(** [if (m[chatId]) { delete m[chatId]; wasDisabled = true; }] for the
    three maps in turn. A chat id carries an "@" (the transport's, or the
    suffix that [forceReactivate] appends), so it is never one of the names
    that a plain object inherits, and the test is the presence of a key. *)
Definition hasEntry (c : CommandHandler) (chatId : string) : bool :=
  bool_decide (is_Some (disabledChats c !! chatId))
  || bool_decide (is_Some (manualInterventions c !! chatId))
  || bool_decide (is_Some (completedChats c !! chatId)).

Definition dropEntries (chatId : string) (c : CommandHandler) : CommandHandler :=
  set_completedChats (delete chatId)
    (set_manualInterventions (delete chatId)
       (set_disabledChats (delete chatId) c)).

Definition activated : string := "✅ Bot activado nuevamente para este chat".
Definition alreadyActive : string := "✅ El bot ya estaba activo para este chat".

Definition activateBot (h : Host) (chatId : string) : Turn unit :=
  wasDisabled <- gets (fun w => hasEntry (commandHandler w) chatId) ;;
  modify (set_commandHandler (dropEntries chatId)) ;;;
  saveDisabledState ;;;
  if wasDisabled
  then sendBotMessage h chatId (Text activated)
  else sendBotMessage h chatId (Text alreadyActive).

Definition missingChatId : string :=
  "❌ Debes especificar el ID del chat a reactivar (ej: /reactivate 5551234567)".

Definition normalizeChatId (target : string) : string :=
  if negb (Str.includes_char "@" target)
  then target ++ "@s.whatsapp.net"
  else target.

Definition reactivated (targetChatId : string) : string :=
  "✅ Chat " ++ targetChatId ++ " reactivado exitosamente".

Definition notDisabled (targetChatId : string) : string :=
  "ℹ️ El chat " ++ targetChatId ++ " no estaba desactivado".

Definition forceReactivate (h : Host) (chatId : string) (args : list string)
    : Turn unit :=
  match args with
  | [] => sock_sendMessage h chatId (Text missingChatId)
  | target :: _ =>
      let targetChatId := normalizeChatId target in
      wasDisabled <- gets (fun w => hasEntry (commandHandler w) targetChatId) ;;
      modify (set_commandHandler (dropEntries targetChatId)) ;;;
      if wasDisabled
      then saveDisabledState ;;;
           sock_sendMessage h chatId (Text (reactivated targetChatId))
      else sock_sendMessage h chatId (Text (notDisabled targetChatId))
  end.

(** The registered commands whose handlers are not embedded here
    (/status, /reset, /stats, /clean, /cleanusers, /setinactive,
    /reactivation): command, chat and arguments. *)
Definition Unembedded : Type := string -> string -> list string -> Turn unit.

Definition handleCommand (h : Host) (rest : Unembedded) (chatId : string)
    (fullCommand : string) : Turn unit :=
  match Str.split " " fullCommand with
  | [] => ret tt
  | command :: args =>
      if existsb (String.eqb command) commands
      then
        try_catch
          (if String.eqb command "👋" then showGoodByMessage h chatId
           else if String.eqb command "/help" then showHelp h chatId
           else if String.eqb command "/off" then deactivateBot h chatId args
           else if String.eqb command "/on" then activateBot h chatId
           else if String.eqb command "/reactivate"
                then forceReactivate h chatId args
           else rest command chatId args)
          (fun error => sendBotMessage h chatId CommandFailure)
      else ret tt
  end.

End CommandHandlerOps.

(** ** autoReactivationManager.js *)

Module AutoReactivation.

Import CommandHandlerOps.

Definition initial : AutoReactivationManager :=
  {| checkInterval := 5 * 60 * 1000;
     isRunning := false;
     lastCheck := None;
     recentlyReactivated := [];
     wasBusinessHours := None;
     massReactivationDone := (-1, -1) |}.

Definition set_lastCheck (t : Z) (a : AutoReactivationManager) :=
  {| checkInterval := checkInterval a; isRunning := isRunning a;
     lastCheck := Some t; recentlyReactivated := recentlyReactivated a;
     wasBusinessHours := wasBusinessHours a;
     massReactivationDone := massReactivationDone a |}.

Definition set_recentlyReactivated (f : list string -> list string)
    (a : AutoReactivationManager) :=
  {| checkInterval := checkInterval a; isRunning := isRunning a;
     lastCheck := lastCheck a; recentlyReactivated := f (recentlyReactivated a);
     wasBusinessHours := wasBusinessHours a;
     massReactivationDone := massReactivationDone a |}.

Definition set_wasBusinessHours (b : bool) (a : AutoReactivationManager) :=
  {| checkInterval := checkInterval a; isRunning := isRunning a;
     lastCheck := lastCheck a; recentlyReactivated := recentlyReactivated a;
     wasBusinessHours := Some b;
     massReactivationDone := massReactivationDone a |}.

Definition set_massReactivationDone (day hour : Z) (a : AutoReactivationManager) :=
  {| checkInterval := checkInterval a; isRunning := isRunning a;
     lastCheck := lastCheck a; recentlyReactivated := recentlyReactivated a;
     wasBusinessHours := wasBusinessHours a;
     massReactivationDone := (day, hour) |}.

Definition set_isRunning (b : bool) (a : AutoReactivationManager) :=
  {| checkInterval := checkInterval a; isRunning := b;
     lastCheck := lastCheck a; recentlyReactivated := recentlyReactivated a;
     wasBusinessHours := wasBusinessHours a;
     massReactivationDone := massReactivationDone a |}.

(** The keys of a map, as a [for ... in] loop pushes them (the order of
    enumeration is not modelled). *)
Definition keys {A} (m : gmap string A) : list string := (map_to_list m).*1.

(** Three loops that delete every key they visit. *)
Definition massReactivateAllChats : Turn Z :=
  c <- gets commandHandler ;;
  let reactivationCount :=
    Z.of_nat (size (disabledChats c) + size (manualInterventions c)
              + size (completedChats c)) in
  modify (set_commandHandler (fun c =>
    set_completedChats (fun _ => ∅)
      (set_manualInterventions (fun _ => ∅)
         (set_disabledChats (fun _ => ∅) c)))) ;;;
  modify (set_autoReactivation (set_recentlyReactivated (fun l =>
    (l ++ keys (disabledChats c) ++ keys (manualInterventions c)
       ++ keys (completedChats c))%list))) ;;;
  (if (0 <? reactivationCount)%Z then saveDisabledState else ret tt) ;;;
  ret reactivationCount.

(** The test of the sweep in [checkAndReactivate]: [expiry <= now]. *)
Definition due {A} `{Expiring A} (t : Z) (e : A) : Prop := expiry e <= t.
#[global] Instance due_dec {A} `{Expiring A} t (e : A) : Decision (due t e).
Proof. unfold due. apply _. Defined.

(** [this.wasBusinessHours && !isBusinessHours], then the comparison with
    the marker: the condition under which [massReactivateAllChats] is
    called. *)
Definition closingDetected (a : AutoReactivationManager) (isBusinessHours : bool)
    : bool :=
  match wasBusinessHours a with
  | Some true => negb isBusinessHours
  | _ => false
  end.

Definition markerDiffers (a : AutoReactivationManager) (currentDay currentHour : Z)
    : bool :=
  negb (fst (massReactivationDone a) =? currentDay)%Z
  || negb (snd (massReactivationDone a) =? currentHour)%Z.

Definition checkAndReactivate (h : Host) : Turn Z :=
  modify (set_autoReactivation (set_lastCheck (now h))) ;;;
  modify (set_autoReactivation (set_recentlyReactivated (fun _ => []))) ;;;
  let isBusinessHours := TimeManager.isBusinessHours (today h) in
  let currentDay := TimeManager.getDay (today h) in
  let currentHour := TimeManager.getHours (today h) in
  a <- gets autoReactivation ;;
  massCount <-
    (if closingDetected a isBusinessHours
     then
       if markerDiffers a currentDay currentHour
       then
         n <- massReactivateAllChats ;;
         modify (set_autoReactivation
                   (set_massReactivationDone currentDay currentHour)) ;;;
         ret n
       else ret 0
     else ret 0) ;;
  modify (set_autoReactivation (set_wasBusinessHours isBusinessHours)) ;;;
  c <- gets commandHandler ;;
  let reactivationCount :=
    massCount
    + Z.of_nat (size (removed (due (now h)) (disabledChats c))
                + size (removed (due (now h)) (manualInterventions c))
                + size (removed (due (now h)) (completedChats c))) in
  modify (set_commandHandler (fun c =>
    set_completedChats (remaining (due (now h)))
      (set_manualInterventions (remaining (due (now h)))
         (set_disabledChats (remaining (due (now h))) c)))) ;;;
  modify (set_autoReactivation (set_recentlyReactivated (fun l =>
    (l ++ keys (removed (due (now h)) (disabledChats c))
       ++ keys (removed (due (now h)) (manualInterventions c))
       ++ keys (removed (due (now h)) (completedChats c)))%list))) ;;;
  (if (0 <? reactivationCount)%Z then saveDisabledState else ret tt) ;;;
  ret reactivationCount.

(** [startAutoReactivation], without the timer it installs. *)
Definition startAutoReactivation (h : Host) : Turn unit :=
  a <- gets autoReactivation ;;
  if isRunning a then ret tt
  else
    modify (set_autoReactivation
              (set_wasBusinessHours (TimeManager.isBusinessHours (today h)))) ;;;
    checkAndReactivate h ;;;
    modify (set_autoReactivation (set_isRunning true)).

(** Whether an invocation in world [w] calls [massReactivateAllChats]:
    the two tests that guard the call. *)
Definition firesMass (h : Host) (w : World) : bool :=
  closingDetected (autoReactivation w)
    (TimeManager.isBusinessHours (today h))
  && markerDiffers (autoReactivation w)
       (TimeManager.getDay (today h)) (TimeManager.getHours (today h)).

(** The (day, hour) that an invocation compares with the marker. *)
Definition pairOf (h : Host) : Z * Z :=
  (TimeManager.getDay (today h), TimeManager.getHours (today h)).

(** Successive invocations, each with the host readings of its moment:
    the (day, hour) of those that performed a mass reactivation, in
    order. *)
Fixpoint massReactivations (hs : list Host) (w : World) : list (Z * Z) :=
  match hs with
  | [] => []
  | h :: rest =>
      let w' := after (checkAndReactivate h w) in
      if firesMass h w
      then pairOf h :: massReactivations rest w'
      else massReactivations rest w'
  end.

End AutoReactivation.

(** ** handlers/intentProcessor.js *)

Module IntentProcessor.

Import StateManagerOps.

(** [parameters.number?.numberValue] *)
Definition numberParam (parameters : Parameters) : JS.value :=
  match number parameters with
  | Some v =>
      match numberValue v with
      | Some n => JS.Number n
      | None => JS.Undefined
      end
  | None => JS.Undefined
  end.

(** [parameters.language?.stringValue] *)
Definition languageParam (parameters : Parameters) : JS.value :=
  match language parameters with
  | Some v => JS.of_string (stringValue v)
  | None => JS.Undefined
  end.

(** [userState.text === s] and [userState.text?.toLowerCase() === s] *)
Definition textIs (userState : UserState) (s : string) : bool :=
  JS.strict_eq (JS.of_string (text userState)) (JS.String s).

Definition lowerTextIs (userState : UserState) (s : string) : bool :=
  JS.strict_eq (JS.of_string (Str.toLowerCase <$> text userState)) (JS.String s).

Definition languageInput (parameters : Parameters) (userState : UserState)
    : JS.value :=
  JS.or
    (JS.or (numberParam parameters)
       (if JS.strict_eq (languageParam parameters) (JS.String "español")
        then JS.of_Z 1
        else if JS.strict_eq (languageParam parameters) (JS.String "ingles")
                || JS.strict_eq (languageParam parameters) (JS.String "english")
        then JS.of_Z 2
        else JS.Null))
    (if textIs userState "1" || lowerTextIs userState "español"
        || lowerTextIs userState "espanol"
     then JS.String "es"
     else if textIs userState "2" || lowerTextIs userState "english"
             || lowerTextIs userState "ingles"
     then JS.String "en"
     else JS.Null).

Definition languageCodeOf (languageInput : JS.value) : string :=
  if JS.strict_eq languageInput (JS.of_Z 1)
     || JS.strict_eq languageInput (JS.String "1")
     || JS.strict_eq languageInput (JS.String "es")
     || JS.strict_eq languageInput (JS.String "español")
  then "es"
  else "en".

(** [parameters.number?.numberValue || parameters.language?.stringValue] *)
Definition productType (parameters : Parameters) : JS.value :=
  JS.or (numberParam parameters) (languageParam parameters).

Definition watches : list JS.value :=
  [JS.String "1"; JS.String "relojes"; JS.String "watches"; JS.of_Z 1].
Definition diamonds : list JS.value :=
  [JS.String "2"; JS.String "diamantes"; JS.String "diamonds"; JS.of_Z 2].
Definition gold : list JS.value :=
  [JS.String "3"; JS.String "oro"; JS.String "gold"; JS.String "plata";
   JS.String "silver"; JS.of_Z 3].

Definition welcomeIntent (h : Host) (chatId userId : string) : Turn unit :=
  sendBotMessage h chatId MessageProvider.getWelcomeMessage ;;;
  updateUserState h userId [set_currentContext "waiting_language_selection"] ;;;
  ret tt.

Definition repromptLanguage (h : Host) (chatId userId : string) : Turn unit :=
  updateUserState h userId [set_currentContext "waiting_language_selection"] ;;;
  sendBotMessage h chatId MessageProvider.getLanguagePrompt.

Definition productSelection (h : Host) (chatId userId : string)
    (parameters : Parameters) (userState : UserState) : Turn unit :=
  let productType := productType parameters in
  let known (responseMessage : Content) : Turn unit :=
    updateUserState h userId
      [set_currentContext "product_selected";
       set_selectedProduct productType;
       set_processCompleted true] ;;;
    let closingMessage :=
      MessageProvider.getClosingMessage (languageCode userState)
        (TimeManager.isBusinessHours (today h)) in
    sendBotMessage h chatId (Paragraphs responseMessage closingMessage) in
  if JS.includes watches productType
  then known (MessageProvider.getWatchesResponse (languageCode userState))
  else if JS.includes diamonds productType
  then known (MessageProvider.getDiamondsResponse (languageCode userState))
  else if JS.includes gold productType
  then known (MessageProvider.getGoldResponse (languageCode userState))
  else sendBotMessage h chatId
         (MessageProvider.getFallbackMessage (languageCode userState)).

Definition fallbackIntent (h : Host) (chatId userId : string)
    (userState : UserState) : Turn unit :=
  if String.eqb (currentContext userState) "waiting_language_selection"
  then repromptLanguage h chatId userId
  else sendBotMessage h chatId
         (MessageProvider.getFallbackMessage (languageCode userState)).

Definition defaultIntent (h : Host) (chatId : string) (userState : UserState)
    : Turn unit :=
  sendBotMessage h chatId
    (MessageProvider.getDefaultResponse (languageCode userState)).

(** The case "lenguaje" of handlers/intentProcessor.js. *)
Definition lenguaje (h : Host) (chatId userId : string)
    (parameters : Parameters) (userState : UserState) : Turn unit :=
  let languageInput := languageInput parameters userState in
  if JS.truthy languageInput
  then
    let languageCode := languageCodeOf languageInput in
    updateUserState h userId
      [set_languageCode languageCode;
       set_currentContext "language_selected";
       set_languageSelectionComplete true] ;;;
    let isBusinessHours := TimeManager.isBusinessHours (today h) in
    menuMessage <-
      (if isBusinessHours
       then ret (MessageProvider.getBusinessHoursMenu (Some languageCode))
       else
         updateUserState h userId
           [set_currentContext "product_selected";
            set_processCompleted true] ;;;
         ret (MessageProvider.getOutOfHoursMessage (Some languageCode))) ;;
    sendBotMessage h chatId menuMessage
  else repromptLanguage h chatId userId.

Definition processIntent (h : Host) (chatId userId intent : string)
    (parameters : Parameters) (userState : UserState) : Turn unit :=
  if String.eqb intent "Default Welcome Intent"
  then welcomeIntent h chatId userId
  else if String.eqb intent "lenguaje"
  then lenguaje h chatId userId parameters userState
  else if String.eqb intent "ProductSelection"
  then productSelection h chatId userId parameters userState
  else if String.eqb intent "Default Fallback Intent"
  then fallbackIntent h chatId userId userState
  else defaultIntent h chatId userState.

End IntentProcessor.

(** ** The older single-file index.js: its own [processIntent] *)

Module LegacyIndex.

Import StateManagerOps.

(** [sendBotMessage] of that file: it logs the error of the transport and
    returns, where the one of services/messageService.js throws it again. *)
Definition sendBotMessage (h : Host) (chatId : string) (content : Content)
    : Turn unit :=
  try_catch (sock_sendMessage h chatId content) (fun error => ret tt).

Definition welcomeIntent (h : Host) (chatId userId : string) : Turn unit :=
  sendBotMessage h chatId MessageProvider.getWelcomeMessage ;;;
  updateUserState h userId [set_currentContext "waiting_language_selection"] ;;;
  ret tt.

Definition repromptLanguage (h : Host) (chatId userId : string) : Turn unit :=
  updateUserState h userId [set_currentContext "waiting_language_selection"] ;;;
  sendBotMessage h chatId MessageProvider.getLanguagePrompt.

(** The case "lenguaje" of that file. The resolution of the language is
    the same expression as in handlers/intentProcessor.js; the branch on
    the business hours tests [!isBusinessHours]. *)
Definition lenguaje (h : Host) (chatId userId : string)
    (parameters : Parameters) (userState : UserState) : Turn unit :=
  let languageInput := IntentProcessor.languageInput parameters userState in
  if JS.truthy languageInput
  then
    let languageCode := IntentProcessor.languageCodeOf languageInput in
    updateUserState h userId
      [set_languageCode languageCode;
       set_currentContext "language_selected";
       set_languageSelectionComplete true] ;;;
    let isBusinessHours := TimeManager.isBusinessHours (today h) in
    menuMessage <-
      (if negb isBusinessHours
       then ret (MessageProvider.getBusinessHoursMenu (Some languageCode))
       else
         updateUserState h userId
           [set_currentContext "product_selected";
            set_processCompleted true] ;;;
         ret (MessageProvider.getOutOfHoursMessage (Some languageCode))) ;;
    sendBotMessage h chatId menuMessage
  else repromptLanguage h chatId userId.

Definition productSelection (h : Host) (chatId userId : string)
    (parameters : Parameters) (userState : UserState) : Turn unit :=
  let productType := IntentProcessor.productType parameters in
  let known (responseMessage : Content) : Turn unit :=
    updateUserState h userId
      [set_currentContext "product_selected";
       set_selectedProduct productType;
       set_processCompleted true] ;;;
    let closingMessage :=
      MessageProvider.getClosingMessage (languageCode userState)
        (TimeManager.isBusinessHours (today h)) in
    sendBotMessage h chatId (Paragraphs responseMessage closingMessage) in
  if JS.includes IntentProcessor.watches productType
  then known (MessageProvider.getWatchesResponse (languageCode userState))
  else if JS.includes IntentProcessor.diamonds productType
  then known (MessageProvider.getDiamondsResponse (languageCode userState))
  else if JS.includes IntentProcessor.gold productType
  then known (MessageProvider.getGoldResponse (languageCode userState))
  else sendBotMessage h chatId
         (MessageProvider.getFallbackMessage (languageCode userState)).

Definition fallbackIntent (h : Host) (chatId userId : string)
    (userState : UserState) : Turn unit :=
  if String.eqb (currentContext userState) "waiting_language_selection"
  then repromptLanguage h chatId userId
  else sendBotMessage h chatId
         (MessageProvider.getFallbackMessage (languageCode userState)).

Definition defaultIntent (h : Host) (chatId : string) (userState : UserState)
    : Turn unit :=
  sendBotMessage h chatId
    (MessageProvider.getDefaultResponse (languageCode userState)).

(** The cases read as in handlers/intentProcessor.js, the test of the
    business hours apart; every message goes through the [sendBotMessage]
    of this file. *)
Definition processIntent (h : Host) (chatId userId intent : string)
    (parameters : Parameters) (userState : UserState) : Turn unit :=
  if String.eqb intent "Default Welcome Intent"
  then welcomeIntent h chatId userId
  else if String.eqb intent "lenguaje"
  then lenguaje h chatId userId parameters userState
  else if String.eqb intent "ProductSelection"
  then productSelection h chatId userId parameters userState
  else if String.eqb intent "Default Fallback Intent"
  then fallbackIntent h chatId userId userState
  else defaultIntent h chatId userState.

End LegacyIndex.

(** ** handlers/incomingMessage.js *)

Module IncomingMessage.

Import StateManagerOps CommandHandlerOps.

(** [message.key.remoteJid] and the text of the message
    ([conversation || extendedTextMessage?.text || ""]). *)
Record Message := {
  remoteJid : string;
  userMessage : string
}.

Definition farewellEn : string :=
  "Thank you for your inquiry! We've registered your information.".
Definition farewellEs : string :=
  "¡Gracias por tu consulta! Hemos registrado tu información.".
Definition errorEn : string :=
  "I'm sorry, there was an error processing your message. Please try again later.".
Definition errorEs : string :=
  "Lo siento, hubo un error al procesar tu mensaje. Por favor, intenta más tarde.".

(** [userState.languageCode || "es"] *)
Definition languageOrEs (userState : UserState) : string :=
  match languageCode userState with
  | Some s => if JS.truthy (JS.String s) then s else "es"
  | None => "es"
  end.

(** [currentContexts]: the session's context, when it is not empty. *)
Definition currentContextsOf (userState : UserState) : list string :=
  if JS.truthy (JS.String (currentContext userState))
  then [currentContext userState] else [].

(** The call to Dialogflow of step 4. *)
Definition askDialogflow (h : Host) (userId userMessage : string)
    (userState : UserState) : option QueryResult :=
  detectIntentWithContexts h userId userMessage
    (languageOrEs userState) (currentContextsOf userState).

(** The farewell of step 5. *)
Definition farewellFor (userState : UserState) : string :=
  let language := languageOrEs userState in
  if String.eqb language "en" then farewellEn else farewellEs.

(** Steps 3 to 6: from the session lookup on. *)
Definition converse (h : Host) (chatId userId : string) (userMessage : string)
    : Turn unit :=
  userState <- getUserState h userId ;;
  try_catch
    (match askDialogflow h userId userMessage userState with
     | None => throw DialogflowError
     | Some queryResult =>
         if String.eqb (intent queryResult) "ProcessCompleted"
            || processCompleted userState
         then
           markProcessCompleted h chatId None ;;;
           let farewellMsg := farewellFor userState in
           sendBotMessage h chatId (Text farewellMsg) ;;;
           updateUserState h userId
             [set_currentContext ""; set_processCompleted false] ;;;
           ret tt
         else
           IntentProcessor.processIntent h chatId userId (intent queryResult)
             (parameters queryResult) userState
     end)
    (fun error =>
       let errorMsg :=
         if MessageProvider.is_en (languageCode userState)
         then errorEn else errorEs in
       sendBotMessage h chatId (Text errorMsg)).

Definition handleIncomingMessage (h : Host) (rest : Unembedded)
    (message : Message) : Turn unit :=
  let chatId := remoteJid message in
  if Str.endsWith chatId "@g.us" then ret tt
  else
    let userId := Str.first_part "@" chatId in
    let userMessage := userMessage message in
    c <- gets commandHandler ;;
    handled <-
      (if isOwner c userId
       then
         if isCommand userMessage
         then handleCommand h rest chatId userMessage ;;; ret true
         else detectOwnerMessage chatId userMessage
       else ret false) ;;
    if (handled : bool) then ret tt
    else
      disabled <- isChatDisabled h chatId ;;
      if JS.truthy disabled then ret tt
      else converse h chatId userId userMessage.

End IncomingMessage.

(** ** Vocabulary of the statements *)

(** What [cleanExpiredEntries] leaves of the handler. *)
Definition swept (t : Z) (c : CommandHandler) : CommandHandler :=
  set_completedChats (CommandHandlerOps.remaining (CommandHandlerOps.expired t))
    (set_manualInterventions (CommandHandlerOps.remaining (CommandHandlerOps.expired t))
       (set_disabledChats (CommandHandlerOps.remaining (CommandHandlerOps.expired t)) c)).

(** "At least one of the three entries of the chat has expiry > t". *)
Definition liveEntry (c : CommandHandler) (t : Z) (chatId : string) : Prop :=
  (exists e, disabledChats c !! chatId = Some e /\ t < expiry e)
  \/ (exists e, manualInterventions c !! chatId = Some e /\ t < expiry e)
  \/ (exists e, completedChats c !! chatId = Some e /\ t < expiry e).

(** ** Worlds and hosts used by the concrete checks *)

Definition emptyHandler (owner : string) : CommandHandler :=
  {| ownerNumber := owner; disabledChats := ∅; manualInterventions := ∅;
     completedChats := ∅ |}.

Definition startWorld (owner : string) : World :=
  {| commandHandler := emptyHandler owner;
     stateManager := {| states := ∅ |};
     autoReactivation := AutoReactivation.initial;
     effects := [] |}.

(** A host whose transport accepts everything and whose Dialogflow agent
    always answers with the given result. *)
Definition hostAt (t : Z) (d : TimeManager.Date) (answer : option QueryResult) : Host :=
  {| now := t; today := d; accepts := fun _ _ => true;
     detectIntentWithContexts := fun _ _ _ _ => answer |}.

Definition monday (hour : Z) : TimeManager.Date :=
  {| TimeManager.getMonth := 2; TimeManager.getDate := 3;
     TimeManager.weekDay := TimeManager.Monday; TimeManager.getHours := hour |}.

(** The chat has an entry in at least one of the three maps; in none. *)
Definition holdsEntry (c : CommandHandler) (chatId : string) : Prop :=
  is_Some (disabledChats c !! chatId)
  \/ is_Some (manualInterventions c !! chatId)
  \/ is_Some (completedChats c !! chatId).

Definition clearedFor (c : CommandHandler) (chatId : string) : Prop :=
  disabledChats c !! chatId = None
  /\ manualInterventions c !! chatId = None
  /\ completedChats c !! chatId = None.

(** The entries of every chat but one are the same in two handlers. *)
Definition sameElsewhere (c c' : CommandHandler) (chatId : string) : Prop :=
  forall k, k <> chatId ->
    disabledChats c' !! k = disabledChats c !! k
    /\ manualInterventions c' !! k = manualInterventions c !! k
    /\ completedChats c' !! k = completedChats c !! k.

(** The snapshot that [saveDisabledState] writes for a handler. *)
Definition snapshot (c : CommandHandler) : Event :=
  SavedDisabledState (disabledChats c) (manualInterventions c) (completedChats c).

(** A world with another handler and another trace. *)
Definition withHandlerAndEffects (w : World) (c : CommandHandler) (es : list Event) : World :=
  {| commandHandler := c; stateManager := stateManager w;
     autoReactivation := autoReactivation w; effects := es |}.

(** How an attempt to send ends. *)
Definition sending (h : Host) (chatId : string) (content : Content) : Outcome unit :=
  if accepts h chatId content then Done tt else Thrown TransportError.

(** The last thing a world's trace shows: the message handed to the
    transport, with its addressee, if the last effect was a send. *)
Definition reported (w : World) : option (string * Content) :=
  match last (effects w) with
  | Some (Sent chatId content _) => Some (chatId, content)
  | _ => None
  end.

(** "Reactivation reports whether the chat was disabled": [/on] answers
    "activated again" exactly when the chat was disabled, that is (C2) when
    one of its entries had [expiry > now]. *)
Definition reportsWhetherDisabled : Prop :=
  forall (h : Host) (chatId : string) (w : World),
    reported (after (CommandHandlerOps.activateBot h chatId w))
    = Some (chatId, Text CommandHandlerOps.activated)
    <-> liveEntry (commandHandler w) (now h) chatId.

(** The no-break space U+00A0, and a narrow one, U+202F, as UTF-8 holds
    them. *)
Definition noBreakSpace : string :=
  String.String (ascii_of_N 194) (String.String (ascii_of_N 160) EmptyString).
Definition narrowNoBreakSpace : string :=
  String.String (ascii_of_N 226)
    (String.String (ascii_of_N 128) (String.String (ascii_of_N 175) EmptyString)).


(** The entry that [/off] stores for [hours] hours. *)
Definition offEntry (h : Host) (w : World) (hours : Z) : CommandDisable :=
  {| cd_disabledBy := ownerNumber (commandHandler w);
     cd_startTime := now h;
     cd_expiry := now h + hours * 3600000 |}.

(** [/off] accepted for [hours] hours: the entry is stored for the invoking
    chat, the registry is saved and the confirmation is sent. *)
Definition offAccepted (h : Host) (chatId : string) (w w' : World) (hours : Z) : Prop :=
  commandHandler w'
  = set_disabledChats (insert chatId (offEntry h w hours)) (commandHandler w)
  /\ disabledChats (commandHandler w') !! chatId = Some (offEntry h w hours)
  /\ effects w'
     = (effects w
        ++ [snapshot (commandHandler w');
            Sent chatId (DeactivatedNotice hours (now h + hours * 3600000))
              (accepts h chatId
                 (DeactivatedNotice hours (now h + hours * 3600000)))])%list.

(** [/off] rejected: the handler is what it was, nothing is saved, and the
    only effect is the error reply. *)
Definition offRejected (h : Host) (chatId : string) (w w' : World) : Prop :=
  commandHandler w' = commandHandler w
  /\ stateManager w' = stateManager w
  /\ effects w'
     = (effects w
        ++ [Sent chatId (Text CommandHandlerOps.invalidHours)
              (accepts h chatId (Text CommandHandlerOps.invalidHours))])%list.

(** The text is the [/on] command: once trimmed, its leading token is
    [/on] (how the command router reads a command). *)
Definition isOnCommand (text : string) : Prop :=
  Str.first_part " " (Str.trim text) = "/on".

(** The reading of [detectOwnerMessage] by which it answers [true] exactly
    for an owner's text that is not the [/on] command. *)
Definition ownerMessageUnlessOnCommand : Prop :=
  forall (w : World) (chatId text : string),
    result (CommandHandlerOps.detectOwnerMessage chatId text w) = Done true
    <-> Str.first_part "@" chatId = ownerNumber (commandHandler w)
        /\ ~ isOnCommand text.

(** The month and day (as [getMonth()], [getDate()]) of the configured
    holidays: 1 January, 4 July, 25 December. *)
Definition configuredHoliday (d : TimeManager.Date) : Prop :=
  (TimeManager.getMonth d = 0 /\ TimeManager.getDate d = 1)
  \/ (TimeManager.getMonth d = 6 /\ TimeManager.getDate d = 4)
  \/ (TimeManager.getMonth d = 11 /\ TimeManager.getDate d = 25).

(** A date as a [Date] object can show it. *)
Definition calendarDate (d : TimeManager.Date) : Prop :=
  0 <= TimeManager.getMonth d <= 11
  /\ 1 <= TimeManager.getDate d <= 31
  /\ 0 <= TimeManager.getHours d <= 23.

(** What the per-entry sweep of [checkAndReactivate] leaves of the handler. *)
Definition sweptDue (t : Z) (c : CommandHandler) : CommandHandler :=
  set_completedChats (CommandHandlerOps.remaining (AutoReactivation.due t))
    (set_manualInterventions (CommandHandlerOps.remaining (AutoReactivation.due t))
       (set_disabledChats (CommandHandlerOps.remaining (AutoReactivation.due t)) c)).

(** All three maps are empty. *)
Definition registryEmpty (c : CommandHandler) : Prop :=
  disabledChats c = ∅ /\ manualInterventions c = ∅ /\ completedChats c = ∅.

(** No two neighbours of the list are equal. *)
Fixpoint distinctNeighbours (l : list (Z * Z)) : Prop :=
  match l with
  | a :: (b :: _) as rest => a <> b /\ distinctNeighbours rest
  | _ => True
  end.

(** Two weeks' worth of closings, one invocation before and one after 17 h:
    Monday, Tuesday, and the Monday after. *)
Definition tuesday (hour : Z) : TimeManager.Date :=
  {| TimeManager.getMonth := 2; TimeManager.getDate := 4;
     TimeManager.weekDay := TimeManager.Tuesday; TimeManager.getHours := hour |}.

Definition nextMonday (hour : Z) : TimeManager.Date :=
  {| TimeManager.getMonth := 2; TimeManager.getDate := 10;
     TimeManager.weekDay := TimeManager.Monday; TimeManager.getHours := hour |}.

Definition closings : list Host :=
  [hostAt 1000 (monday 16) None; hostAt 2000 (monday 17) None;
   hostAt 3000 (tuesday 16) None; hostAt 4000 (tuesday 17) None;
   hostAt 5000 (nextMonday 16) None; hostAt 6000 (nextMonday 17) None].

(** A world in which the chat of a customer was switched off for 48 hours
    at 1000 ms and the scheduler last ran during business hours. *)
Definition openWithDisabledChat : World :=
  after (AutoReactivation.checkAndReactivate (hostAt 1500 (monday 16) None)
           (after (CommandHandlerOps.deactivateBot (hostAt 1000 (monday 16) None)
                     "5550001111@s.whatsapp.net" ["48"]
                     (startWorld "1234567890")))).

(** A world with other sessions and another trace. *)
Definition withStates (w : World) (st : gmap string UserState) (es : list Event) : World :=
  {| commandHandler := commandHandler w; stateManager := {| states := st |};
     autoReactivation := autoReactivation w; effects := es |}.

(** The language was set and the main menu sent: the session is at
    [language_selected] with [processCompleted] as it was, the sessions were
    saved and then the menu of that language was handed to the transport. *)
Definition menuOutcome (h : Host) (chatId userId lc : string) (u : UserState)
    (w w' : World) : Prop :=
  exists s,
    states (stateManager w') !! userId = Some s
    /\ languageCode s = Some lc
    /\ currentContext s = "language_selected"
    /\ processCompleted s = processCompleted u
    /\ commandHandler w' = commandHandler w
    /\ exists first,
         effects w'
         = (effects w
            ++ [SavedStates first;
                Sent chatId (BusinessHoursMenu (String.eqb lc "en"))
                  (accepts h chatId (BusinessHoursMenu (String.eqb lc "en")))])%list
         /\ (languageCode <$> first !! userId) = Some (Some lc).

(** The language was set and the out-of-hours message sent: the session has
    [processCompleted = true] (and context [product_selected]), the sessions
    were saved twice and then the out-of-hours message of that language was
    handed to the transport. *)
Definition outOfHoursOutcome (h : Host) (chatId userId lc : string) (u : UserState)
    (w w' : World) : Prop :=
  exists s,
    states (stateManager w') !! userId = Some s
    /\ languageCode s = Some lc
    /\ currentContext s = "product_selected"
    /\ processCompleted s = true
    /\ commandHandler w' = commandHandler w
    /\ exists first second,
         effects w'
         = (effects w
            ++ [SavedStates first; SavedStates second;
                Sent chatId (OutOfHoursMessage (String.eqb lc "en"))
                  (accepts h chatId (OutOfHoursMessage (String.eqb lc "en")))])%list
         /\ (languageCode <$> first !! userId) = Some (Some lc)
         /\ (processCompleted <$> second !! userId) = Some true.

(** The handler went on with language [lc]: the session holds it and is not
    waiting for a language any more, and what was sent is the main menu or
    the out-of-hours message of that language (so not the language
    prompt). *)
Definition proceedsIn (lc chatId userId : string) (w' : World) : Prop :=
  exists s,
    states (stateManager w') !! userId = Some s
    /\ languageCode s = Some lc
    /\ currentContext s <> "waiting_language_selection"
    /\ (reported w' = Some (chatId, BusinessHoursMenu (String.eqb lc "en"))
        \/ reported w' = Some (chatId, OutOfHoursMessage (String.eqb lc "en"))).

(** The language input is none of [1], ["1"], ["es"], ["español"]. *)
Definition notSpanish (v : JS.value) : Prop :=
  JS.strict_eq v (JS.of_Z 1) = false
  /\ JS.strict_eq v (JS.String "1") = false
  /\ JS.strict_eq v (JS.String "es") = false
  /\ JS.strict_eq v (JS.String "español") = false.

(** Parameters whose [number] field carries the finite number [q]. *)
Definition numericParameters (q : Q) (language : option ParameterValue) : Parameters :=
  {| number := Some {| numberValue := Some (JS.Fin q); stringValue := None |};
     language := language |}.

(** A session waiting for the language, first seen at 0 ms. *)
Definition waitingSession : UserState :=
  {| languageCode := None;
     currentContext := "waiting_language_selection";
     lastInteraction := 0;
     sessionStarted := 0;
     selectedProduct := JS.Null;
     processCompleted := false;
     processStage := "initial";
     languageSelectionComplete := None;
     text := None |}.

Definition customer : string := "5550001111@s.whatsapp.net".

Definition waitingWorld : World :=
  withStates (startWorld "1234567890") {[ "5550001111" := waitingSession ]} [].

(** The session that a turn finds for a user: the stored one, or the
    record created on first contact. *)
Definition sessionOf (h : Host) (w : World) (userId : string) : UserState :=
  default (StateManagerOps.freshState h) (states (stateManager w) !! userId).

(** The [CompletedChat] entry written at [now h] for [hours] hours. *)
Definition completedEntry (h : Host) (hours : Z) : CompletedChat :=
  {| cc_completedAt := now h; cc_expiry := now h + hours * 3600000 |}.

(** A turn closed a conversation with an entry of [hours] hours: the chat
    has that [CompletedChat] entry, the session has an empty context and
    [processCompleted = false], and the trace ends with, in this order, the
    saved registry (holding the entry), the farewell accepted by the
    transport, and the saved sessions (holding the reset session). *)
Definition closedFor (h : Host) (chatId userId : string) (hours : Z)
    (u : UserState) (w w' : World) : Prop :=
  completedChats (commandHandler w') !! chatId = Some (completedEntry h hours)
  /\ (exists s,
        states (stateManager w') !! userId = Some s
        /\ currentContext s = ""
        /\ processCompleted s = false
        /\ languageCode s = languageCode u)
  /\ exists before d m c st,
       effects w'
       = (effects w ++ before
          ++ [SavedDisabledState d m c;
              Sent chatId (Text (IncomingMessage.farewellFor u)) true;
              SavedStates st])%list
       /\ c !! chatId = Some (completedEntry h hours)
       /\ c = completedChats (commandHandler w')
       /\ st = states (stateManager w')
       /\ (forall e, e ∈ before ->
             (exists d' m' c', e = SavedDisabledState d' m' c')
             \/ (exists st', e = SavedStates st')).

(** The apology of the incoming handler for a session. *)
Definition apologyFor (u : UserState) : string :=
  if MessageProvider.is_en (languageCode u)
  then IncomingMessage.errorEn else IncomingMessage.errorEs.




(** A customer whose session is flagged as completed, in a world with no
    registry entry. *)
Definition completedSession : UserState :=
  {| languageCode := Some "en";
     currentContext := "product_selected";
     lastInteraction := 0;
     sessionStarted := 0;
     selectedProduct := JS.of_Z 1;
     processCompleted := true;
     processStage := "initial";
     languageSelectionComplete := Some true;
     text := None |}.

Definition completedWorld : World :=
  withStates (startWorld "1234567890") {[ "5550001111" := completedSession ]} [].

Definition thanks : QueryResult :=
  {| intent := "Default Fallback Intent";
     parameters := {| number := None; language := None |} |}.

Definition noOtherCommands : CommandHandlerOps.Unembedded :=
  fun _ _ _ => ret tt.

(** The same customer, after the owner wrote in the chat: a manual
    intervention runs until 90 000 000 ms. *)
Definition completedButSilenced : World :=
  withHandlerAndEffects completedWorld
    (set_manualInterventions
       (insert customer {| mi_startTime := 500; mi_expiry := 90000000 |})
       (emptyHandler "1234567890"))
    [].

(** A host whose transport rejects everything. *)
Definition deafHostAt (t : Z) (d : TimeManager.Date) (answer : option QueryResult) : Host :=
  {| now := t; today := d; accepts := fun _ _ => false;
     detectIntentWithContexts := fun _ _ _ _ => answer |}.

Definition thanksMessage : IncomingMessage.Message :=
  {| IncomingMessage.remoteJid := customer;
     IncomingMessage.userMessage := "gracias" |}.

(** A registry whose only entry is a manual intervention on the customer's
    chat, started at 0 ms and expiring at [t]. *)
Definition interventionUntil (t : Z) : World :=
  withHandlerAndEffects (startWorld "1234567890")
    (set_manualInterventions
       (insert customer {| mi_startTime := 0; mi_expiry := t |})
       (emptyHandler "1234567890"))
    [].

(** * The rest of the cited files *)

(** ** stateManager.js: sweeps, reset, delete *)

Module SessionStore.

Import StateManagerOps.

Definition sessions (w : World) : gmap string UserState := states (stateManager w).

(** The test of both sweeps: [now - lastInteraction > limit]. *)
Definition idle (t limit : Z) (s : UserState) : Prop := t - lastInteraction s > limit.
#[global] Instance idle_dec t limit s : Decision (idle t limit s).
Proof. unfold idle. apply _. Defined.

Definition thirtyDaysInMs : Z := 30 * 24 * 60 * 60 * 1000.

Definition cleanupOldSessions (h : Host) : Turn unit :=
  st <- gets sessions ;;
  let cleanupCount :=
    size (CommandHandlerOps.removed (idle (now h) thirtyDaysInMs) st) in
  modify (set_states (CommandHandlerOps.remaining (idle (now h) thirtyDaysInMs))) ;;;
  if (0 <? cleanupCount)%nat then saveStates else ret tt.

(** [cleanupInactiveUsers(months = 3)] *)
Definition cleanupInactiveUsers (h : Host) (months : option Z) : Turn Z :=
  let months := default 3 months in
  let inactivityThreshold := months * 30 * 24 * 60 * 60 * 1000 in
  st <- gets sessions ;;
  let cleanupCount :=
    size (CommandHandlerOps.removed (idle (now h) inactivityThreshold) st) in
  modify (set_states (CommandHandlerOps.remaining (idle (now h) inactivityThreshold))) ;;;
  (if (0 <? cleanupCount)%nat then saveStates else ret tt) ;;;
  ret (Z.of_nat cleanupCount).

(** [hasRecentInteraction(userId, timeInMs = 30 * 60 * 1000)]. The clock is
    read twice: by [getUserState], which stamps and saves the record of a new
    user, and then for the comparison; [later] is the second reading. *)
Definition hasRecentInteraction (h : Host) (later : Z) (userId : string)
    (timeInMs : option Z) : Turn bool :=
  let timeInMs := default (30 * 60 * 1000) timeInMs in
  userState <- getUserState h userId ;;
  ret (later - lastInteraction userState <? timeInMs)%Z.

(** The record that [resetUserState] writes: the language is kept. *)
Definition resetRecord (h : Host) (languageCode : option string) : UserState :=
  {| languageCode := languageCode;
     currentContext := "welcome";
     lastInteraction := now h;
     sessionStarted := now h;
     selectedProduct := JS.Null;
     processCompleted := false;
     processStage := "initial";
     languageSelectionComplete := None;
     text := None |}.

(** The store is a plain object, and [this.states[userId]] also finds what
    the object inherits from [Object.prototype]: for these twelve names the
    test [if (this.states[userId])] succeeds although the store has no such
    key. Eleven are functions; [__proto__] is the accessor of the prototype
    itself. The user ids of the handlers are the digits of a chat id, but
    the argument of [/reset] is whatever the owner types. *)
Definition inheritedNames : list string :=
  ["constructor"; "__defineGetter__"; "__defineSetter__"; "hasOwnProperty";
   "__lookupGetter__"; "__lookupSetter__"; "isPrototypeOf";
   "propertyIsEnumerable"; "toString"; "valueOf"; "__proto__";
   "toLocaleString"].

Definition inherited (name : string) : bool :=
  existsb (String.eqb name) inheritedNames.

(** For a stored user the language is kept. For an inherited name the value
    found has no [languageCode] (it is [undefined], which every test of the
    handlers treats as [null]); the assignment then creates the key, except
    for [__proto__], where it replaces the prototype of the store and
    creates nothing. The store is saved and [true] returned all the same.
    (A replaced prototype is not part of the state: the worlds of this model
    are those whose store still inherits from [Object.prototype].) *)
Definition resetUserState (h : Host) (userId : string) : Turn bool :=
  known <- gets (fun w => sessions w !! userId) ;;
  match known with
  | Some userState =>
      modify (set_states (insert userId (resetRecord h (languageCode userState)))) ;;;
      saveStates ;;;
      ret true
  | None =>
      if inherited userId
      then
        (if String.eqb userId "__proto__" then ret tt
         else modify (set_states (insert userId (resetRecord h None)))) ;;;
        saveStates ;;;
        ret true
      else ret false
  end.

(** [delete] removes a key of the store only: for an inherited name nothing
    goes, and the store is saved and [true] returned. *)
Definition deleteUserState (userId : string) : Turn bool :=
  known <- gets (fun w => sessions w !! userId) ;;
  match known with
  | Some _ =>
      modify (set_states (delete userId)) ;;;
      saveStates ;;;
      ret true
  | None =>
      if inherited userId then saveStates ;;; ret true else ret false
  end.

End SessionStore.

(** ** commandHandler.js: /reset, /stats, /clean *)

Module OwnerCommands.

Import CommandHandlerOps.

Definition newline : string := String.String (ascii_of_nat 10) EmptyString.

(** [args[0] || chatId.split("@")[0]] *)
Definition targetUser (chatId : string) (args : list string) : string :=
  match args with
  | arg :: _ => if JS.truthy (JS.String arg) then arg else Str.first_part "@" chatId
  | [] => Str.first_part "@" chatId
  end.

Definition resetDone (targetUser : string) : string :=
  "✅ Estado del usuario " ++ targetUser ++ " reiniciado correctamente".

Definition resetMissing (targetUser : string) : string :=
  "❌ No se encontró estado para el usuario " ++ targetUser.

Definition resetUserState (h : Host) (chatId : string) (args : list string)
    : Turn unit :=
  let targetUser := targetUser chatId args in
  found <- SessionStore.resetUserState h targetUser ;;
  if (found : bool)
  then sock_sendMessage h chatId (Text (resetDone targetUser))
  else sock_sendMessage h chatId (Text (resetMissing targetUser)).

(** The counters of [getStats]. *)
Record Stats := {
  totalUsers : nat;
  spanishUsers : nat;
  englishUsers : nat;
  activeToday : nat;
  activeLast7Days : nat
}.

Definition oneDayMs : Z := 24 * 60 * 60 * 1000.
Definition sevenDaysMs : Z := 7 * oneDayMs.

Definition speaks (code : string) (s : UserState) : Prop :=
  languageCode s = Some code.
#[global] Instance speaks_dec code s : Decision (speaks code s).
Proof. unfold speaks. apply _. Defined.

(** [now - user.lastInteraction < window] *)
Definition activeWithin (t window : Z) (s : UserState) : Prop :=
  t - lastInteraction s < window.
#[global] Instance activeWithin_dec t window s : Decision (activeWithin t window s).
Proof. unfold activeWithin. apply _. Defined.

Definition countStats (h : Host) (st : gmap string UserState) : Stats :=
  {| totalUsers := size st;
     spanishUsers := size (removed (speaks "es") st);
     englishUsers := size (removed (speaks "en") st);
     activeToday := size (removed (activeWithin (now h) oneDayMs) st);
     activeLast7Days := size (removed (activeWithin (now h) sevenDaysMs) st) |}.

Definition showNat (n : nat) : string := Str.toString (Z.of_nat n).

Definition statsMessage (s : Stats) (c : CommandHandler) : string :=
  "📊 *Estadísticas del Bot*" ++ newline ++ newline
  ++ "Total de usuarios: " ++ showNat (totalUsers s) ++ newline
  ++ "Usuarios en español: " ++ showNat (spanishUsers s) ++ newline
  ++ "Usuarios en inglés: " ++ showNat (englishUsers s) ++ newline
  ++ "Usuarios sin idioma definido: "
  ++ Str.toString (Z.of_nat (totalUsers s) - Z.of_nat (spanishUsers s)
                   - Z.of_nat (englishUsers s))
  ++ newline ++ newline
  ++ "Activos hoy: " ++ showNat (activeToday s) ++ newline
  ++ "Activos últimos 7 días: " ++ showNat (activeLast7Days s) ++ newline ++ newline
  ++ "Chats desactivados: " ++ showNat (size (disabledChats c)) ++ newline
  ++ "Intervenciones manuales: " ++ showNat (size (manualInterventions c)) ++ newline
  ++ "Procesos completados: " ++ showNat (size (completedChats c)).

Definition getStats (h : Host) (chatId : string) : Turn unit :=
  st <- gets SessionStore.sessions ;;
  c <- gets commandHandler ;;
  sock_sendMessage h chatId (Text (statsMessage (countStats h st) c)).

Definition cleanReport (deletedCount : Z) : string :=
  "🧹 Limpieza completada:" ++ newline ++ "- " ++ Str.toString deletedCount
  ++ " sesiones antiguas eliminadas" ++ newline ++ "- Entradas expiradas limpiadas".

Definition cleanOldData (h : Host) (chatId : string) : Turn unit :=
  prevCount <- gets (fun w => size (SessionStore.sessions w)) ;;
  SessionStore.cleanupOldSessions h ;;;
  newCount <- gets (fun w => size (SessionStore.sessions w)) ;;
  let deletedCount := Z.of_nat prevCount - Z.of_nat newCount in
  cleanExpiredEntries h ;;;
  sock_sendMessage h chatId (Text (cleanReport deletedCount)).

End OwnerCommands.

(** ** messageService.js: who wrote an outgoing message *)

Module MessageService.

(** [s.includes(needle)] *)
Fixpoint includes (needle s : string) : bool :=
  String.prefix needle s
  || match s with
     | EmptyString => false
     | String.String _ r => includes needle r
     end.

(** What is read of an outgoing message: [key.remoteJid], [key.id],
    [message.extendedTextMessage.contextInfo.mentionedJid] and the text
    ([conversation || extendedTextMessage?.text || ""]). *)
Record Outgoing := {
  remoteJid : string;
  keyId : option string;
  mentionedJid : option (list string);
  body : string
}.

Definition botKeywords : list string :=
  ["Wynwood baby!!!"; "Andy's Don Cash"; "🤖"].

(** [botSentMessageIds], the ids that [sendBotMessage] remembered during the
    last minute, is given from outside. *)
Definition wasBotGeneratedMessage (botSentMessageIds : gset string)
    (message : Outgoing) : bool :=
  if match keyId message with
     | Some id => JS.truthy (JS.String id) && bool_decide (id ∈ botSentMessageIds)
     | None => false
     end
  then true
  else
    match mentionedJid message with
    | Some mentioned => existsb (String.eqb "bot-identifier") mentioned
    | None => existsb (fun keyword => includes keyword (body message)) botKeywords
    end.

End MessageService.

(** ** handlers/outgoingMessage.js *)

Module OutgoingMessage.

Import CommandHandlerOps MessageService.

Definition handleOutgoingMessage (h : Host) (rest : Unembedded)
    (botSentMessageIds : gset string) (message : Outgoing) : Turn unit :=
  let chatId := remoteJid message in
  if Str.endsWith chatId "@g.us" then ret tt
  else if negb (wasBotGeneratedMessage botSentMessageIds message)
  then
    registerManualIntervention h chatId None ;;;
    let userMessage := body message in
    if isCommand userMessage
    then handleCommand h rest chatId userMessage
    else ret tt
  else ret tt.

End OutgoingMessage.

(** ** autoReactivationManager.js: stopping and re-timing *)

Module AutoReactivationControl.

Import AutoReactivation.

Definition set_checkInterval (ms : Z) (a : AutoReactivationManager) :=
  {| checkInterval := ms; isRunning := isRunning a;
     lastCheck := lastCheck a; recentlyReactivated := recentlyReactivated a;
     wasBusinessHours := wasBusinessHours a;
     massReactivationDone := massReactivationDone a |}.

(** The timer handle is not part of the state: it is set exactly while
    [isRunning] is true. *)
Definition stopAutoReactivation : Turn unit :=
  a <- gets autoReactivation ;;
  if negb (isRunning a) then ret tt
  else modify (set_autoReactivation (set_isRunning false)).

(** [setCheckInterval(minutes)] for a number of minutes (the caller has
    already excluded NaN). *)
Definition setCheckInterval (h : Host) (minutes : Z) : Turn bool :=
  if (minutes <=? 0)%Z then ret false
  else
    modify (set_autoReactivation (set_checkInterval (minutes * 60 * 1000))) ;;;
    a <- gets autoReactivation ;;
    (if isRunning a
     then stopAutoReactivation ;;; startAutoReactivation h
     else ret tt) ;;;
    ret true.

End AutoReactivationControl.

(** ** timeManager.js: the next opening *)

Module NextOpening.

Import TimeManager.

(** [(day + 1) % 7] *)
Definition dayAfter (day : weekday) : weekday :=
  match day with
  | Sunday => Monday | Monday => Tuesday | Tuesday => Wednesday
  | Wednesday => Thursday | Thursday => Friday | Friday => Saturday
  | Saturday => Sunday
  end.

(** [d.setHours(hour, 0, 0, 0)] *)
Definition atHour (d : Date) (hour : Z) : Date :=
  {| getMonth := getMonth d; getDate := getDate d; weekDay := weekDay d;
     getHours := hour |}.

Section Calendar.

(** The calendar of the runtime: [addDays d n] is what
    [c = new Date(d); c.setDate(d.getDate() + n)] leaves in [c]. *)
Variable addDays : Date -> Z -> Date.

(** The loop [while (daysToAdd < 7)]; [rounds] is the number of rounds left
    to run, [nextDay] and [daysToAdd] the variables of the loop. *)
Fixpoint scan (rounds : nat) (now : Date) (nextDay : weekday) (daysToAdd : Z)
    : option Date :=
  match rounds with
  | O => None
  | S rounds' =>
      let today :=
        match businessHours nextDay with
        | Open start _ =>
            if (daysToAdd =? 0)%Z && (getHours now <? start)%Z
            then Some start else None
        | Closed => None
        end in
      match today with
      | Some start => Some (atHour now start)
      | None =>
          let daysToAdd := daysToAdd + 1 in
          let nextDay := dayAfter nextDay in
          match businessHours nextDay with
          | Open start _ =>
              let nextOpening := atHour (addDays now daysToAdd) start in
              if negb (isHoliday nextOpening) then Some nextOpening
              else scan rounds' now nextDay daysToAdd
          | Closed => scan rounds' now nextDay daysToAdd
          end
      end
  end.

(** [None] is [null]. *)
Definition getNextOpeningTime (now : Date) : option Date :=
  scan 7 now (weekDay now) 0.

End Calendar.

(** A calendar for the witnesses: the days of a year that is not a leap
    year. *)
Definition monthLength (month : Z) : Z :=
  if (month =? 1)%Z then 28
  else if (month =? 3)%Z || (month =? 5)%Z || (month =? 8)%Z || (month =? 10)%Z
  then 30 else 31.

Definition tomorrow (d : Date) : Date :=
  if (getDate d <? monthLength (getMonth d))%Z
  then {| getMonth := getMonth d; getDate := getDate d + 1;
          weekDay := dayAfter (weekDay d); getHours := getHours d |}
  else {| getMonth := (getMonth d + 1) mod 12; getDate := 1;
          weekDay := dayAfter (weekDay d); getHours := getHours d |}.

Definition commonYear (d : Date) (n : Z) : Date :=
  Nat.iter (Z.to_nat n) tomorrow d.

(** The weekday of [addDays d n] is [n] days after that of [d]. *)
Definition keepsWeekdays (addDays : Date -> Z -> Date) : Prop :=
  forall d n, 0 <= n -> weekDay (addDays d n) = Nat.iter (Z.to_nat n) dayAfter (weekDay d).

End NextOpening.

(** ** Vocabulary of the further statements *)

(** Every user but one has the same session in two worlds. *)
Definition sameSessionsElsewhere (w w' : World) (userId : string) : Prop :=
  forall k, k <> userId ->
    states (stateManager w') !! k = states (stateManager w) !! k.

(** A host that differs from [hostAt] only by its clock. *)
Definition laterHost (t : Z) : Host := hostAt t (monday 11) None.

(** A store with one Spanish-speaking customer last seen at 0 ms. *)
Definition spanishSession : UserState :=
  {| languageCode := Some "es";
     currentContext := "product_selected";
     lastInteraction := 0;
     sessionStarted := 0;
     selectedProduct := JS.of_Z 2;
     processCompleted := true;
     processStage := "initial";
     languageSelectionComplete := Some true;
     text := None |}.

Definition spanishWorld : World :=
  withStates (startWorld "1234567890") {[ "5550001111" := spanishSession ]} [].

(** The total number of entries of the registry. *)
Definition entryCount (c : CommandHandler) : nat :=
  (size (disabledChats c) + size (manualInterventions c) + size (completedChats c))%nat.

(** A store with a customer last seen at 0 ms and one last seen at
    2 000 000 000 ms. *)
Definition recentSession : UserState :=
  {| languageCode := Some "en";
     currentContext := "language_selected";
     lastInteraction := 2000000000;
     sessionStarted := 0;
     selectedProduct := JS.Null;
     processCompleted := false;
     processStage := "initial";
     languageSelectionComplete := Some true;
     text := None |}.

Definition twoCustomers : World :=
  withStates (startWorld "1234567890")
    (<[ "5550002222" := recentSession ]> {[ "5550001111" := spanishSession ]}) [].

(** Every entry of the registry has [expiry > t]. *)
Definition allLive (c : CommandHandler) (t : Z) : Prop :=
  (forall k e, disabledChats c !! k = Some e -> t < expiry e)
  /\ (forall k e, manualInterventions c !! k = Some e -> t < expiry e)
  /\ (forall k e, completedChats c !! k = Some e -> t < expiry e).

(** A registry with a command entry that has run out and an intervention
    that has not. *)
Definition mixedRegistry : World :=
  withHandlerAndEffects (startWorld "1234567890")
    (set_disabledChats
       (insert "5550002222@s.whatsapp.net"
          {| cd_disabledBy := "1234567890"; cd_startTime := 0; cd_expiry := 4000 |})
       (set_manualInterventions
          (insert customer {| mi_startTime := 0; mi_expiry := 9000 |})
          (emptyHandler "1234567890")))
    [].

(** The intervention that an outgoing message registers at [now h]: one
    hour. *)
Definition interventionEntry (h : Host) : ManualIntervention :=
  {| mi_startTime := now h; mi_expiry := now h + 3600000 |}.

(** A message typed by the owner on the bot's own phone. *)
Definition typed (chatId text : string) : MessageService.Outgoing :=
  {| MessageService.remoteJid := chatId;
     MessageService.keyId := Some "3EB0A1B2C3";
     MessageService.mentionedJid := None;
     MessageService.body := text |}.

Definition ownerChat : string := "1234567890@s.whatsapp.net".

Definition incoming (chatId text : string) : IncomingMessage.Message :=
  {| IncomingMessage.remoteJid := chatId; IncomingMessage.userMessage := text |}.

(** The three product lists of the case "ProductSelection". *)
Definition knownProduct (productType : JS.value) : Prop :=
  JS.includes IntentProcessor.watches productType = true
  \/ JS.includes IntentProcessor.diamonds productType = true
  \/ JS.includes IntentProcessor.gold productType = true.

Definition productResponses (lc : option string) : list Content :=
  [MessageProvider.getWatchesResponse lc;
   MessageProvider.getDiamondsResponse lc;
   MessageProvider.getGoldResponse lc].

(** A world after one more message was handed to the transport. *)
Definition afterSending (h : Host) (chatId : string) (content : Content)
    (w : World) : World :=
  emit (Sent chatId content (accepts h chatId content)) w.

Definition noParameters : Parameters := {| number := None; language := None |}.

Definition numberOnly (q : Q) : Parameters :=
  {| number := Some {| numberValue := Some (JS.Fin q); stringValue := None |};
     language := None |}.

(** Dialogflow's answer to a customer who picks the second product. *)
Definition diamondsChoice : QueryResult :=
  {| intent := "ProductSelection"; parameters := numberOnly 2 |}.

(** A scheduler that is running and saw the business open at its last
    check, over a registry with one manual intervention until [t]. *)
Definition runningSince (t : Z) : World :=
  {| commandHandler := commandHandler (interventionUntil t);
     stateManager := stateManager (interventionUntil t);
     autoReactivation :=
       AutoReactivation.set_wasBusinessHours true
         (AutoReactivation.set_isRunning true AutoReactivation.initial);
     effects := [] |}.

(** Monday at 20 h: the business has closed. *)
Definition mondayEvening (t : Z) : Host := hostAt t (monday 20) None.

(** The business opens later on the day of [now]: the first test of the
    loop of [getNextOpeningTime]. *)
Definition opensLaterToday (now : TimeManager.Date) : Prop :=
  match TimeManager.businessHours (TimeManager.weekDay now) with
  | TimeManager.Open start _ => TimeManager.getHours now < start
  | TimeManager.Closed => False
  end.

(** At most one of the seven days after [now] is a holiday. *)
Definition oneHolidayAtMost (addDays : TimeManager.Date -> Z -> TimeManager.Date)
    (now : TimeManager.Date) : Prop :=
  forall n m, 1 <= n < m -> m <= 7 ->
    TimeManager.isHoliday (addDays now n) = true ->
    TimeManager.isHoliday (addDays now m) = false.

(** Christmas on a Monday, at [hour] h; and the Saturday before, at noon. *)
Definition christmasMonday (hour : Z) : TimeManager.Date :=
  {| TimeManager.getMonth := 11; TimeManager.getDate := 25;
     TimeManager.weekDay := TimeManager.Monday; TimeManager.getHours := hour |}.

Definition saturdayBeforeChristmas : TimeManager.Date :=
  {| TimeManager.getMonth := 11; TimeManager.getDate := 23;
     TimeManager.weekDay := TimeManager.Saturday; TimeManager.getHours := 12 |}.
(** * Properties *)

Local Open Scope Z_scope.

(** ** Sanity checks of the string primitives *)

Example parseInt_plain : Str.parseInt "48" = Some 48.
Proof. reflexivity. Qed.
Example parseInt_suffix : Str.parseInt "12abc" = Some 12.
Proof. reflexivity. Qed.
Example parseInt_hex : Str.parseInt "0x10" = Some 16.
Proof. reflexivity. Qed.
Example parseInt_nan : Str.parseInt "abc" = None.
Proof. reflexivity. Qed.
Example parseInt_negative : Str.parseInt "-5" = Some (-5).
Proof. reflexivity. Qed.
Example parseInt_no_break_space :
  Str.parseInt (noBreakSpace ++ " " ++ narrowNoBreakSpace ++ "5 h") = Some 5.
Proof. reflexivity. Qed.
Example trim_no_break_space :
  Str.trim (noBreakSpace ++ "/on" ++ narrowNoBreakSpace ++ " ") = "/on".
Proof. reflexivity. Qed.
Example toLowerCase_latin1 : Str.toLowerCase "ESPAÑOL" = "español".
Proof. reflexivity. Qed.
Example split_at : Str.split "@" "5551234567@s.whatsapp.net"
                   = ["5551234567"; "s.whatsapp.net"].
Proof. reflexivity. Qed.
Example split_spaces : Str.split " " "/off  5" = ["/off"; ""; "5"].
Proof. reflexivity. Qed.
Example trim_both : Str.trim "  /on  " = "/on".
Proof. reflexivity. Qed.
Example endsWith_group : Str.endsWith "1203@g.us" "@g.us" = true.
Proof. reflexivity. Qed.
Example pad_month : Str.padStart0 2 (Str.toString 7) = "07".
Proof. reflexivity. Qed.

(** ** The disable registry (commandHandler.js) *)

Section Registry.

Import CommandHandlerOps.

Lemma lookup_remaining {A} (cond : A -> Prop) `{!forall a, Decision (cond a)}
    (m : gmap string A) (k : string) (e : A) :
  remaining cond m !! k = Some e <-> m !! k = Some e /\ ~ cond e.
Proof. unfold remaining. apply map_lookup_filter_Some. Qed.

Lemma lookup_remaining_None {A} (cond : A -> Prop) `{!forall a, Decision (cond a)}
    (m : gmap string A) (k : string) :
  remaining cond m !! k = None <-> (forall e, m !! k = Some e -> cond e).
Proof.
  unfold remaining. rewrite map_lookup_filter_None. split.
  - intros [Hn | Hc] e He; [congruence |].
    specialize (Hc e He). simpl in Hc. by apply dec_stable.
  - intros Hc. destruct (m !! k) as [e |] eqn:He; [right | by left].
    intros e' [= <-]. simpl. intros Hn. apply Hn. by apply Hc.
Qed.

Lemma cleanExpiredEntries_handler h w :
  result (cleanExpiredEntries h w) = Done tt
  /\ commandHandler (after (cleanExpiredEntries h w))
     = swept (now h) (commandHandler w).
Proof.
  unfold cleanExpiredEntries, bind, gets, modify, result, after. simpl.
  destruct (0 <? _)%nat; simpl; auto.
Qed.

Lemma isChatDisabled_run h chatId w :
  exists w1,
    isChatDisabled h chatId w
    = (Done (JS.or (JS.or (liveIn h (disabledChats (commandHandler w1)) chatId)
                      (liveIn h (manualInterventions (commandHandler w1)) chatId))
               (liveIn h (completedChats (commandHandler w1)) chatId)), w1)
    /\ commandHandler w1 = swept (now h) (commandHandler w).
Proof.
  destruct (cleanExpiredEntries_handler h w) as [Hres Hhandler].
  unfold isChatDisabled, bind.
  destruct (cleanExpiredEntries h w) as [o w1].
  unfold result, after in Hres, Hhandler. simpl in Hres, Hhandler. subst o.
  exists w1. split; [reflexivity | done].
Qed.

Lemma liveIn_true {A} `{Expiring A} h (m : gmap string A) k :
  liveIn h m k = JS.Boolean true <-> exists e, m !! k = Some e /\ now h < expiry e.
Proof.
  unfold liveIn. destruct (m !! k) as [e |]; split.
  - intros [= Hlt]. exists e. split; [done | lia].
  - intros (e' & [= <-] & Hlt). f_equal. lia.
  - discriminate.
  - intros (e' & ? & _). discriminate.
Qed.

Lemma liveIn_swept {A} `{Expiring A} h (m : gmap string A) k :
  liveIn h (remaining (expired (now h)) m) k = JS.Boolean true
  <-> exists e, m !! k = Some e /\ now h < expiry e.
Proof.
  rewrite liveIn_true. split.
  - intros (e & He & Hlt). apply lookup_remaining in He as [He _]. eauto.
  - intros (e & He & Hlt). exists e. split; [| done].
    apply lookup_remaining. split; [done |]. unfold expired. lia.
Qed.

Lemma liveIn_shape {A} `{Expiring A} h (m : gmap string A) k :
  liveIn h m k = JS.Undefined \/ exists b, liveIn h m k = JS.Boolean b.
Proof. unfold liveIn. destruct (m !! k); eauto. Qed.

Lemma or3_true (a b c : JS.value) :
  (a = JS.Undefined \/ exists x, a = JS.Boolean x) ->
  (b = JS.Undefined \/ exists x, b = JS.Boolean x) ->
  (c = JS.Undefined \/ exists x, c = JS.Boolean x) ->
  (JS.or (JS.or a b) c = JS.Boolean true
   <-> a = JS.Boolean true \/ b = JS.Boolean true \/ c = JS.Boolean true)
  /\ (JS.truthy (JS.or (JS.or a b) c) = true
      <-> JS.or (JS.or a b) c = JS.Boolean true).
Proof.
  intros [-> | [[] ->]] [-> | [[] ->]] [-> | [[] ->]]; cbn;
    (split; [split; [intros; auto | intros [? | [? | ?]]; congruence]
            | split; congruence]).
Qed.

(** The answer of [isChatDisabled] and the world it leaves. *)
Lemma isChatDisabled_answer h chatId w :
  exists v w1,
    isChatDisabled h chatId w = (Done v, w1)
    /\ commandHandler w1 = swept (now h) (commandHandler w)
    /\ (v = JS.Boolean true <-> liveEntry (commandHandler w) (now h) chatId)
    /\ (JS.truthy v = true <-> liveEntry (commandHandler w) (now h) chatId).
Proof.
  destruct (isChatDisabled_run h chatId w) as (w1 & Hrun & Hhandler).
  do 2 eexists. split; [exact Hrun |]. split; [exact Hhandler |].
  rewrite Hhandler. simpl.
  pose proof (or3_true _ _ _
    (liveIn_shape h (remaining (expired (now h))
                       (disabledChats (commandHandler w))) chatId)
    (liveIn_shape h (remaining (expired (now h))
                       (manualInterventions (commandHandler w))) chatId)
    (liveIn_shape h (remaining (expired (now h))
                       (completedChats (commandHandler w))) chatId)) as [Hor Htruthy].
  rewrite Htruthy, Hor, !liveIn_swept. unfold liveEntry. tauto.
Qed.

End Registry.

(** C2. For every chat and every state of the registry, [isChatDisabled]
    returns [true] exactly when one of the chat's entries in the three maps
    has [expiry > now] (any other result is [false] or [undefined], both
    falsy); it never throws; and the sweep it starts with leaves no entry
    with [expiry < now] in any of the three maps. *)
Theorem isChatDisabled_iff_live (h : Host) (chatId : string) (w : World) :
  let r := CommandHandlerOps.isChatDisabled h chatId w in
  (exists v,
      result r = Done v
      /\ (v = JS.Boolean true <-> liveEntry (commandHandler w) (now h) chatId)
      /\ (JS.truthy v = true <-> liveEntry (commandHandler w) (now h) chatId))
  /\ (forall k e, disabledChats (commandHandler (after r)) !! k = Some e ->
                  now h <= expiry e)
  /\ (forall k e, manualInterventions (commandHandler (after r)) !! k = Some e ->
                  now h <= expiry e)
  /\ (forall k e, completedChats (commandHandler (after r)) !! k = Some e ->
                  now h <= expiry e).
Proof.
  intros r. subst r.
  destruct (isChatDisabled_answer h chatId w) as (v & w1 & Hrun & Hhandler & Htrue & Htruthy).
  rewrite Hrun. unfold result, after. cbn [fst snd]. rewrite Hhandler.
  split; [exists v; done |].
  repeat split; intros k e He; simpl in He;
    apply lookup_remaining in He as [_ Hn];
    unfold CommandHandlerOps.expired in Hn; lia.
Qed.

(** At 5000 ms: an entry expiring at 5001 disables the chat; one expiring at
    5000 does not, though it stays in the map ([false || undefined] is
    [undefined]); one expiring at 4999 is swept. *)
Example isChatDisabled_around_expiry :
  result (CommandHandlerOps.isChatDisabled (hostAt 5000 (monday 11) None) customer
            (interventionUntil 5001)) = Done (JS.Boolean true)
  /\ result (CommandHandlerOps.isChatDisabled (hostAt 5000 (monday 11) None) customer
               (interventionUntil 5000)) = Done JS.Undefined
  /\ manualInterventions
       (commandHandler
          (after (CommandHandlerOps.isChatDisabled (hostAt 5000 (monday 11) None)
                    customer (interventionUntil 5000)))) !! customer
     = Some {| mi_startTime := 0; mi_expiry := 5000 |}
  /\ result (CommandHandlerOps.isChatDisabled (hostAt 5000 (monday 11) None) customer
               (interventionUntil 4999)) = Done JS.Undefined
  /\ manualInterventions
       (commandHandler
          (after (CommandHandlerOps.isChatDisabled (hostAt 5000 (monday 11) None)
                    customer (interventionUntil 4999)))) !! customer
     = None.
Proof. repeat split; vm_compute; reflexivity. Qed.

(** C4. Called without a duration, [registerManualIntervention] and
    [markProcessCompleted] store an entry that expires one hour after now
    (the declared default is [hours = 1]), which is not 24 hours after now;
    with an explicit duration the entry expires that many hours after
    now. *)
Theorem registration_default_is_one_hour (h : Host) (chatId : string) (w : World) :
  manualInterventions
    (commandHandler (after (CommandHandlerOps.registerManualIntervention h chatId None w)))
    !! chatId
  = Some {| mi_startTime := now h; mi_expiry := now h + 3600000 |}
  /\ completedChats
       (commandHandler (after (CommandHandlerOps.markProcessCompleted h chatId None w)))
       !! chatId
     = Some {| cc_completedAt := now h; cc_expiry := now h + 3600000 |}
  /\ now h + 3600000 <> now h + 24 * 3600000
  /\ (forall hours,
        manualInterventions
          (commandHandler
             (after (CommandHandlerOps.registerManualIntervention h chatId (Some hours) w)))
          !! chatId
        = Some {| mi_startTime := now h; mi_expiry := now h + hours * 3600000 |}
        /\ completedChats
             (commandHandler
                (after (CommandHandlerOps.markProcessCompleted h chatId (Some hours) w)))
             !! chatId
           = Some {| cc_completedAt := now h; cc_expiry := now h + hours * 3600000 |}).
Proof.
  unfold CommandHandlerOps.registerManualIntervention,
    CommandHandlerOps.markProcessCompleted, bind, modify, after. simpl.
  repeat split; try intros hours; rewrite ?lookup_insert_eq;
    try (do 2 f_equal; lia); lia.
Qed.

(** At 0 ms, for an empty registry: the entry expires at 3 600 000 ms. *)
Example registerManualIntervention_at_zero :
  manualInterventions
    (commandHandler
       (after (CommandHandlerOps.registerManualIntervention (hostAt 0 (monday 11) None)
                 "5550001111@s.whatsapp.net" None (startWorld "1234567890"))))
    !! "5550001111@s.whatsapp.net"
  = Some {| mi_startTime := 0; mi_expiry := 3600000 |}.
Proof. vm_compute. reflexivity. Qed.

Section Reactivation.

Import CommandHandlerOps.

Lemma hasEntry_holds c chatId : hasEntry c chatId = true <-> holdsEntry c chatId.
Proof.
  unfold hasEntry, holdsEntry.
  rewrite !orb_true_iff, !bool_decide_eq_true. tauto.
Qed.

Lemma hasEntry_cleared c chatId : hasEntry c chatId = false <-> clearedFor c chatId.
Proof.
  unfold hasEntry, clearedFor.
  rewrite !orb_false_iff, !bool_decide_eq_false, <- !eq_None_not_Some. tauto.
Qed.

Lemma dropEntries_cleared c chatId : clearedFor (dropEntries chatId c) chatId.
Proof. unfold clearedFor, dropEntries. simpl. by rewrite !lookup_delete_eq. Qed.

Lemma dropEntries_elsewhere c chatId : sameElsewhere c (dropEntries chatId c) chatId.
Proof.
  intros k Hk. unfold dropEntries. simpl. by rewrite !lookup_delete_ne.
Qed.

Lemma dropEntries_noop c chatId :
  clearedFor c chatId -> dropEntries chatId c = c.
Proof.
  intros (Hd & Hm & Hc). destruct c as [o d m cc]. unfold dropEntries. simpl in *.
  unfold set_completedChats, set_manualInterventions, set_disabledChats. simpl.
  by rewrite !delete_id.
Qed.

Lemma liveEntry_holds c t chatId : liveEntry c t chatId -> holdsEntry c chatId.
Proof.
  unfold liveEntry, holdsEntry.
  intros [(e & -> & _) | [(e & -> & _) | (e & -> & _)]]; eauto.
Qed.

Lemma activateBot_run h chatId w :
  let c' := dropEntries chatId (commandHandler w) in
  let msg := Text (if hasEntry (commandHandler w) chatId
                   then activated else alreadyActive) in
  activateBot h chatId w
  = (sending h chatId msg,
     withHandlerAndEffects w c'
       (effects w ++ [snapshot c'; Sent chatId msg (accepts h chatId msg)])).
Proof.
  unfold activateBot, bind, gets, modify, saveDisabledState, sendBotMessage,
    try_catch, sock_sendMessage, sending, withHandlerAndEffects, snapshot, throw.
  simpl.
  destruct (hasEntry (commandHandler w) chatId); simpl;
    destruct (accepts h chatId _); unfold emit, set_commandHandler; simpl;
    rewrite <- ?app_assoc; reflexivity.
Qed.

Lemma forceReactivate_run h chatId target others w :
  let t := normalizeChatId target in
  let c' := dropEntries t (commandHandler w) in
  let wasDisabled := hasEntry (commandHandler w) t in
  let msg := Text (if wasDisabled then reactivated t else notDisabled t) in
  forceReactivate h chatId (target :: others) w
  = (sending h chatId msg,
     withHandlerAndEffects w c'
       (effects w ++ (if wasDisabled then [snapshot c'] else [])
          ++ [Sent chatId msg (accepts h chatId msg)])).
Proof.
  unfold forceReactivate, bind, gets, modify, saveDisabledState,
    sock_sendMessage, sending, withHandlerAndEffects, snapshot.
  simpl.
  destruct (hasEntry (commandHandler w) (normalizeChatId target)); simpl;
    destruct (accepts h chatId _); unfold emit, set_commandHandler; simpl;
    rewrite <- ?app_assoc; reflexivity.
Qed.

End Reactivation.

Lemma reported_snoc (w : World) (es : list Event) chatId content ok :
  effects w = (es ++ [Sent chatId content ok])%list -> reported w = Some (chatId, content).
Proof. unfold reported. intros ->. by rewrite last_snoc. Qed.

Lemma reported_after_send (w : World) c (es mid : list Event) chatId content ok :
  reported (withHandlerAndEffects w c (es ++ mid ++ [Sent chatId content ok]))
  = Some (chatId, content).
Proof. eapply reported_snoc. simpl. by rewrite app_assoc. Qed.

Lemma reported_after_save_send (w : World) c (es : list Event) e chatId content ok :
  reported (withHandlerAndEffects w c (es ++ [e; Sent chatId content ok]))
  = Some (chatId, content).
Proof. apply (reported_after_send w c es [e]). Qed.

(** What [/on] reports is the presence of an entry, not whether the chat was
    disabled: an intervention that ran out at 4000 ms and has not been swept
    yet is answered at 5000 ms with "activated again", while
    [isChatDisabled] answers [undefined] for that chat. *)
Lemma reportsWhetherDisabled_refuted : ~ reportsWhetherDisabled.
Proof.
  intros Hstated.
  destruct (Hstated (hostAt 5000 (monday 11) None) customer (interventionUntil 4000))
    as [Hlive _].
  destruct (Hlive eq_refl) as [(e & He & Hlt) | [(e & He & Hlt) | (e & He & Hlt)]];
    vm_compute in He; try discriminate He.
  injection He as <-. vm_compute in Hlt. discriminate Hlt.
Qed.

Example expired_entry_before_the_sweep :
  result (CommandHandlerOps.isChatDisabled (hostAt 5000 (monday 11) None) customer
            (interventionUntil 4000))
  = Done JS.Undefined
  /\ reported (after (CommandHandlerOps.activateBot (hostAt 5000 (monday 11) None)
                        customer (interventionUntil 4000)))
     = Some (customer, Text CommandHandlerOps.activated).
Proof. split; vm_compute; reflexivity. Qed.

(** C7 (as the code has it). [/on] ([activateBot]) removes the chat's entries
    from the three maps, leaves the other chats alone, and answers
    "activated again" when the chat had an entry in one of the maps, run out
    or not (as every disabled chat has), and "was already active" when
    it had none; a second [/on]
    right after changes nothing in the registry and answers "was already
    active". [/reactivate target] ([forceReactivate]) does the same for the
    normalised target chat, answering the invoking chat with "reactivated"
    or "was not disabled"; its second call answers "was not disabled". Each
    call ends normally whenever the transport accepts its answer. *)
Theorem reactivation_clears_and_repeats_safely
    (h : Host) (chatId target : string) (others : list string) (w : World) :
  let on1 := CommandHandlerOps.activateBot h chatId w in
  let on2 := CommandHandlerOps.activateBot h chatId (after on1) in
  let t := CommandHandlerOps.normalizeChatId target in
  let f1 := CommandHandlerOps.forceReactivate h chatId (target :: others) w in
  let f2 := CommandHandlerOps.forceReactivate h chatId (target :: others) (after f1) in
  (liveEntry (commandHandler w) (now h) chatId -> holdsEntry (commandHandler w) chatId)
  /\ (clearedFor (commandHandler (after on1)) chatId
   /\ sameElsewhere (commandHandler w) (commandHandler (after on1)) chatId
   /\ (holdsEntry (commandHandler w) chatId ->
       reported (after on1) = Some (chatId, Text CommandHandlerOps.activated))
   /\ (~ holdsEntry (commandHandler w) chatId ->
       reported (after on1) = Some (chatId, Text CommandHandlerOps.alreadyActive))
   /\ commandHandler (after on2) = commandHandler (after on1)
   /\ reported (after on2) = Some (chatId, Text CommandHandlerOps.alreadyActive)
   /\ result on2 = sending h chatId (Text CommandHandlerOps.alreadyActive))
  /\ (clearedFor (commandHandler (after f1)) t
      /\ sameElsewhere (commandHandler w) (commandHandler (after f1)) t
      /\ (holdsEntry (commandHandler w) t ->
          reported (after f1) = Some (chatId, Text (CommandHandlerOps.reactivated t)))
      /\ (~ holdsEntry (commandHandler w) t ->
          reported (after f1) = Some (chatId, Text (CommandHandlerOps.notDisabled t)))
      /\ commandHandler (after f2) = commandHandler (after f1)
      /\ reported (after f2) = Some (chatId, Text (CommandHandlerOps.notDisabled t))
      /\ result f2 = sending h chatId (Text (CommandHandlerOps.notDisabled t))).
Proof.
  intros on1 on2 t f1 f2. subst on1 on2 f1 f2.
  assert (Hno : forall k c, CommandHandlerOps.hasEntry (CommandHandlerOps.dropEntries k c) k = false)
    by (intros; apply hasEntry_cleared, dropEntries_cleared).
  split; [apply liveEntry_holds |].
  split.
  - rewrite (activateBot_run h chatId w). unfold after at 1 2 3 4 5 6. simpl.
    rewrite activateBot_run. unfold after, result. simpl. rewrite Hno.
    repeat split.
    + apply dropEntries_cleared.
    + apply dropEntries_cleared.
    + apply dropEntries_cleared.
    + apply dropEntries_elsewhere; done.
    + apply dropEntries_elsewhere; done.
    + apply dropEntries_elsewhere; done.
    + intros Hh. apply hasEntry_holds in Hh. rewrite Hh.
      apply reported_after_save_send.
    + intros Hh. destruct (CommandHandlerOps.hasEntry (commandHandler w) chatId) eqn:E.
      * apply hasEntry_holds in E. contradiction.
      * apply reported_after_save_send.
    + apply dropEntries_noop, dropEntries_cleared.
    + apply reported_after_save_send.
  - rewrite (forceReactivate_run h chatId target others
               (after (CommandHandlerOps.forceReactivate h chatId (target :: others) w))).
    rewrite (forceReactivate_run h chatId target others w).
    unfold after, result. cbn [fst snd withHandlerAndEffects commandHandler effects].
    fold t. rewrite Hno.
    repeat split.
    + apply dropEntries_cleared.
    + apply dropEntries_cleared.
    + apply dropEntries_cleared.
    + apply dropEntries_elsewhere; done.
    + apply dropEntries_elsewhere; done.
    + apply dropEntries_elsewhere; done.
    + intros Hh. apply hasEntry_holds in Hh. rewrite Hh.
      apply reported_after_send.
    + intros Hh. destruct (CommandHandlerOps.hasEntry (commandHandler w) t) eqn:E.
      * apply hasEntry_holds in E. contradiction.
      * apply reported_after_send.
    + apply dropEntries_noop, dropEntries_cleared.
    + apply reported_after_send.
Qed.

(** A chat under a manual intervention until 5001 ms, at 5000 ms: [/on]
    answers "activated again", and a second [/on] "was already active". *)
Lemma reactivation_clears_and_repeats_safely_witness :
  holdsEntry (commandHandler (interventionUntil 5001)) customer
  /\ reported (after (CommandHandlerOps.activateBot (hostAt 5000 (monday 11) None)
                        customer (interventionUntil 5001)))
     = Some (customer, Text CommandHandlerOps.activated)
  /\ reported
       (after (CommandHandlerOps.activateBot (hostAt 5000 (monday 11) None) customer
                 (after (CommandHandlerOps.activateBot (hostAt 5000 (monday 11) None)
                           customer (interventionUntil 5001)))))
     = Some (customer, Text CommandHandlerOps.alreadyActive).
Proof.
  assert (Hholds : holdsEntry (commandHandler (interventionUntil 5001)) customer).
  { right. left. vm_compute. eauto. }
  pose proof (reactivation_clears_and_repeats_safely (hostAt 5000 (monday 11) None)
                customer customer [] (interventionUntil 5001))
    as (_ & (_ & _ & Hfirst & _ & _ & Hsecond & _) & _).
  split; [exact Hholds |]. split; [exact (Hfirst Hholds) | exact Hsecond].
Defined.

Section Off.

Import CommandHandlerOps.

Lemma deactivateBot_accepts h chatId args w hours :
  requestedHours args = Some hours -> 1 <= hours <= 168 ->
  offAccepted h chatId w (after (deactivateBot h chatId args w)) hours.
Proof.
  intros Hreq Hrange. unfold deactivateBot. rewrite Hreq.
  replace (hours <=? 0) with false by lia.
  replace (168 <? hours) with false by lia.
  unfold offAccepted, offEntry, bind, gets, modify, saveDisabledState,
    sendBotMessage, try_catch, sock_sendMessage, after, snapshot, throw.
  simpl.
  replace (now h + hours * 60 * 60 * 1000) with (now h + hours * 3600000) by lia.
  destruct (accepts h chatId _); unfold emit, set_commandHandler; simpl;
    rewrite <- ?app_assoc, ?lookup_insert_eq; done.
Qed.

Lemma deactivateBot_rejects h chatId args w :
  (requestedHours args = None
   \/ exists hours, requestedHours args = Some hours /\ (hours < 1 \/ 168 < hours)) ->
  offRejected h chatId w (after (deactivateBot h chatId args w)).
Proof.
  intros Hreq. unfold deactivateBot.
  assert (Hsend : offRejected h chatId w
                    (after (sendBotMessage h chatId (Text invalidHours) w))).
  { unfold offRejected, sendBotMessage, try_catch, sock_sendMessage, after, throw.
    destruct (accepts h chatId _); simpl; done. }
  destruct Hreq as [-> | (hours & -> & Hout)]; [done |].
  replace ((hours <=? 0) || (168 <? hours)) with true; [done |].
  symmetry. apply orb_true_iff. lia.
Qed.


Lemma requestedHours_argument s rest :
  s <> "" -> requestedHours (s :: rest) = Str.parseInt s.
Proof.
  intros Hs. unfold requestedHours. simpl.
  destruct (String.eqb_spec s ""); [contradiction | reflexivity].
Qed.

End Off.

(** An argument that begins with a no-break space is read like any other:
    [/off] followed by U+00A0 and 5 silences the chat for five hours. *)
Example off_after_no_break_space :
  offAccepted (hostAt 1000 (monday 11) None) "1234567890@s.whatsapp.net"
    (startWorld "1234567890")
    (after (CommandHandlerOps.deactivateBot (hostAt 1000 (monday 11) None)
              "1234567890@s.whatsapp.net" [noBreakSpace ++ "5"]
              (startWorld "1234567890")))
    5.
Proof. repeat split. Qed.



(** An owner's text that merely begins with "/on" is not reported as an
    intervention, although it is not the [/on] command. *)
Lemma ownerMessage_online_refuted : ~ ownerMessageUnlessOnCommand.
Proof.
  intros Hstated.
  specialize (Hstated (startWorld "1234567890") "1234567890@s.whatsapp.net"
                "/online now").
  destruct Hstated as [_ Hback].
  assert (Hres : result (CommandHandlerOps.detectOwnerMessage
                           "1234567890@s.whatsapp.net" "/online now"
                           (startWorld "1234567890")) = Done true).
  { apply Hback. split; [reflexivity |]. unfold isOnCommand. vm_compute. discriminate. }
  vm_compute in Hres. discriminate.
Qed.

(** C9 (as the code has it). [detectOwnerMessage] answers [true] exactly when
    the user part of the chat id is the configured owner and the text does
    not begin with "/on"; it never throws and leaves the whole world (the
    three maps of the registry included) as it was. *)
Theorem detectOwnerMessage_prefix_rule (chatId text : string) (w : World) :
  let r := CommandHandlerOps.detectOwnerMessage chatId text w in
  (exists b, result r = Done b)
  /\ (result r = Done true
      <-> Str.first_part "@" chatId = ownerNumber (commandHandler w)
          /\ Str.startsWith text "/on" = false)
  /\ after r = w.
Proof.
  intros r. subst r.
  unfold CommandHandlerOps.detectOwnerMessage, CommandHandlerOps.isOwner,
    bind, gets, ret, result, after. simpl.
  destruct (String.eqb_spec (Str.first_part "@" chatId) (ownerNumber (commandHandler w)))
    as [Heq | Hne]; simpl.
  - destruct (Str.startsWith text "/on"); simpl;
      (split; [eauto |]); (split; [| done]); split;
      try discriminate; try done.
    intros [_ ?]. discriminate.
  - split; [eauto |]. split; [| done]. split; [discriminate |].
    intros [? _]. contradiction.
Qed.

(** ** Business hours (timeManager.js) *)

Section Hours.

Import TimeManager.

Lemma isHoliday_configured d :
  calendarDate d -> (isHoliday d = true <-> configuredHoliday d).
Proof.
  destruct d as [m dd wd hr]. unfold calendarDate, configuredHoliday. simpl.
  intros (Hm & Hd & _).
  assert (Em : m = 0 \/ m = 1 \/ m = 2 \/ m = 3 \/ m = 4 \/ m = 5 \/ m = 6
               \/ m = 7 \/ m = 8 \/ m = 9 \/ m = 10 \/ m = 11) by lia.
  assert (Ed : dd = 1 \/ dd = 2 \/ dd = 3 \/ dd = 4 \/ dd = 5 \/ dd = 6 \/ dd = 7
               \/ dd = 8 \/ dd = 9 \/ dd = 10 \/ dd = 11 \/ dd = 12 \/ dd = 13
               \/ dd = 14 \/ dd = 15 \/ dd = 16 \/ dd = 17 \/ dd = 18 \/ dd = 19
               \/ dd = 20 \/ dd = 21 \/ dd = 22 \/ dd = 23 \/ dd = 24 \/ dd = 25
               \/ dd = 26 \/ dd = 27 \/ dd = 28 \/ dd = 29 \/ dd = 30 \/ dd = 31)
    by lia.
  clear Hm Hd.
  repeat (destruct Em as [-> | Em]); try subst m;
    repeat (destruct Ed as [-> | Ed]); try subst dd;
    vm_compute; split; intros H; try discriminate H; try reflexivity;
    try (intuition (auto; discriminate)).
Qed.

End Hours.

(** C6. [isBusinessHours] is false on a holiday (a date whose month and day
    are those of 1 January, 4 July or 25 December, whatever the weekday and
    the hour); otherwise false on a day whose table entry is closed;
    otherwise it is [start <= hour < end]. With the configured table: true on
    a Saturday at 11 that is not a holiday, false on any Saturday at 13,
    false on any Sunday. *)
Theorem isBusinessHours_table (d : TimeManager.Date) :
  (TimeManager.isHoliday d = true -> TimeManager.isBusinessHours d = false)
  /\ (calendarDate d -> configuredHoliday d -> TimeManager.isBusinessHours d = false)
  /\ (TimeManager.isHoliday d = false ->
      TimeManager.businessHours (TimeManager.weekDay d) = TimeManager.Closed ->
      TimeManager.isBusinessHours d = false)
  /\ (forall start finish,
        TimeManager.isHoliday d = false ->
        TimeManager.businessHours (TimeManager.weekDay d)
        = TimeManager.Open start finish ->
        (TimeManager.isBusinessHours d = true
         <-> start <= TimeManager.getHours d < finish))
  /\ (TimeManager.weekDay d = TimeManager.Saturday ->
      TimeManager.getHours d = 11 ->
      TimeManager.isHoliday d = false ->
      TimeManager.isBusinessHours d = true)
  /\ (TimeManager.weekDay d = TimeManager.Saturday ->
      TimeManager.getHours d = 13 ->
      TimeManager.isBusinessHours d = false)
  /\ (TimeManager.weekDay d = TimeManager.Sunday ->
      TimeManager.isBusinessHours d = false).
Proof.
  unfold TimeManager.isBusinessHours.
  split; [| split; [| split; [| split; [| split; [| split]]]]].
  - intros ->. reflexivity.
  - intros Hcal Hhol. apply isHoliday_configured in Hhol; [| done]. by rewrite Hhol.
  - intros -> ->. reflexivity.
  - intros start finish -> ->. rewrite andb_true_iff. lia.
  - intros -> -> ->. reflexivity.
  - intros -> ->. by destruct (TimeManager.isHoliday d).
  - intros ->. by destruct (TimeManager.isHoliday d).
Qed.

(** Saturday 8 March, 11 h: open. 4 July on a Saturday, 11 h: closed. *)
Lemma isBusinessHours_table_witness :
  TimeManager.isBusinessHours
    {| TimeManager.getMonth := 2; TimeManager.getDate := 8;
       TimeManager.weekDay := TimeManager.Saturday; TimeManager.getHours := 11 |}
  = true
  /\ TimeManager.isBusinessHours
       {| TimeManager.getMonth := 6; TimeManager.getDate := 4;
          TimeManager.weekDay := TimeManager.Saturday; TimeManager.getHours := 11 |}
     = false.
Proof.
  split.
  - apply (proj1 (proj2 (proj2 (proj2 (proj2 (isBusinessHours_table
             {| TimeManager.getMonth := 2; TimeManager.getDate := 8;
                TimeManager.weekDay := TimeManager.Saturday;
                TimeManager.getHours := 11 |}))))));
      reflexivity.
  - apply (proj1 (proj2 (isBusinessHours_table
             {| TimeManager.getMonth := 6; TimeManager.getDate := 4;
                TimeManager.weekDay := TimeManager.Saturday;
                TimeManager.getHours := 11 |}))).
    + unfold calendarDate. simpl. lia.
    + unfold configuredHoliday. simpl. right. left. split; reflexivity.
Defined.

(** ** Automatic reactivation (autoReactivationManager.js) *)

(** The marker holds the last pair only. Over two weeks of closings, with an
    invocation before and one after 17 h on Monday, Tuesday and the Monday
    after, each closing is acted on once. *)
Example closings_reactivations :
  AutoReactivation.massReactivations closings (startWorld "1234567890")
  = [(1, 17); (2, 17); (1, 17)].
Proof. vm_compute. reflexivity. Qed.

Section Scheduler.

Import CommandHandlerOps AutoReactivation.

Lemma remaining_empty {A} (cond : A -> Prop) `{!forall a, Decision (cond a)} :
  remaining cond (∅ : gmap string A) = ∅.
Proof. unfold remaining. apply map_filter_empty. Qed.

Lemma firesMass_guard h w :
  firesMass h w = true
  <-> wasBusinessHours (autoReactivation w) = Some true
      /\ TimeManager.isBusinessHours (today h) = false
      /\ massReactivationDone (autoReactivation w) <> pairOf h.
Proof.
  unfold firesMass, closingDetected, markerDiffers, pairOf.
  destruct (massReactivationDone (autoReactivation w)) as [md mh]. simpl.
  rewrite andb_true_iff, orb_true_iff, !negb_true_iff, !Z.eqb_neq.
  destruct (wasBusinessHours (autoReactivation w)) as [[] |];
    destruct (TimeManager.isBusinessHours (today h)); simpl;
    (split; [intros [? Hd]; try discriminate | intros (? & ? & Hd); try discriminate]).
  - repeat split; try done. intros [= ? ?]. lia.
  - split; [done |].
    destruct (decide (md = TimeManager.getDay (today h))) as [-> | ?]; [| by left].
    right. intros ->. by apply Hd.
Qed.

(** One invocation: the marker, the remembered flag and the handler it
    leaves. *)
Lemma checkAndReactivate_step h w :
  let w' := after (checkAndReactivate h w) in
  massReactivationDone (autoReactivation w')
  = (if firesMass h w then pairOf h
     else massReactivationDone (autoReactivation w))
  /\ wasBusinessHours (autoReactivation w')
     = Some (TimeManager.isBusinessHours (today h))
  /\ commandHandler w'
     = (if firesMass h w
        then set_completedChats (fun _ => ∅)
               (set_manualInterventions (fun _ => ∅)
                  (set_disabledChats (fun _ => ∅) (commandHandler w)))
        else sweptDue (now h) (commandHandler w)).
Proof.
  unfold checkAndReactivate, massReactivateAllChats, firesMass, pairOf, sweptDue,
    bind, gets, modify, ret, saveDisabledState, after.
  simpl.
  destruct (closingDetected _ _); simpl;
    [destruct (markerDiffers _ _ _); simpl |];
    repeat match goal with
      | |- context [if (0 <? ?n)%Z then _ else _] => destruct (0 <? n)%Z; simpl
      end;
    rewrite ?remaining_empty; done.
Qed.

End Scheduler.

Section Runs.

Import AutoReactivation.

Lemma massReactivations_neighbours hs :
  forall w,
    distinctNeighbours
      (massReactivationDone (autoReactivation w) :: massReactivations hs w).
Proof.
  induction hs as [| h hs IH]; intros w; [done |].
  pose proof (checkAndReactivate_step h w) as (Hmarker & _ & _).
  specialize (IH (after (checkAndReactivate h w))). rewrite Hmarker in IH.
  cbn [massReactivations].
  destruct (firesMass h w) eqn:Hfires.
  - split; [| exact IH]. by apply firesMass_guard in Hfires as (_ & _ & Hne).
  - exact IH.
Qed.

Lemma massReactivations_pairs hs p :
  (forall h, h ∈ hs -> pairOf h = p) ->
  forall w q, q ∈ massReactivations hs w -> q = p.
Proof.
  induction hs as [| h hs IH]; intros Hall w q Hq; [by apply elem_of_nil in Hq |].
  cbn [massReactivations] in Hq.
  assert (Hrest : forall h', h' ∈ hs -> pairOf h' = p)
    by (intros h' Hin; apply Hall; by right).
  destruct (firesMass h w).
  - apply elem_of_cons in Hq as [-> | Hq]; [apply Hall; by left | by eapply IH].
  - by eapply IH.
Qed.

Lemma constant_neighbours (l : list (Z * Z)) p :
  (forall q, q ∈ l -> q = p) -> distinctNeighbours l -> (length l <= 1)%nat.
Proof.
  destruct l as [| a [| b l]]; simpl; intros Hall Hd; [lia | lia |].
  destruct Hd as [Hne _]. exfalso. apply Hne.
  rewrite (Hall a), (Hall b); [done | | ]; set_solver.
Qed.

End Runs.

(** C3. [checkAndReactivate] calls the mass reactivation exactly when the
    remembered flag is true, business hours are now over and the stored
    marker differs from the current (day, hour), the day being the day of
    the week; it then leaves the three maps empty and the marker at the
    current pair, and otherwise removes only the entries with
    [expiry <= now] and keeps the marker. Consequently, from any state of
    the scheduler and for any sequence of invocations, two successive mass
    reactivations never carry the same pair and the first never carries the
    stored marker; so however many invocations fall within one (day, hour),
    they perform at most one mass reactivation. *)
Theorem mass_reactivation_rule (h : Host) (w : World) (hs : list Host) :
  let w' := after (AutoReactivation.checkAndReactivate h w) in
  (AutoReactivation.firesMass h w = true
   <-> wasBusinessHours (autoReactivation w) = Some true
       /\ TimeManager.isBusinessHours (today h) = false
       /\ massReactivationDone (autoReactivation w) <> AutoReactivation.pairOf h)
  /\ (AutoReactivation.firesMass h w = true ->
      registryEmpty (commandHandler w')
      /\ massReactivationDone (autoReactivation w') = AutoReactivation.pairOf h)
  /\ (AutoReactivation.firesMass h w = false ->
      commandHandler w' = sweptDue (now h) (commandHandler w)
      /\ massReactivationDone (autoReactivation w')
         = massReactivationDone (autoReactivation w))
  /\ distinctNeighbours
       (massReactivationDone (autoReactivation w)
        :: AutoReactivation.massReactivations hs w)
  /\ ((forall h', h' ∈ hs -> AutoReactivation.pairOf h' = AutoReactivation.pairOf h) ->
      (length (AutoReactivation.massReactivations hs w) <= 1)%nat).
Proof.
  intros w'. subst w'.
  pose proof (checkAndReactivate_step h w) as (Hmarker & _ & Hhandler).
  split; [apply firesMass_guard |].
  split; [intros Hf; rewrite Hf in *; rewrite Hhandler; done |].
  split; [intros Hf; rewrite Hf in *; done |].
  split; [apply massReactivations_neighbours |].
  intros Hall.
  eapply constant_neighbours.
  - by apply massReactivations_pairs.
  - pose proof (massReactivations_neighbours hs w) as Hd.
    destruct (AutoReactivation.massReactivations hs w) as [| a l]; [done |].
    apply Hd.
Qed.

(** Monday 17 h after a check made at 16 h: the chat switched off until two
    days later is released, and five more checks within the hour release
    nothing more in bulk. *)
Lemma mass_reactivation_rule_witness :
  AutoReactivation.firesMass (hostAt 2000 (monday 17) None) openWithDisabledChat = true
  /\ registryEmpty
       (commandHandler
          (after (AutoReactivation.checkAndReactivate (hostAt 2000 (monday 17) None)
                    openWithDisabledChat)))
  /\ (length (AutoReactivation.massReactivations
                (replicate 6 (hostAt 2000 (monday 17) None)) openWithDisabledChat)
      <= 1)%nat.
Proof.
  pose proof (mass_reactivation_rule (hostAt 2000 (monday 17) None)
                openWithDisabledChat
                (replicate 6 (hostAt 2000 (monday 17) None))) as (_ & Hfire & _ & _ & Hsame).
  assert (Hf : AutoReactivation.firesMass (hostAt 2000 (monday 17) None)
                 openWithDisabledChat = true) by (vm_compute; reflexivity).
  split; [exact Hf |]. split; [exact (proj1 (Hfire Hf)) |].
  apply Hsame. intros h' Hin.
  apply elem_of_replicate in Hin as [-> _]. reflexivity.
Defined.

(** ** Sessions and the conversation handlers *)

Section Sessions.

Import StateManagerOps.

Lemma updateUserState_run h userId updates w :
  let u0 := default (freshState h) (states (stateManager w) !! userId) in
  let u' := stamp (now h) (fold_left assign updates u0) in
  let st' := <[userId := u']> (states (stateManager w)) in
  exists created,
    updateUserState h userId updates w
    = (Done u', withStates w st' (effects w ++ created ++ [SavedStates st']))
    /\ (is_Some (states (stateManager w) !! userId) -> created = []).
Proof.
  unfold updateUserState, getUserState, bind, gets, modify, saveStates, ret,
    withStates. simpl.
  destruct (states (stateManager w) !! userId) as [u |] eqn:Hu; simpl.
  - exists []. split; [| done]. unfold emit, set_states. simpl. done.
  - eexists [_]. split; [| by intros [? ?]].
    unfold emit, set_states. simpl.
    rewrite insert_insert_eq, <- app_assoc. reflexivity.
Qed.

Lemma updateUserState_known h userId updates u w :
  states (stateManager w) !! userId = Some u ->
  let u' := stamp (now h) (fold_left assign updates u) in
  let st' := <[userId := u']> (states (stateManager w)) in
  updateUserState h userId updates w
  = (Done u', withStates w st' (effects w ++ [SavedStates st'])).
Proof.
  intros Hu. destruct (updateUserState_run h userId updates w) as (created & Hrun & Hc).
  rewrite Hu in Hrun, Hc. simpl in Hrun. rewrite Hrun, Hc by eauto. reflexivity.
Qed.

End Sessions.

Section Language.

Import StateManagerOps.

Lemma menu_branch h chatId userId lc u w :
  states (stateManager w) !! userId = Some u ->
  menuOutcome h chatId userId lc u w
    (after
       ((updateUserState h userId
           [set_languageCode lc; set_currentContext "language_selected";
            set_languageSelectionComplete true] ;;;
         menuMessage <- ret (MessageProvider.getBusinessHoursMenu (Some lc)) ;;
         sendBotMessage h chatId menuMessage) w)).
Proof.
  intros Hu. unfold bind at 1. rewrite (updateUserState_known _ _ _ u) by done.
  unfold bind, ret, sendBotMessage, try_catch, sock_sendMessage, throw, after,
    menuOutcome, MessageProvider.getBusinessHoursMenu, MessageProvider.is_en.
  destruct (accepts h chatId _) eqn:Hacc; simpl;
    (eexists; split; [apply lookup_insert_eq |]);
    simpl; repeat (split; [reflexivity |]);
    (eexists; split; [rewrite <- app_assoc; reflexivity |]);
    by rewrite lookup_insert_eq.
Qed.

Lemma outOfHours_branch h chatId userId lc u w :
  states (stateManager w) !! userId = Some u ->
  outOfHoursOutcome h chatId userId lc u w
    (after
       ((updateUserState h userId
           [set_languageCode lc; set_currentContext "language_selected";
            set_languageSelectionComplete true] ;;;
         menuMessage <-
           (updateUserState h userId
              [set_currentContext "product_selected"; set_processCompleted true] ;;;
            ret (MessageProvider.getOutOfHoursMessage (Some lc))) ;;
         sendBotMessage h chatId menuMessage) w)).
Proof.
  intros Hu. unfold bind at 1. rewrite (updateUserState_known _ _ _ u) by done.
  unfold bind at 1 2.
  erewrite updateUserState_known by (simpl; apply lookup_insert_eq).
  unfold bind, ret, sendBotMessage, try_catch, sock_sendMessage, throw, after,
    outOfHoursOutcome, MessageProvider.getOutOfHoursMessage, MessageProvider.is_en.
  destruct (accepts h chatId _) eqn:Hacc; simpl;
    (eexists; split; [apply lookup_insert_eq |]);
    simpl; repeat (split; [reflexivity |]);
    (do 2 eexists; split; [rewrite <- !app_assoc; reflexivity |]);
    by rewrite !lookup_insert_eq.
Qed.

Lemma languageCodeOf_cases v :
  IntentProcessor.languageCodeOf v = "es" \/ IntentProcessor.languageCodeOf v = "en".
Proof. unfold IntentProcessor.languageCodeOf. destruct (_ || _); auto. Qed.

End Language.

(** For a session that exists and a language input that resolves, the
    handler of handlers/intentProcessor.js sets the language and then sends
    the main menu when business hours are open (context [language_selected],
    [processCompleted] untouched), the out-of-hours message when they are
    closed ([processCompleted = true]). *)
Lemma lenguaje_by_business_hours
    (h : Host) (chatId userId : string) (parameters : Parameters)
    (userState : UserState) (w : World) :
  states (stateManager w) !! userId = Some userState ->
  JS.truthy (IntentProcessor.languageInput parameters userState) = true ->
  let lc := IntentProcessor.languageCodeOf
              (IntentProcessor.languageInput parameters userState) in
  let w' := after (IntentProcessor.processIntent h chatId userId "lenguaje"
                     parameters userState w) in
  (lc = "es" \/ lc = "en")
  /\ (TimeManager.isBusinessHours (today h) = true ->
      menuOutcome h chatId userId lc userState w w')
  /\ (TimeManager.isBusinessHours (today h) = false ->
      outOfHoursOutcome h chatId userId lc userState w w').
Proof.
  intros Hu Htruthy lc w'. subst lc w'.
  split; [apply languageCodeOf_cases |].
  unfold IntentProcessor.processIntent. simpl.
  unfold IntentProcessor.lenguaje. rewrite Htruthy.
  split; intros ->.
  - by apply menu_branch.
  - by apply outOfHours_branch.
Qed.

(** The two [sendBotMessage] differ in how they end when the transport
    rejects the message, not in the world they leave. *)
Lemma legacy_send_after h chatId content w :
  after (LegacyIndex.sendBotMessage h chatId content w)
  = after (sendBotMessage h chatId content w).
Proof.
  unfold LegacyIndex.sendBotMessage, sendBotMessage, try_catch, sock_sendMessage,
    throw, ret, after.
  by destruct (accepts h chatId content).
Qed.

Lemma after_bind_ext {A B} (c : Turn A) (k k' : A -> Turn B) w :
  (forall a w1, after (k a w1) = after (k' a w1)) ->
  after (bind c k w) = after (bind c k' w).
Proof.
  intros Hk. unfold bind. destruct (c w) as [[a | e] w1]; [apply Hk | reflexivity].
Qed.

Lemma legacy_lenguaje_after h chatId userId lc (menu : Turn Content) w :
  after ((StateManagerOps.updateUserState h userId
            [StateManagerOps.set_languageCode lc;
             StateManagerOps.set_currentContext "language_selected";
             StateManagerOps.set_languageSelectionComplete true] ;;;
          menuMessage <- menu ;;
          LegacyIndex.sendBotMessage h chatId menuMessage) w)
  = after ((StateManagerOps.updateUserState h userId
              [StateManagerOps.set_languageCode lc;
               StateManagerOps.set_currentContext "language_selected";
               StateManagerOps.set_languageSelectionComplete true] ;;;
            menuMessage <- menu ;;
            sendBotMessage h chatId menuMessage) w).
Proof.
  apply after_bind_ext. intros _ w1. apply after_bind_ext. intros m w2.
  apply legacy_send_after.
Qed.

(** C1 (the copy of [processIntent] in the older index.js). For a session
    that exists and a language input that resolves, that copy sets the
    language and then does the opposite of the handler of
    handlers/intentProcessor.js: when business hours are open it sends the
    out-of-hours message and sets [processCompleted = true]; when they are
    closed it sends the main menu and leaves [processCompleted] as it
    was. *)
Theorem legacy_lenguaje_inverted
    (h : Host) (chatId userId : string) (parameters : Parameters)
    (userState : UserState) (w : World) :
  states (stateManager w) !! userId = Some userState ->
  JS.truthy (IntentProcessor.languageInput parameters userState) = true ->
  let lc := IntentProcessor.languageCodeOf
              (IntentProcessor.languageInput parameters userState) in
  let w' := after (LegacyIndex.processIntent h chatId userId "lenguaje"
                     parameters userState w) in
  (TimeManager.isBusinessHours (today h) = true ->
   outOfHoursOutcome h chatId userId lc userState w w')
  /\ (TimeManager.isBusinessHours (today h) = false ->
      menuOutcome h chatId userId lc userState w w').
Proof.
  intros Hu Htruthy lc w'. subst lc w'.
  unfold LegacyIndex.processIntent. simpl.
  unfold LegacyIndex.lenguaje. rewrite Htruthy.
  split; intros ->; cbn [negb]; rewrite legacy_lenguaje_after.
  - by apply outOfHours_branch.
  - by apply menu_branch.
Qed.

(** Monday 11 h (open), a customer waiting for the language answers with the
    number 2: the older copy sends the English out-of-hours message and
    flags the session as completed. *)
Lemma legacy_lenguaje_inverted_witness :
  TimeManager.isBusinessHours (monday 11) = true
  /\ outOfHoursOutcome (hostAt 1000 (monday 11) None) customer "5550001111" "en"
       waitingSession waitingWorld
       (after (LegacyIndex.processIntent (hostAt 1000 (monday 11) None) customer
                 "5550001111" "lenguaje" (numericParameters 2 None)
                 waitingSession waitingWorld)).
Proof.
  split; [reflexivity |].
  apply (proj1 (legacy_lenguaje_inverted (hostAt 1000 (monday 11) None) customer
                  "5550001111" (numericParameters 2 None) waitingSession
                  waitingWorld eq_refl eq_refl)).
  reflexivity.
Defined.

(** The same turn, evaluated: what each copy hands to the transport and the
    flag it leaves. *)
Example open_hours_language_turn :
  reported (after (LegacyIndex.processIntent (hostAt 1000 (monday 11) None) customer
                     "5550001111" "lenguaje" (numericParameters 2 None)
                     waitingSession waitingWorld))
  = Some (customer, OutOfHoursMessage true)
  /\ reported (after (IntentProcessor.processIntent (hostAt 1000 (monday 11) None)
                        customer "5550001111" "lenguaje" (numericParameters 2 None)
                        waitingSession waitingWorld))
     = Some (customer, BusinessHoursMenu true).
Proof. split; vm_compute; reflexivity. Qed.

(** In the older copy a message that the transport rejects does not end the
    turn: the welcome turn returns normally and moves the session on, where
    the handler of handlers/intentProcessor.js throws before the update. *)
Example rejected_welcome_in_both_copies :
  (let r := LegacyIndex.processIntent (deafHostAt 1000 (monday 11) None) customer
              "5550001111" "Default Welcome Intent" noParameters completedSession
              completedWorld in
   result r = Done tt
   /\ (currentContext <$> states (stateManager (after r)) !! "5550001111")
      = Some "waiting_language_selection")
  /\ (let r := IntentProcessor.processIntent (deafHostAt 1000 (monday 11) None)
                 customer "5550001111" "Default Welcome Intent" noParameters
                 completedSession completedWorld in
      result r = Thrown TransportError
      /\ (currentContext <$> states (stateManager (after r)) !! "5550001111")
         = Some "product_selected").
Proof. repeat split; vm_compute; reflexivity. Qed.

Section Proceeds.

Import StateManagerOps.

Lemma reported_withStates w st (es mid : list Event) chatId content ok :
  reported (withStates w st (es ++ mid ++ [Sent chatId content ok]))
  = Some (chatId, content).
Proof. eapply reported_snoc. simpl. by rewrite app_assoc. Qed.

Lemma emit_withStates e w st es :
  emit e (withStates w st es) = withStates w st (es ++ [e]).
Proof. reflexivity. Qed.

Lemma menu_branch_any h chatId userId lc w :
  proceedsIn lc chatId userId
    (after
       ((updateUserState h userId
           [set_languageCode lc; set_currentContext "language_selected";
            set_languageSelectionComplete true] ;;;
         menuMessage <- ret (MessageProvider.getBusinessHoursMenu (Some lc)) ;;
         sendBotMessage h chatId menuMessage) w)).
Proof.
  destruct (updateUserState_run h userId
              [set_languageCode lc; set_currentContext "language_selected";
               set_languageSelectionComplete true] w) as (created & Hrun & _).
  unfold bind at 1. rewrite Hrun.
  unfold bind, ret, sendBotMessage, try_catch, sock_sendMessage, throw, after,
    proceedsIn, MessageProvider.getBusinessHoursMenu, MessageProvider.is_en.
  destruct (accepts h chatId _); cbn [snd]; rewrite emit_withStates;
    (eexists; split; [simpl; apply lookup_insert_eq |]);
    (split; [reflexivity |]); (split; [simpl; discriminate |]);
    left; eapply reported_snoc; simpl; reflexivity.
Qed.

Lemma outOfHours_branch_any h chatId userId lc w :
  proceedsIn lc chatId userId
    (after
       ((updateUserState h userId
           [set_languageCode lc; set_currentContext "language_selected";
            set_languageSelectionComplete true] ;;;
         menuMessage <-
           (updateUserState h userId
              [set_currentContext "product_selected"; set_processCompleted true] ;;;
            ret (MessageProvider.getOutOfHoursMessage (Some lc))) ;;
         sendBotMessage h chatId menuMessage) w)).
Proof.
  destruct (updateUserState_run h userId
              [set_languageCode lc; set_currentContext "language_selected";
               set_languageSelectionComplete true] w) as (created & Hrun & _).
  unfold bind at 1. rewrite Hrun.
  unfold bind at 1 2.
  erewrite updateUserState_known by (simpl; apply lookup_insert_eq).
  unfold bind, ret, sendBotMessage, try_catch, sock_sendMessage, throw, after,
    proceedsIn, MessageProvider.getOutOfHoursMessage, MessageProvider.is_en.
  destruct (accepts h chatId _); cbn [snd fst];
    (eexists; split; [simpl; apply lookup_insert_eq |]);
    (split; [reflexivity |]); (split; [simpl; discriminate |]);
    right; eapply reported_snoc; simpl; reflexivity.
Qed.

Lemma lenguaje_proceeds h chatId userId parameters userState w :
  JS.truthy (IntentProcessor.languageInput parameters userState) = true ->
  let lc := IntentProcessor.languageCodeOf
              (IntentProcessor.languageInput parameters userState) in
  proceedsIn lc chatId userId
    (after (IntentProcessor.processIntent h chatId userId "lenguaje"
              parameters userState w))
  /\ proceedsIn lc chatId userId
       (after (LegacyIndex.processIntent h chatId userId "lenguaje"
                 parameters userState w)).
Proof.
  intros Htruthy lc. subst lc.
  unfold IntentProcessor.processIntent, LegacyIndex.processIntent. simpl.
  unfold IntentProcessor.lenguaje, LegacyIndex.lenguaje. rewrite Htruthy.
  destruct (TimeManager.isBusinessHours (today h)); cbn [negb]; split;
    rewrite ?legacy_lenguaje_after;
    first [apply menu_branch_any | apply outOfHours_branch_any].
Qed.

Lemma notSpanish_english v :
  notSpanish v -> IntentProcessor.languageCodeOf v = "en".
Proof.
  intros (H1 & H2 & H3 & H4). unfold IntentProcessor.languageCodeOf.
  by rewrite H1, H2, H3, H4.
Qed.

Lemma numeric_languageInput q language userState :
  Qeq_bool q 0 = false ->
  IntentProcessor.languageInput (numericParameters q language) userState
  = JS.Number (JS.Fin q).
Proof.
  intros Hq. unfold IntentProcessor.languageInput, IntentProcessor.numberParam,
    numericParameters. cbn [number numberValue].
  unfold JS.or. cbn [JS.truthy]. rewrite Hq. cbn [negb JS.truthy].
  rewrite Hq. reflexivity.
Qed.

End Proceeds.

(** C10. In the "lenguaje" case (both copies of the handler), a language
    input that is truthy and is none of 1, "1", "es", "español" sets the
    session language to "en" and goes on: the session leaves
    [waiting_language_selection] and the message sent is the English main
    menu or the English out-of-hours message, not the language prompt. In
    particular a numeric parameter that is neither 0 nor 1 (3, say) is such
    an input. *)
Theorem other_inputs_resolve_to_english
    (h : Host) (chatId userId : string) (parameters : Parameters)
    (userState : UserState) (w : World) :
  (JS.truthy (IntentProcessor.languageInput parameters userState) = true ->
   notSpanish (IntentProcessor.languageInput parameters userState) ->
   proceedsIn "en" chatId userId
     (after (IntentProcessor.processIntent h chatId userId "lenguaje"
               parameters userState w))
   /\ proceedsIn "en" chatId userId
        (after (LegacyIndex.processIntent h chatId userId "lenguaje"
                  parameters userState w)))
  /\ (forall (q : Q) language,
        Qeq_bool q 0 = false -> Qeq_bool q 1 = false ->
        parameters = numericParameters q language ->
        JS.truthy (IntentProcessor.languageInput parameters userState) = true
        /\ notSpanish (IntentProcessor.languageInput parameters userState)).
Proof.
  split.
  - intros Htruthy Hns.
    pose proof (lenguaje_proceeds h chatId userId parameters userState w Htruthy) as Hp.
    simpl in Hp. by rewrite (notSpanish_english _ Hns) in Hp.
  - intros q language Hq0 Hq1 ->. rewrite numeric_languageInput by done.
    split; [cbn [JS.truthy]; by rewrite Hq0 |].
    unfold notSpanish, JS.of_Z. cbn [JS.strict_eq JS.number_eq].
    change (inject_Z 1) with 1%Q. by rewrite Hq1.
Qed.

(** A customer waiting for the language whose answer Dialogflow reads as the
    number 3: both copies set "en" and send an English message. *)
Lemma other_inputs_resolve_to_english_witness :
  proceedsIn "en" customer "5550001111"
    (after (IntentProcessor.processIntent (hostAt 1000 (monday 11) None) customer
              "5550001111" "lenguaje" (numericParameters 3 None)
              waitingSession waitingWorld))
  /\ proceedsIn "en" customer "5550001111"
       (after (LegacyIndex.processIntent (hostAt 1000 (monday 11) None) customer
                 "5550001111" "lenguaje" (numericParameters 3 None)
                 waitingSession waitingWorld)).
Proof.
  pose proof (other_inputs_resolve_to_english (hostAt 1000 (monday 11) None) customer
                "5550001111" (numericParameters 3 None) waitingSession waitingWorld)
    as [Hgo Hnum].
  destruct (Hnum 3%Q None eq_refl eq_refl eq_refl) as [Htruthy Hns].
  exact (Hgo Htruthy Hns).
Defined.

Section Completion.

Import StateManagerOps CommandHandlerOps IncomingMessage.

Lemma cleanExpiredEntries_run h w :
  exists saved,
    cleanExpiredEntries h w
    = (Done tt,
       withHandlerAndEffects w (swept (now h) (commandHandler w))
         (effects w ++ saved))
    /\ (saved = [] \/ saved = [snapshot (swept (now h) (commandHandler w))]).
Proof.
  unfold cleanExpiredEntries, bind, gets, modify, saveDisabledState, ret,
    withHandlerAndEffects, snapshot. simpl.
  destruct (0 <? _)%nat; simpl.
  - eexists [_]. split; [reflexivity | by right].
  - exists []. rewrite app_nil_r. split; [reflexivity | by left].
Qed.

Lemma isChatDisabled_not_live h chatId w :
  ~ liveEntry (commandHandler w) (now h) chatId ->
  exists v saved,
    isChatDisabled h chatId w
    = (Done v,
       withHandlerAndEffects w (swept (now h) (commandHandler w))
         (effects w ++ saved))
    /\ JS.truthy v = false
    /\ (saved = [] \/ saved = [snapshot (swept (now h) (commandHandler w))]).
Proof.
  intros Hdead.
  destruct (isChatDisabled_answer h chatId w) as (v & w1 & Hres & _ & _ & Htruthy).
  destruct (cleanExpiredEntries_run h w) as (saved & Hclean & Hsaved).
  unfold isChatDisabled, bind in *. rewrite Hclean in *.
  unfold gets, ret in *. simpl in *.
  injection Hres as Hv Hw. exists v, saved. rewrite Hv.
  split; [reflexivity |]. split; [| done].
  destruct (JS.truthy v); [| done]. exfalso. by apply Hdead, Htruthy.
Qed.

Lemma getUserState_run h userId w :
  exists created,
    getUserState h userId w
    = (Done (sessionOf h w userId),
       withStates w (<[userId := sessionOf h w userId]> (states (stateManager w)))
         (effects w ++ created))
    /\ (created = []
        \/ created = [SavedStates (<[userId := sessionOf h w userId]>
                                     (states (stateManager w)))]).
Proof.
  unfold getUserState, sessionOf, bind, gets, modify, saveStates, ret, withStates.
  simpl. destruct (states (stateManager w) !! userId) as [u |] eqn:Hu; simpl.
  - exists []. rewrite app_nil_r, insert_id by done.
    split; [| by left]. destruct w as [c [st] a es]. reflexivity.
  - eexists [_]. split; [reflexivity | by right].
Qed.

Lemma converse_completed h chatId userId userMessage w queryResult :
  let u := sessionOf h w userId in
  askDialogflow h userId userMessage u = Some queryResult ->
  intent queryResult = "ProcessCompleted" \/ processCompleted u = true ->
  accepts h chatId (Text (farewellFor u)) = true ->
  exists w',
    converse h chatId userId userMessage w = (Done tt, w')
    /\ closedFor h chatId userId 1 u w w'
    /\ sameElsewhere (commandHandler w) (commandHandler w') chatId.
Proof.
  intros u Hask Hdone Hacc.
  destruct (getUserState_run h userId w) as (created & Hget & Hcreated).
  assert (Hcond : String.eqb (intent queryResult) "ProcessCompleted"
                  || processCompleted u = true).
  { apply orb_true_iff. destruct Hdone as [-> | ->]; [by left | by right]. }
  eexists. split.
  - unfold converse, bind at 1. rewrite Hget. fold u. unfold try_catch.
    rewrite Hask, Hcond.
    unfold bind at 1. unfold markProcessCompleted, bind at 1, modify, saveDisabledState.
    cbn [fst snd].
    unfold bind at 1. unfold sendBotMessage, try_catch, sock_sendMessage.
    cbn [commandHandler set_commandHandler emit withStates].
    rewrite Hacc.
    unfold bind at 1.
    erewrite updateUserState_known by (simpl; apply lookup_insert_eq).
    unfold ret. reflexivity.
  - unfold closedFor, completedEntry.
    split; [split; [| split] |].
    + simpl. rewrite lookup_insert_eq. reflexivity.
    + eexists. split; [simpl; apply lookup_insert_eq |]. done.
    + exists created. do 4 eexists.
      split; [simpl; rewrite <- !app_assoc; reflexivity |].
      split; [simpl; rewrite lookup_insert_eq; reflexivity |].
      split; [reflexivity |]. split; [reflexivity |].
      intros e He. destruct Hcreated as [-> | ->].
      * by apply elem_of_nil in He.
      * apply list_elem_of_singleton in He as ->. right. eauto.
    + intros k Hk. simpl. by rewrite lookup_insert_ne.
Qed.

End Completion.

(** The turn that closes a conversation, with the entry it writes. *)
Lemma handleIncomingMessage_completed
    (h : Host) (rest : CommandHandlerOps.Unembedded)
    (message : IncomingMessage.Message) (w : World) (queryResult : QueryResult) :
  let chatId := IncomingMessage.remoteJid message in
  let userId := Str.first_part "@" chatId in
  let u := sessionOf h w userId in
  Str.endsWith chatId "@g.us" = false ->
  CommandHandlerOps.isOwner (commandHandler w) userId = false ->
  ~ liveEntry (commandHandler w) (now h) chatId ->
  IncomingMessage.askDialogflow h userId (IncomingMessage.userMessage message) u
  = Some queryResult ->
  intent queryResult = "ProcessCompleted" \/ processCompleted u = true ->
  accepts h chatId (Text (IncomingMessage.farewellFor u)) = true ->
  let r := IncomingMessage.handleIncomingMessage h rest message w in
  result r = Done tt
  /\ closedFor h chatId userId 1 u w (after r).
Proof.
  intros chatId userId u Hgroup Howner Hdead Hask Hdone Hacc r.
  destruct (isChatDisabled_not_live h chatId w Hdead) as (v & saved & Hdis & Hv & Hsaved).
  set (w1 := withHandlerAndEffects w (swept (now h) (commandHandler w))
               (effects w ++ saved)) in *.
  assert (Hu : sessionOf h w1 userId = u) by reflexivity.
  destruct (converse_completed h chatId userId (IncomingMessage.userMessage message)
              w1 queryResult) as (w' & Hconv & Hclosed & _);
    [by rewrite Hu | by rewrite Hu | by rewrite Hu |].
  assert (Hrun : r = (Done tt, w')).
  { subst r. unfold IncomingMessage.handleIncomingMessage. fold chatId.
    rewrite Hgroup. fold userId.
    unfold bind at 1, gets. cbn [fst snd]. rewrite Howner.
    unfold bind at 1, ret. unfold bind at 1. rewrite Hdis, Hv. exact Hconv. }
  rewrite Hrun. unfold result, after. cbn [fst snd].
  split; [reflexivity |].
  rewrite Hu in Hclosed.
  destruct Hclosed as (Hentry & Hsession & before & d & m & c & st & Heff & Hrest).
  split; [done |]. split; [done |].
  exists (saved ++ before)%list, d, m, c, st.
  split; [rewrite Heff; simpl; rewrite <- !app_assoc; reflexivity |].
  destruct Hrest as (Hc & Hc' & Hst & Hbefore).
  repeat (split; [done |]).
  intros e He. apply elem_of_app in He as [He | He]; [| by apply Hbefore].
  destruct Hsaved as [-> | ->].
  - by apply elem_of_nil in He.
  - apply list_elem_of_singleton in He as ->. left. unfold snapshot. eauto.
Qed.



(** What becomes of that turn, and of the turn of the customer in a chat
    that is not silenced when Dialogflow rejects the call or the transport
    rejects the farewell: nothing at all; an apology and no entry; an entry
    but the session still flagged. *)
Example completed_turns_that_do_not_close :
  after (IncomingMessage.handleIncomingMessage
           (hostAt 1000 (monday 11) (Some thanks)) noOtherCommands thanksMessage
           completedButSilenced)
  = completedButSilenced
  /\ (let w' := after (IncomingMessage.handleIncomingMessage
                         (hostAt 1000 (monday 11) None) noOtherCommands thanksMessage
                         completedWorld) in
      completedChats (commandHandler w') !! customer = None
      /\ reported w' = Some (customer, Text IncomingMessage.errorEn))
  /\ (let w' := after (IncomingMessage.handleIncomingMessage
                         (deafHostAt 1000 (monday 11) (Some thanks)) noOtherCommands
                         thanksMessage completedWorld) in
      is_Some (completedChats (commandHandler w') !! customer)
      /\ (processCompleted <$> states (stateManager w') !! "5550001111") = Some true).
Proof.
  split; [vm_compute; reflexivity |].
  split; (split; [vm_compute; eauto | vm_compute; reflexivity]).
Qed.

Lemma sendBotMessage_run h chatId content w :
  sendBotMessage h chatId content w
  = (sending h chatId content, afterSending h chatId content w).
Proof.
  unfold sendBotMessage, try_catch, sock_sendMessage, throw, sending, afterSending.
  by destruct (accepts h chatId content).
Qed.

Section Undelivered.

Import StateManagerOps CommandHandlerOps IncomingMessage.


End Undelivered.




(** The same turn, evaluated: the entry it writes expires one hour after
    now. *)
Example completed_turn_entry :
  completedChats
    (commandHandler
       (after (IncomingMessage.handleIncomingMessage
                 (hostAt 1000 (monday 11) (Some thanks)) noOtherCommands
                 thanksMessage completedWorld)))
    !! customer
  = Some {| cc_completedAt := 1000; cc_expiry := 3601000 |}.
Proof. vm_compute. reflexivity. Qed.

(** * Further properties *)

(** ** The session store (stateManager.js) *)

Section Store.

Import StateManagerOps SessionStore.

(** X1. First contact: [getUserState] of an unknown user returns the default
    record, stores it and saves the store once; asking again, at any later
    time, returns that same record and changes nothing. *)
Theorem getUserState_first_contact (h h' : Host) (userId : string) (w : World) :
  states (stateManager w) !! userId = None ->
  let r := getUserState h userId w in
  result r = Done (freshState h)
  /\ states (stateManager (after r)) = <[userId := freshState h]> (states (stateManager w))
  /\ effects (after r)
     = (effects w ++ [SavedStates (states (stateManager (after r)))])%list
  /\ commandHandler (after r) = commandHandler w
  /\ getUserState h' userId (after r) = (Done (freshState h), after r).
Proof.
  intros Hnew r. subst r.
  unfold getUserState, bind, gets, modify, saveStates, ret, result, after.
  cbn [fst snd]. rewrite Hnew. cbn.
  rewrite lookup_insert_eq. done.
Qed.

Lemma getUserState_first_contact_witness :
  result (getUserState (laterHost 7000) "5550002222" spanishWorld)
  = Done (freshState (laterHost 7000)).
Proof.
  exact (proj1 (getUserState_first_contact (laterHost 7000) (laterHost 9000)
                  "5550002222" spanishWorld eq_refl)).
Defined.

(** X2. [updateUserState] touches one record only: the other users keep
    their sessions, the record keeps its [sessionStarted], its
    [lastInteraction] becomes now, and the whole store is saved last. A
    second update keeps what the first one wrote in the fields it does not
    name. *)
Theorem updateUserState_merges (h1 h2 : Host) (userId lc ctx : string) (w : World) :
  let r1 := updateUserState h1 userId [set_languageCode lc] w in
  let r2 := updateUserState h2 userId [set_currentContext ctx] (after r1) in
  let u0 := sessionOf h1 w userId in
  sameSessionsElsewhere w (after r2) userId
  /\ commandHandler (after r2) = commandHandler w
  /\ (exists s,
        result r2 = Done s
        /\ states (stateManager (after r2)) !! userId = Some s
        /\ languageCode s = Some lc
        /\ currentContext s = ctx
        /\ lastInteraction s = now h2
        /\ sessionStarted s = sessionStarted u0
        /\ processCompleted s = processCompleted u0
        /\ selectedProduct s = selectedProduct u0)
  /\ last (effects (after r2)) = Some (SavedStates (states (stateManager (after r2)))).
Proof.
  intros r1 r2 u0. subst r1 r2 u0.
  destruct (updateUserState_run h1 userId [set_languageCode lc] w) as (created & Hrun1 & _).
  assert (Hw1 : after (updateUserState h1 userId [set_languageCode lc] w) = _)
    by (rewrite Hrun1; reflexivity).
  rewrite Hw1.
  erewrite (updateUserState_known h2 userId [set_currentContext ctx])
    by (simpl; apply lookup_insert_eq).
  unfold result, after. cbn [fst snd]. unfold sessionOf.
  split; [| split; [reflexivity | split]].
  - intros k Hk. simpl. by rewrite !lookup_insert_ne.
  - eexists. split; [reflexivity |]. split; [simpl; apply lookup_insert_eq |]. done.
  - simpl. by rewrite last_snoc.
Qed.


End Store.



(** [/reset constructor]: no such user is stored, and the answer is that the
    user was reset. *)
Example reset_of_an_inherited_name :
  let w' := after (OwnerCommands.resetUserState (laterHost 7000) ownerChat
                     ["constructor"] spanishWorld) in
  states (stateManager spanishWorld) !! "constructor" = None
  /\ reported w' = Some (ownerChat, Text (OwnerCommands.resetDone "constructor"))
  /\ states (stateManager w') !! "constructor"
     = Some (SessionStore.resetRecord (laterHost 7000) None).
Proof. repeat split; vm_compute; reflexivity. Qed.

Section Sweeps.

Import CommandHandlerOps.

Lemma size_removed_remaining {A} (cond : A -> Prop) `{!forall a, Decision (cond a)}
    (m : gmap string A) :
  size m = (size (removed cond m) + size (remaining cond m))%nat.
Proof.
  unfold removed, remaining.
  rewrite <- map_size_disj_union
    by apply (map_disjoint_filter_complement (fun kv : string * A => cond kv.2)).
  by rewrite (map_filter_union_complement (fun kv : string * A => cond kv.2)).
Qed.

Lemma remaining_all {A} (cond : A -> Prop) `{!forall a, Decision (cond a)}
    (m : gmap string A) :
  size (removed cond m) = 0%nat -> remaining cond m = m.
Proof.
  intros Hsize. apply map_size_empty_inv in Hsize.
  unfold remaining. apply map_filter_id. intros k a Ha Hcond.
  assert (Hin : removed cond m !! k = Some a)
    by (unfold removed; by apply map_lookup_filter_Some).
  rewrite Hsize in Hin. by rewrite lookup_empty in Hin.
Qed.

Lemma removed_none {A} (cond : A -> Prop) `{!forall a, Decision (cond a)}
    (m : gmap string A) :
  (forall k a, m !! k = Some a -> ~ cond a) -> size (removed cond m) = 0%nat.
Proof.
  intros Hnone. apply map_size_empty_iff, map_eq. intros k.
  rewrite lookup_empty. unfold removed. apply map_lookup_filter_None.
  right. intros a Ha. by apply Hnone in Ha.
Qed.

Lemma set_states_id (w : World) :
  set_states (fun _ => states (stateManager w)) w = w.
Proof. destruct w as [c [st] a es]. reflexivity. Qed.

End Sweeps.

Section InactiveUsers.

Import CommandHandlerOps StateManagerOps SessionStore.

Lemma cleanupInactiveUsers_run h months w :
  let limit := default 3 months * 30 * 24 * 60 * 60 * 1000 in
  let gone := removed (idle (now h) limit) (states (stateManager w)) in
  let kept := remaining (idle (now h) limit) (states (stateManager w)) in
  cleanupInactiveUsers h months w
  = (Done (Z.of_nat (size gone)),
     if (0 <? size gone)%nat
     then withStates w kept (effects w ++ [SavedStates kept])
     else withStates w kept (effects w)).
Proof.
  unfold cleanupInactiveUsers, bind, gets, modify, saveStates, ret, sessions.
  cbn [fst snd]. destruct (0 <? _)%nat; reflexivity.
Qed.

(** X4. [cleanupInactiveUsers] deletes exactly the sessions whose last
    interaction is more than [months] x 30 days old (three months when no
    number is given), returns how many it deleted, which is the number by
    which the store shrank, saves the store when it deleted something, and
    leaves the world as it was when it deleted nothing. *)
Theorem cleanupInactiveUsers_counts (h : Host) (months : option Z) (w : World) :
  let limit := default 3 months * 2592000000 in
  let r := cleanupInactiveUsers h months w in
  exists n : nat,
    result r = Done (Z.of_nat n)
    /\ size (states (stateManager w)) = (n + size (states (stateManager (after r))))%nat
    /\ (forall k s,
          states (stateManager (after r)) !! k = Some s
          <-> states (stateManager w) !! k = Some s
              /\ now h - lastInteraction s <= limit)
    /\ (n = 0%nat -> after r = w)
    /\ ((0 < n)%nat ->
        effects (after r)
        = (effects w ++ [SavedStates (states (stateManager (after r)))])%list)
    /\ commandHandler (after r) = commandHandler w.
Proof.
  intros limit r. subst r. rewrite cleanupInactiveUsers_run.
  replace (default 3 months * 30 * 24 * 60 * 60 * 1000) with limit by (unfold limit; lia).
  set (gone := removed (idle (now h) limit) (states (stateManager w))).
  set (kept := remaining (idle (now h) limit) (states (stateManager w))).
  exists (size gone). unfold result, after. cbn [fst snd].
  assert (Hstates : forall es, states (stateManager (withStates w kept es)) = kept)
    by reflexivity.
  split; [reflexivity |]. split; [| split; [| split; [| split]]].
  - destruct (0 <? size gone)%nat; rewrite Hstates; apply size_removed_remaining.
  - intros k s.
    assert (Hk : kept !! k = Some s
                 <-> states (stateManager w) !! k = Some s
                     /\ now h - lastInteraction s <= limit).
    { unfold kept. rewrite lookup_remaining. unfold idle. intuition lia. }
    destruct (0 <? size gone)%nat; rewrite Hstates; exact Hk.
  - intros Hzero. rewrite Hzero. cbn.
    unfold kept. rewrite remaining_all by exact Hzero.
    destruct w as [c [st] a es]. reflexivity.
  - intros Hpos. apply Nat.ltb_lt in Hpos. rewrite Hpos. reflexivity.
  - destruct (0 <? size gone)%nat; reflexivity.
Qed.

(** X5. After the 30-day sweep ([cleanupOldSessions]), an inactive-user sweep
    of one month or more made at the same moment finds nothing: it returns 0
    and changes nothing. *)
Theorem inactive_sweep_after_idle_sweep (h : Host) (months : Z) (w : World) :
  1 <= months ->
  let w1 := after (cleanupOldSessions h w) in
  cleanupInactiveUsers h (Some months) w1 = (Done 0, w1)
  /\ cleanupInactiveUsers h None w1 = (Done 0, w1).
Proof.
  intros Hmonths w1.
  assert (Hkept : forall k s, states (stateManager w1) !! k = Some s ->
                              now h - lastInteraction s <= thirtyDaysInMs).
  { intros k s. subst w1.
    unfold cleanupOldSessions, bind, gets, modify, saveStates, ret, sessions, after.
    cbn [fst snd]. destruct (0 <? _)%nat; cbn; intros Hk;
      apply lookup_remaining in Hk as [_ Hn]; unfold idle in Hn; lia. }
  assert (Hnone : forall m, 1 <= m ->
            cleanupInactiveUsers h (Some m) w1 = (Done 0, w1)).
  { intros m Hm. rewrite cleanupInactiveUsers_run. cbv zeta.
    change (default 3 (Some m)) with m.
    assert (Hzero : size (removed (idle (now h) (m * 30 * 24 * 60 * 60 * 1000))
                            (states (stateManager w1))) = 0%nat).
    { apply removed_none. intros k s Hk. apply Hkept in Hk.
      unfold idle, thirtyDaysInMs in *. lia. }
    rewrite Hzero. cbn. rewrite remaining_all by exact Hzero.
    destruct w1 as [c [st] a es]. reflexivity. }
  split; [by apply Hnone |].
  change (cleanupInactiveUsers h None w1) with (cleanupInactiveUsers h (Some 3) w1).
  apply Hnone. lia.
Qed.

Lemma inactive_sweep_after_idle_sweep_witness :
  cleanupInactiveUsers (laterHost 3000000000) (Some 2)
    (after (cleanupOldSessions (laterHost 3000000000) twoCustomers))
  = (Done 0, after (cleanupOldSessions (laterHost 3000000000) twoCustomers)).
Proof.
  apply (inactive_sweep_after_idle_sweep (laterHost 3000000000) 2 twoCustomers).
  lia.
Defined.

(** The 30-day sweep at 3 000 000 000 ms deletes the customer last seen at
    0 ms and keeps the one seen at 2 000 000 000 ms. *)
Example idle_sweep_of_two :
  states (stateManager (after (cleanupOldSessions (laterHost 3000000000) twoCustomers)))
  = {[ "5550002222" := recentSession ]}.
Proof. vm_compute. reflexivity. Qed.

(** X6. [hasRecentInteraction] of a user never seen before registers the
    user with a default session stamped at the first reading of the clock,
    and its answer only tells how long that took: it is [true] exactly when
    the second reading, made after the store was saved, is less than the
    window later than the stamp. So it is [true] for every window longer
    than that delay, and [false] for a window that is not. *)
Theorem hasRecentInteraction_unknown (h : Host) (later : Z) (userId : string)
    (timeInMs : option Z) (w : World) :
  states (stateManager w) !! userId = None ->
  let window := default 1800000 timeInMs in
  let r := hasRecentInteraction h later userId timeInMs w in
  (exists answer, result r = Done answer /\ (answer = true <-> later - now h < window))
  /\ states (stateManager (after r)) = <[userId := freshState h]> (states (stateManager w))
  /\ effects (after r)
     = (effects w ++ [SavedStates (states (stateManager (after r)))])%list.
Proof.
  intros Hnew window r. subst r window.
  unfold hasRecentInteraction, getUserState, bind, gets, modify, saveStates, ret,
    result, after.
  cbn [fst snd]. rewrite Hnew. cbn -[Z.sub Z.ltb Z.mul].
  change (30 * 60 * 1000) with 1800000.
  split; [| split; reflexivity].
  eexists. split; [reflexivity |]. apply Z.ltb_lt.
Qed.

(** Saving took 40 ms: a window of 30 minutes is answered [true], one of
    40 ms [false]. *)
Lemma hasRecentInteraction_unknown_witness :
  result (hasRecentInteraction (laterHost 7000) 7040 "5550003333" None spanishWorld)
  = Done true
  /\ result (hasRecentInteraction (laterHost 7000) 7040 "5550003333" (Some 40)
               spanishWorld)
     = Done false.
Proof.
  pose proof (hasRecentInteraction_unknown (laterHost 7000) 7040 "5550003333" None
                spanishWorld eq_refl) as ((a & Ha & Hiff) & _).
  pose proof (hasRecentInteraction_unknown (laterHost 7000) 7040 "5550003333" (Some 40)
                spanishWorld eq_refl) as ((b & Hb & Hiff') & _).
  split.
  - rewrite Ha. f_equal. apply Hiff. vm_compute. reflexivity.
  - rewrite Hb. f_equal. destruct b; [| reflexivity].
    exfalso. assert (Hlt : 7040 - 7000 < 40) by (by apply Hiff'). lia.
Defined.

End InactiveUsers.

(** ** Sweeps of the registry *)

Section RegistrySweeps.

Import CommandHandlerOps AutoReactivation.

Lemma remaining_twice {A} (cond : A -> Prop) `{!forall a, Decision (cond a)}
    (m : gmap string A) :
  size (removed cond (remaining cond m)) = 0%nat.
Proof.
  apply removed_none. intros k a Ha. by apply lookup_remaining in Ha as [_ Hn].
Qed.

Lemma remaining_idem {A} (cond : A -> Prop) `{!forall a, Decision (cond a)}
    (m : gmap string A) :
  remaining cond (remaining cond m) = remaining cond m.
Proof. apply remaining_all, remaining_twice. Qed.

Lemma swept_twice t c : swept t (swept t c) = swept t c.
Proof.
  destruct c as [o d m cc]. unfold swept. cbn.
  unfold set_completedChats, set_manualInterventions, set_disabledChats. cbn.
  by rewrite !remaining_idem.
Qed.

Lemma cleanExpiredEntries_exact h w :
  let c := commandHandler w in
  let cleaned :=
    (size (removed (expired (now h)) (disabledChats c))
     + size (removed (expired (now h)) (manualInterventions c))
     + size (removed (expired (now h)) (completedChats c)))%nat in
  cleanExpiredEntries h w
  = (Done tt,
     withHandlerAndEffects w (swept (now h) c)
       (effects w ++ if (0 <? cleaned)%nat then [snapshot (swept (now h) c)] else []))
  /\ entryCount c = (cleaned + entryCount (swept (now h) c))%nat.
Proof.
  intros c cleaned. split.
  - unfold cleanExpiredEntries, bind, gets, modify, saveDisabledState, ret,
      withHandlerAndEffects, snapshot. cbn [fst snd]. fold c. fold cleaned.
    destruct (0 <? cleaned)%nat; cbn; rewrite ?app_nil_r; reflexivity.
  - unfold entryCount, cleaned, swept. cbn.
    rewrite (size_removed_remaining (expired (now h)) (disabledChats c)) at 1.
    rewrite (size_removed_remaining (expired (now h)) (manualInterventions c)) at 1.
    rewrite (size_removed_remaining (expired (now h)) (completedChats c)) at 1.
    lia.
Qed.

Lemma liveEntry_swept c t t' chatId :
  t <= t' -> (liveEntry (swept t c) t' chatId <-> liveEntry c t' chatId).
Proof.
  intros Hle. unfold liveEntry, swept. cbn.
  assert (Hkeep : forall {A} `{Expiring A} (m : gmap string A),
            (exists e, remaining (expired t) m !! chatId = Some e /\ t' < expiry e)
            <-> (exists e, m !! chatId = Some e /\ t' < expiry e)).
  { intros A HA m. split; intros (e & He & Hlt); exists e.
    - apply lookup_remaining in He as [He _]. done.
    - split; [| done]. apply lookup_remaining. split; [done |].
      unfold expired. lia. }
  rewrite !Hkeep. tauto.
Qed.

Lemma cleanExpiredEntries_nothing h w :
  size (removed (expired (now h)) (disabledChats (commandHandler w))) = 0%nat ->
  size (removed (expired (now h)) (manualInterventions (commandHandler w))) = 0%nat ->
  size (removed (expired (now h)) (completedChats (commandHandler w))) = 0%nat ->
  cleanExpiredEntries h w = (Done tt, w).
Proof.
  intros Hd Hm Hc. destruct (cleanExpiredEntries_exact h w) as [Hrun _].
  rewrite Hrun, Hd, Hm, Hc. cbn. rewrite app_nil_r.
  unfold swept, withHandlerAndEffects.
  destruct w as [[o d m cc] st a es]. cbn in *.
  unfold set_completedChats, set_manualInterventions, set_disabledChats. cbn.
  by rewrite !remaining_all.
Qed.

End RegistrySweeps.

(** X7. [cleanExpiredEntries] removes entries with [expiry < now] only: every
    chat that is disabled now or at any later moment stays so. It saves the
    registry exactly when it removed something, and run again at the same
    moment it changes nothing and saves nothing. *)
Theorem cleanExpiredEntries_settles (h : Host) (w : World) :
  let r := CommandHandlerOps.cleanExpiredEntries h w in
  result r = Done tt
  /\ (forall chatId t, now h <= t ->
        (liveEntry (commandHandler (after r)) t chatId
         <-> liveEntry (commandHandler w) t chatId))
  /\ (entryCount (commandHandler (after r)) = entryCount (commandHandler w) ->
      after r = w)
  /\ (entryCount (commandHandler (after r)) <> entryCount (commandHandler w) ->
      effects (after r) = (effects w ++ [snapshot (commandHandler (after r))])%list)
  /\ CommandHandlerOps.cleanExpiredEntries h (after r) = (Done tt, after r).
Proof.
  intros r. subst r.
  destruct (cleanExpiredEntries_exact h w) as [Hrun Hcount].
  set (c := commandHandler w) in *.
  set (cleaned := (size _ + size _ + size _)%nat) in *.
  rewrite Hrun. unfold result, after. cbn [fst snd].
  split; [reflexivity |]. split; [| split; [| split]].
  - intros chatId t Ht. cbn. by apply liveEntry_swept.
  - intros Hsame. cbn [withHandlerAndEffects commandHandler] in Hsame.
    assert (Hzero : cleaned = 0%nat) by lia.
    pose proof (f_equal snd Hrun) as Hw. cbn [snd] in Hw. rewrite <- Hw.
    rewrite cleanExpiredEntries_nothing; [reflexivity | | |];
      unfold cleaned in Hzero; fold c; lia.
  - cbn [withHandlerAndEffects commandHandler effects]. intros Hdiff.
    assert (Hpos : (0 <? cleaned)%nat = true) by (apply Nat.ltb_lt; lia).
    by rewrite Hpos.
  - apply cleanExpiredEntries_nothing;
      cbn [withHandlerAndEffects commandHandler swept disabledChats
           manualInterventions completedChats set_completedChats
           set_manualInterventions set_disabledChats];
      apply remaining_twice.
Qed.

(** At 5000 ms the command entry that ran out at 4000 goes, the registry is
    saved, and the intervention that runs until 9000 stays. *)
Lemma cleanExpiredEntries_settles_witness :
  effects (after (CommandHandlerOps.cleanExpiredEntries (laterHost 5000) mixedRegistry))
  = [snapshot (commandHandler
                 (after (CommandHandlerOps.cleanExpiredEntries (laterHost 5000)
                           mixedRegistry)))]
  /\ liveEntry
       (commandHandler
          (after (CommandHandlerOps.cleanExpiredEntries (laterHost 5000) mixedRegistry)))
       5000 customer.
Proof.
  pose proof (cleanExpiredEntries_settles (laterHost 5000) mixedRegistry)
    as (_ & Hlive & _ & Hsaved & _).
  split.
  - apply Hsaved. vm_compute. discriminate.
  - apply (Hlive customer 5000); [vm_compute; discriminate |].
    right. left. eexists. split; [vm_compute; reflexivity | vm_compute; reflexivity].
Defined.

Section SchedulerCount.

Import CommandHandlerOps AutoReactivation.

Lemma removed_empty {A} (cond : A -> Prop) `{!forall a, Decision (cond a)} :
  removed cond (∅ : gmap string A) = ∅.
Proof. unfold removed. apply map_filter_empty. Qed.

Lemma checkAndReactivate_result h w :
  let c := commandHandler w in
  let dueCount :=
    (size (removed (due (now h)) (disabledChats c))
     + size (removed (due (now h)) (manualInterventions c))
     + size (removed (due (now h)) (completedChats c)))%nat in
  let released := if firesMass h w then entryCount c else dueCount in
  result (checkAndReactivate h w) = Done (Z.of_nat released)
  /\ (released = 0%nat -> effects (after (checkAndReactivate h w)) = effects w)
  /\ ((0 < released)%nat ->
      last (effects (after (checkAndReactivate h w)))
      = Some (snapshot (commandHandler (after (checkAndReactivate h w))))).
Proof.
  intros c dueCount released. subst released dueCount c.
  unfold checkAndReactivate, massReactivateAllChats, firesMass, entryCount,
    bind, gets, modify, ret, saveDisabledState, result, after, snapshot.
  cbn [fst snd].
  destruct (closingDetected _ _); cbn [andb];
    [destruct (markerDiffers _ _ _) |].
  - cbn -[removed remaining size Z.of_nat Z.add Z.ltb].
    match goal with
    | |- context [if 0 <? ?x then _ else _] => destruct (0 <? x) eqn:Hn
    end;
      cbn -[removed remaining size Z.of_nat Z.add Z.ltb];
      rewrite !removed_empty, !map_size_empty;
      cbn -[removed remaining size Z.of_nat Z.add Z.ltb];
      rewrite Z.add_0_r, Hn; cbn -[size Z.of_nat].
    + split; [reflexivity |]. split; [intros Hz; rewrite Hz in Hn; discriminate |].
      intros _. by rewrite last_snoc.
    + split; [reflexivity |]. split; [reflexivity |]. intros Hpos.
      apply Z.ltb_ge in Hn. lia.
  - cbn -[removed remaining size Z.of_nat Z.ltb].
    match goal with
    | |- context [if 0 <? ?x then _ else _] => destruct (0 <? x) eqn:Hk
    end; cbn -[removed remaining size Z.of_nat].
    + split; [reflexivity |]. split; [intros Hz; rewrite Hz in Hk; discriminate |].
      intros _. by rewrite last_snoc.
    + split; [reflexivity |]. split; [reflexivity |]. intros Hpos.
      apply Z.ltb_ge in Hk. lia.
  - cbn -[removed remaining size Z.of_nat Z.ltb].
    match goal with
    | |- context [if 0 <? ?x then _ else _] => destruct (0 <? x) eqn:Hk
    end; cbn -[removed remaining size Z.of_nat].
    + split; [reflexivity |]. split; [intros Hz; rewrite Hz in Hk; discriminate |].
      intros _. by rewrite last_snoc.
    + split; [reflexivity |]. split; [reflexivity |]. intros Hpos.
      apply Z.ltb_ge in Hk. lia.
Qed.

Lemma entryCount_sweptDue t c :
  entryCount c
  = (size (removed (due t) (disabledChats c))
     + size (removed (due t) (manualInterventions c))
     + size (removed (due t) (completedChats c))
     + entryCount (sweptDue t c))%nat.
Proof.
  unfold entryCount, sweptDue. cbn.
  rewrite (size_removed_remaining (due t) (disabledChats c)) at 1.
  rewrite (size_removed_remaining (due t) (manualInterventions c)) at 1.
  rewrite (size_removed_remaining (due t) (completedChats c)) at 1.
  lia.
Qed.

End SchedulerCount.

(** X8. [checkAndReactivate] returns the number of entries it released, which
    is the number by which the registry shrank; it saves the registry last
    when that number is positive and writes nothing when it is zero; and it
    leaves only entries with [expiry > now], so that afterwards a chat has an
    entry exactly when it is disabled. *)
Theorem checkAndReactivate_accounts (h : Host) (w : World) :
  let r := AutoReactivation.checkAndReactivate h w in
  exists released : nat,
    result r = Done (Z.of_nat released)
    /\ entryCount (commandHandler w)
       = (released + entryCount (commandHandler (after r)))%nat
    /\ (released = 0%nat -> effects (after r) = effects w)
    /\ ((0 < released)%nat ->
        last (effects (after r)) = Some (snapshot (commandHandler (after r))))
    /\ allLive (commandHandler (after r)) (now h)
    /\ (forall chatId,
          holdsEntry (commandHandler (after r)) chatId
          <-> liveEntry (commandHandler (after r)) (now h) chatId).
Proof.
  intros r. subst r.
  destruct (checkAndReactivate_result h w) as (Hres & Hzero & Hpos).
  destruct (checkAndReactivate_step h w) as (_ & _ & Hhandler).
  eexists. split; [exact Hres |].
  assert (Hlive : allLive (commandHandler (after (AutoReactivation.checkAndReactivate h w)))
                    (now h)).
  { rewrite Hhandler. destruct (AutoReactivation.firesMass h w).
    - repeat split; intros k e He; cbn in He; by rewrite lookup_empty in He.
    - repeat split; intros k e He; cbn in He;
        apply lookup_remaining in He as [_ Hn];
        unfold AutoReactivation.due in Hn; lia. }
  split; [| split; [exact Hzero | split; [exact Hpos | split; [exact Hlive |]]]].
  - rewrite Hhandler. destruct (AutoReactivation.firesMass h w).
    + unfold entryCount. cbn -[size Nat.add]. rewrite !map_size_empty. lia.
    + apply entryCount_sweptDue.
  - intros chatId. split; [| apply liveEntry_holds].
    destruct Hlive as (Hd & Hm & Hc).
    intros [[e He] | [[e He] | [e He]]].
    + left. exists e. split; [done | by eapply Hd].
    + right. left. exists e. split; [done | by eapply Hm].
    + right. right. exists e. split; [done | by eapply Hc].
Qed.

(** X9. An accepted [/off] of [hours] hours silences the invoking chat from
    now until [hours] hours later: [isChatDisabled] answers [true] at every
    moment of that span, whatever else the registry holds; and if the chat
    had no other entry it does not answer [true] from the end of the span
    on. *)
Theorem off_silences_for_its_span
    (h h' : Host) (chatId : string) (args : list string) (w : World) (hours : Z) :
  CommandHandlerOps.requestedHours args = Some hours ->
  1 <= hours <= 168 ->
  let w1 := after (CommandHandlerOps.deactivateBot h chatId args w) in
  (now h <= now h' < now h + hours * 3600000 ->
   result (CommandHandlerOps.isChatDisabled h' chatId w1) = Done (JS.Boolean true))
  /\ (clearedFor (commandHandler w) chatId ->
      now h + hours * 3600000 <= now h' ->
      result (CommandHandlerOps.isChatDisabled h' chatId w1) <> Done (JS.Boolean true)).
Proof.
  intros Hreq Hrange w1.
  pose proof (deactivateBot_accepts h chatId args w hours Hreq Hrange) as (Hc & Hentry & _).
  fold w1 in Hc, Hentry.
  destruct (isChatDisabled_answer h' chatId w1) as (v & w2 & Hrun & _ & Htrue & _).
  rewrite Hrun. unfold result. cbn [fst]. split.
  - intros Hspan. f_equal. apply Htrue. left. eexists. split; [exact Hentry |].
    cbn. lia.
  - intros (Hd & Hm & Hcc) Hlate [= Hv]. apply Htrue in Hv.
    rewrite Hc in Hv. unfold liveEntry in Hv. cbn in Hv.
    rewrite lookup_insert_eq, Hm, Hcc in Hv.
    destruct Hv as [(e & [= <-] & Hlt) | [(e & ? & _) | (e & ? & _)]];
      try discriminate.
    cbn in Hlt. lia.
Qed.

(** [/off 2] at 1000 ms: the chat is silenced at 1000 + 7 199 999 ms. *)
Lemma off_silences_for_its_span_witness :
  result (CommandHandlerOps.isChatDisabled (laterHost 7200999) customer
            (after (CommandHandlerOps.deactivateBot (laterHost 1000) customer ["2"]
                      (startWorld "1234567890"))))
  = Done (JS.Boolean true).
Proof.
  apply (proj1 (off_silences_for_its_span (laterHost 1000) (laterHost 7200999) customer
                  ["2"] (startWorld "1234567890") 2 eq_refl ltac:(lia))).
  cbn. lia.
Defined.

(** ** Outgoing messages (handlers/outgoingMessage.js, messageService.js) *)

Section Outgoing.

Import CommandHandlerOps MessageService OutgoingMessage.

Lemma registerManualIntervention_run h chatId hours w :
  let c1 := set_manualInterventions
              (insert chatId {| mi_startTime := now h;
                                mi_expiry := now h + default 1 hours * 60 * 60 * 1000 |})
              (commandHandler w) in
  registerManualIntervention h chatId hours w
  = (Done tt, withHandlerAndEffects w c1 (effects w ++ [snapshot c1])).
Proof. reflexivity. Qed.

Lemma prefix_app needle post : String.prefix needle (needle ++ post) = true.
Proof.
  induction needle as [| a needle IH]; simpl; [by destruct post |].
  destruct (ascii_dec a a); [exact IH | contradiction].
Qed.

Lemma includes_unfold needle s :
  includes needle s
  = String.prefix needle s
    || match s with
       | EmptyString => false
       | String.String _ r => includes needle r
       end.
Proof. destruct s; reflexivity. Qed.

Lemma includes_app needle pre post : includes needle (pre ++ needle ++ post) = true.
Proof.
  induction pre as [| a pre IH].
  - change (EmptyString ++ needle ++ post) with (needle ++ post).
    rewrite includes_unfold. by rewrite prefix_app.
  - change (String.String a pre ++ needle ++ post)
      with (String.String a (pre ++ needle ++ post)).
    rewrite includes_unfold, IH. apply orb_true_r.
Qed.


Lemma handleCommand_off h rest chatId text args w :
  Str.split " " text = "/off" :: args ->
  handleCommand h rest chatId text w
  = try_catch (deactivateBot h chatId args)
      (fun error => sendBotMessage h chatId CommandFailure) w.
Proof. intros Hsplit. unfold handleCommand. rewrite Hsplit. reflexivity. Qed.

End Outgoing.

(** X10. A text that the owner types in a chat (not a group, not recognised
    as written by the bot, not a command) registers a manual intervention
    for that chat that expires one hour after now, saves the registry and
    sends nothing; the other two maps, the other chats and the sessions are
    untouched. *)
Theorem typed_text_registers_intervention
    (h : Host) (rest : CommandHandlerOps.Unembedded) (ids : gset string)
    (message : MessageService.Outgoing) (w : World) :
  let chatId := MessageService.remoteJid message in
  Str.endsWith chatId "@g.us" = false ->
  MessageService.wasBotGeneratedMessage ids message = false ->
  CommandHandlerOps.isCommand (MessageService.body message) = false ->
  let r := OutgoingMessage.handleOutgoingMessage h rest ids message w in
  result r = Done tt
  /\ manualInterventions (commandHandler (after r)) !! chatId = Some (interventionEntry h)
  /\ disabledChats (commandHandler (after r)) = disabledChats (commandHandler w)
  /\ completedChats (commandHandler (after r)) = completedChats (commandHandler w)
  /\ sameElsewhere (commandHandler w) (commandHandler (after r)) chatId
  /\ stateManager (after r) = stateManager w
  /\ effects (after r) = (effects w ++ [snapshot (commandHandler (after r))])%list.
Proof.
  intros chatId Hgroup Hbot Hcmd r. subst r.
  unfold OutgoingMessage.handleOutgoingMessage. fold chatId.
  rewrite Hgroup, Hbot, Hcmd. cbn [negb]. unfold bind.
  rewrite registerManualIntervention_run. unfold ret, result, after. cbn [fst snd].
  split; [reflexivity |]. split; [cbn; by rewrite lookup_insert_eq |].
  repeat (split; [reflexivity |]). split; [| split; reflexivity].
  intros k Hk. cbn. by rewrite lookup_insert_ne.
Qed.

Lemma typed_text_registers_intervention_witness :
  manualInterventions
    (commandHandler
       (after (OutgoingMessage.handleOutgoingMessage (laterHost 1000) noOtherCommands ∅
                 (typed customer "Hola, le atiendo yo") (startWorld "1234567890"))))
    !! customer
  = Some (interventionEntry (laterHost 1000)).
Proof.
  exact (proj1 (proj2 (typed_text_registers_intervention (laterHost 1000) noOtherCommands
                         ∅ (typed customer "Hola, le atiendo yo")
                         (startWorld "1234567890") eq_refl eq_refl eq_refl))).
Defined.



(** X12. [/off] with a bad argument typed by the owner in a chat: the command
    is answered with the error text and stores no command entry, but the
    outgoing handler has already registered its one-hour manual
    intervention, so the chat is silenced for an hour all the same. *)
Theorem typed_bad_off_still_silences
    (h h' : Host) (rest : CommandHandlerOps.Unembedded) (ids : gset string)
    (message : MessageService.Outgoing) (arg : string) (args : list string)
    (w : World) :
  let chatId := MessageService.remoteJid message in
  Str.endsWith chatId "@g.us" = false ->
  MessageService.wasBotGeneratedMessage ids message = false ->
  CommandHandlerOps.isCommand (MessageService.body message) = true ->
  Str.split " " (MessageService.body message) = "/off" :: arg :: args ->
  arg <> "" ->
  (Str.parseInt arg = None
   \/ exists hours, Str.parseInt arg = Some hours /\ (hours < 1 \/ 168 < hours)) ->
  let w' := after (OutgoingMessage.handleOutgoingMessage h rest ids message w) in
  disabledChats (commandHandler w') = disabledChats (commandHandler w)
  /\ manualInterventions (commandHandler w') !! chatId = Some (interventionEntry h)
  /\ Sent chatId (Text CommandHandlerOps.invalidHours)
       (accepts h chatId (Text CommandHandlerOps.invalidHours)) ∈ effects w'
  /\ (now h <= now h' < now h + 3600000 ->
      result (CommandHandlerOps.isChatDisabled h' chatId w') = Done (JS.Boolean true)).
Proof.
  intros chatId Hgroup Hbot Hcmd Hsplit Harg Hbad w'.
  assert (Hreq : CommandHandlerOps.requestedHours (arg :: args) = None
                 \/ exists hours, CommandHandlerOps.requestedHours (arg :: args) = Some hours
                                  /\ (hours < 1 \/ 168 < hours))
    by (by rewrite requestedHours_argument).
  set (w1 := after (CommandHandlerOps.registerManualIntervention h chatId None w)).
  pose proof (deactivateBot_rejects h chatId (arg :: args) w1 Hreq) as (Hc & _ & Heff).
  set (w2 := after (CommandHandlerOps.deactivateBot h chatId (arg :: args) w1)) in *.
  assert (Hw' : commandHandler w' = commandHandler w1
                /\ Sent chatId (Text CommandHandlerOps.invalidHours)
                     (accepts h chatId (Text CommandHandlerOps.invalidHours)) ∈ effects w').
  { subst w'. unfold OutgoingMessage.handleOutgoingMessage. fold chatId.
    rewrite Hgroup, Hbot, Hcmd. cbn [negb]. unfold bind.
    rewrite registerManualIntervention_run.
    rewrite (handleCommand_off _ _ _ _ (arg :: args)) by exact Hsplit.
    unfold try_catch.
    change (withHandlerAndEffects w _ _) with w1.
    destruct (CommandHandlerOps.deactivateBot h chatId (arg :: args) w1)
      as [[[] | e] w3] eqn:Hrun; unfold w2, after in Hc, Heff; cbn [snd] in Hc, Heff.
    - unfold after. cbn [snd]. split; [exact Hc |]. rewrite Heff.
      apply elem_of_app. right. by apply list_elem_of_singleton.
    - unfold after, sendBotMessage, try_catch, sock_sendMessage, throw.
      destruct (accepts h chatId CommandFailure); cbn [snd emit commandHandler effects];
        (split; [exact Hc |]); rewrite Heff;
        apply elem_of_app; left; apply elem_of_app; right;
        by apply list_elem_of_singleton. }
  destruct Hw' as [Hhandler Hsent].
  assert (Hentry : manualInterventions (commandHandler w') !! chatId
                   = Some (interventionEntry h)).
  { rewrite Hhandler. cbn. by rewrite lookup_insert_eq. }
  split; [by rewrite Hhandler |]. split; [exact Hentry |]. split; [exact Hsent |].
  intros Hspan.
  destruct (isChatDisabled_answer h' chatId w') as (v & w4 & Hrun & _ & Htrue & _).
  rewrite Hrun. unfold result. cbn [fst]. f_equal. apply Htrue.
  right. left. eexists. split; [exact Hentry |]. cbn. lia.
Qed.

(** [/off mañana] typed at 1000 ms: no command entry, and the chat is silent
    half an hour later. *)
Lemma typed_bad_off_still_silences_witness :
  disabledChats
    (commandHandler
       (after (OutgoingMessage.handleOutgoingMessage (laterHost 1000) noOtherCommands ∅
                 (typed customer "/off pronto") (startWorld "1234567890"))))
  = ∅
  /\ result (CommandHandlerOps.isChatDisabled (laterHost 1801000) customer
               (after (OutgoingMessage.handleOutgoingMessage (laterHost 1000)
                         noOtherCommands ∅ (typed customer "/off pronto")
                         (startWorld "1234567890"))))
     = Done (JS.Boolean true).
Proof.
  pose proof (typed_bad_off_still_silences (laterHost 1000) (laterHost 1801000)
                noOtherCommands ∅ (typed customer "/off pronto") "pronto" []
                (startWorld "1234567890") eq_refl eq_refl eq_refl eq_refl
                ltac:(discriminate) (or_introl eq_refl)) as (Hd & _ & _ & Hsilent).
  split; [exact Hd |]. apply Hsilent. cbn. lia.
Defined.

(** X13. Who wrote an outgoing message: a remembered id settles it (the bot);
    otherwise, when the message carries mentions, only the presence of
    "bot-identifier" among them counts and the text is not read; otherwise
    any text that contains one of the three signature phrases is taken as
    written by the bot. *)
Theorem wasBotGeneratedMessage_order (ids : gset string)
    (message : MessageService.Outgoing) :
  (forall id, MessageService.keyId message = Some id -> id <> "" -> id ∈ ids ->
              MessageService.wasBotGeneratedMessage ids message = true)
  /\ (forall mentioned,
        (forall id, MessageService.keyId message = Some id -> id ∉ ids) ->
        MessageService.mentionedJid message = Some mentioned ->
        MessageService.wasBotGeneratedMessage ids message
        = bool_decide ("bot-identifier" ∈ mentioned))
  /\ (forall keyword before behind,
        MessageService.mentionedJid message = None ->
        keyword ∈ MessageService.botKeywords ->
        MessageService.body message = before ++ keyword ++ behind ->
        MessageService.wasBotGeneratedMessage ids message = true).
Proof.
  unfold MessageService.wasBotGeneratedMessage. split; [| split].
  - intros id -> Hid Hin. cbn.
    destruct (String.eqb_spec id ""); [contradiction |].
    by rewrite bool_decide_eq_true_2.
  - intros mentioned Hforgot ->.
    assert (Hid : match MessageService.keyId message with
                  | Some id => JS.truthy (JS.String id) && bool_decide (id ∈ ids)
                  | None => false
                  end = false).
    { destruct (MessageService.keyId message) as [id |]; [| done].
      rewrite (bool_decide_eq_false_2 _ (Hforgot id eq_refl)). apply andb_false_r. }
    rewrite Hid. clear.
    induction mentioned as [| m l IH]; [done |].
    cbn [existsb]. rewrite IH.
    destruct (String.eqb_spec "bot-identifier" m) as [<- | Hne].
    + cbn. symmetry. apply bool_decide_eq_true. by left.
    + cbn. destruct (bool_decide ("bot-identifier" ∈ l)) eqn:E.
      * symmetry. apply bool_decide_eq_true. right. by apply bool_decide_eq_true in E.
      * symmetry. apply bool_decide_eq_false. apply bool_decide_eq_false in E.
        intros Hin. apply elem_of_cons in Hin as [? | ?]; congruence.
  - intros keyword before behind -> Hkey ->.
    destruct (match MessageService.keyId message with
              | Some id => JS.truthy (JS.String id) && bool_decide (id ∈ ids)
              | None => false
              end); [reflexivity |].
    apply existsb_exists. exists keyword. split; [| apply includes_app].
    by apply list_elem_of_In.
Qed.

(** X14. A command that the owner types together with one of the signature
    phrases is not a command any more: the message is taken as written by
    the bot and the outgoing handler does nothing, neither intervention nor
    command. *)
Theorem typed_signature_is_ignored
    (h : Host) (rest : CommandHandlerOps.Unembedded) (ids : gset string)
    (message : MessageService.Outgoing) (keyword before behind : string) (w : World) :
  MessageService.mentionedJid message = None ->
  keyword ∈ MessageService.botKeywords ->
  MessageService.body message = before ++ keyword ++ behind ->
  OutgoingMessage.handleOutgoingMessage h rest ids message w = (Done tt, w).
Proof.
  intros Hmentions Hkey Hbody.
  unfold OutgoingMessage.handleOutgoingMessage.
  destruct (Str.endsWith _ _); [reflexivity |].
  assert (Hbot : MessageService.wasBotGeneratedMessage ids message = true).
  { unfold MessageService.wasBotGeneratedMessage. rewrite Hmentions, Hbody.
    destruct (match MessageService.keyId message with
              | Some id => JS.truthy (JS.String id) && bool_decide (id ∈ ids)
              | None => false
              end); [reflexivity |].
    apply existsb_exists. exists keyword. split; [| apply includes_app].
    by apply list_elem_of_In. }
  by rewrite Hbot.
Qed.

(** "/off 5 🤖" typed in the customer's chat changes nothing. *)
Lemma typed_signature_is_ignored_witness :
  OutgoingMessage.handleOutgoingMessage (laterHost 1000) noOtherCommands ∅
    (typed customer "/off 5 🤖") (startWorld "1234567890")
  = (Done tt, startWorld "1234567890").
Proof.
  apply (typed_signature_is_ignored (laterHost 1000) noOtherCommands ∅
           (typed customer "/off 5 🤖") "🤖" "/off 5 " "" (startWorld "1234567890")).
  - reflexivity.
  - unfold MessageService.botKeywords.
    apply elem_of_cons. right. apply elem_of_cons. right. apply elem_of_cons. by left.
  - reflexivity.
Defined.

(** ** Incoming messages (handlers/incomingMessage.js) *)

Section Filters.

Import CommandHandlerOps IncomingMessage.

Lemma split_leading_space text :
  Str.startsWith text " " = true ->
  exists rest, Str.split " " text = "" :: rest.
Proof.
  destruct text as [| a r]; [discriminate |].
  unfold Str.startsWith. cbn [String.prefix Str.split].
  destruct (ascii_dec " " a) as [Ha | Ha]; [| discriminate].
  intros _. rewrite <- Ha. eexists. reflexivity.
Qed.

Lemma handleCommand_leading_space h rest chatId text w :
  Str.startsWith text " " = true ->
  handleCommand h rest chatId text w = (Done tt, w).
Proof.
  intros Hspace. destruct (split_leading_space text Hspace) as [parts Hsplit].
  unfold handleCommand. rewrite Hsplit. reflexivity.
Qed.

Lemma isChatDisabled_live h chatId w :
  liveEntry (commandHandler w) (now h) chatId ->
  exists v saved,
    isChatDisabled h chatId w
    = (Done v,
       withHandlerAndEffects w (swept (now h) (commandHandler w))
         (effects w ++ saved))
    /\ JS.truthy v = true
    /\ (saved = [] \/ saved = [snapshot (swept (now h) (commandHandler w))]).
Proof.
  intros Hlive.
  destruct (isChatDisabled_answer h chatId w) as (v & w1 & Hres & _ & _ & Htruthy).
  destruct (cleanExpiredEntries_run h w) as (saved & Hclean & Hsaved).
  unfold isChatDisabled, bind in *. rewrite Hclean in *.
  unfold gets, ret in *. simpl in *.
  injection Hres as Hv Hw. exists v, saved. rewrite Hv.
  split; [reflexivity |]. split; [by apply Htruthy | done].
Qed.

End Filters.

(** X15. Two kinds of incoming messages leave no trace at all, neither in the
    registry nor in the sessions nor on the transport: a message of a group
    chat, and a text of the owner that is neither a command nor begins with
    "/on". In particular the incoming handler registers no manual
    intervention for the owner's text. *)
Theorem incoming_dropped_without_trace
    (h : Host) (rest : CommandHandlerOps.Unembedded)
    (message : IncomingMessage.Message) (w : World) :
  let chatId := IncomingMessage.remoteJid message in
  let text := IncomingMessage.userMessage message in
  Str.endsWith chatId "@g.us" = true
  \/ (CommandHandlerOps.isOwner (commandHandler w) (Str.first_part "@" chatId) = true
      /\ CommandHandlerOps.isCommand text = false
      /\ Str.startsWith text "/on" = false) ->
  IncomingMessage.handleIncomingMessage h rest message w = (Done tt, w).
Proof.
  intros chatId text Hcase.
  unfold IncomingMessage.handleIncomingMessage. fold chatId text.
  destruct (Str.endsWith chatId "@g.us") eqn:Hgroup; [reflexivity |].
  destruct Hcase as [? | (Howner & Hcmd & Hon)]; [discriminate |].
  unfold bind, gets. cbn [fst snd]. rewrite Howner, Hcmd.
  unfold CommandHandlerOps.detectOwnerMessage, bind, gets, ret. cbn [fst snd].
  rewrite Howner, Hon. reflexivity.
Qed.

Lemma incoming_dropped_without_trace_witness :
  IncomingMessage.handleIncomingMessage (laterHost 1000) noOtherCommands
    (incoming ownerChat "Buenas tardes") completedWorld
  = (Done tt, completedWorld).
Proof.
  apply (incoming_dropped_without_trace (laterHost 1000) noOtherCommands
           (incoming ownerChat "Buenas tardes") completedWorld).
  right. repeat split; reflexivity.
Defined.

(** X16. A command of the owner that begins with a space is swallowed:
    [isCommand] reads the trimmed text and accepts it, [handleCommand] splits
    the text as it came and finds an empty leading token, so nothing runs
    and nothing is answered. *)
Theorem spaced_command_is_swallowed
    (h : Host) (rest : CommandHandlerOps.Unembedded)
    (message : IncomingMessage.Message) (w : World) :
  let chatId := IncomingMessage.remoteJid message in
  let text := IncomingMessage.userMessage message in
  Str.endsWith chatId "@g.us" = false ->
  CommandHandlerOps.isOwner (commandHandler w) (Str.first_part "@" chatId) = true ->
  CommandHandlerOps.isCommand text = true ->
  Str.startsWith text " " = true ->
  IncomingMessage.handleIncomingMessage h rest message w = (Done tt, w).
Proof.
  intros chatId text Hgroup Howner Hcmd Hspace.
  unfold IncomingMessage.handleIncomingMessage. fold chatId text.
  rewrite Hgroup. unfold bind at 1, gets. cbn [fst snd]. rewrite Howner, Hcmd.
  unfold bind. rewrite handleCommand_leading_space by exact Hspace.
  reflexivity.
Qed.

Lemma spaced_command_is_swallowed_witness :
  CommandHandlerOps.isCommand " /off 5" = true
  /\ IncomingMessage.handleIncomingMessage (laterHost 1000) noOtherCommands
       (incoming ownerChat " /off 5") completedWorld
     = (Done tt, completedWorld).
Proof.
  split; [reflexivity |].
  apply (spaced_command_is_swallowed (laterHost 1000) noOtherCommands
           (incoming ownerChat " /off 5") completedWorld); reflexivity.
Defined.

(** X17. A message of a customer whose chat is disabled is dropped: no
    session is created or changed, nothing is handed to the transport, and
    the registry only loses its entries with [expiry < now]. *)
Theorem incoming_disabled_chat_is_silent
    (h : Host) (rest : CommandHandlerOps.Unembedded)
    (message : IncomingMessage.Message) (w : World) :
  let chatId := IncomingMessage.remoteJid message in
  Str.endsWith chatId "@g.us" = false ->
  CommandHandlerOps.isOwner (commandHandler w) (Str.first_part "@" chatId) = false ->
  liveEntry (commandHandler w) (now h) chatId ->
  let r := IncomingMessage.handleIncomingMessage h rest message w in
  result r = Done tt
  /\ stateManager (after r) = stateManager w
  /\ commandHandler (after r) = swept (now h) (commandHandler w)
  /\ (forall e, e ∈ effects (after r) ->
        e ∈ effects w \/ e = snapshot (commandHandler (after r))).
Proof.
  intros chatId Hgroup Howner Hlive r. subst r.
  destruct (isChatDisabled_live h chatId w Hlive) as (v & saved & Hdis & Hv & Hsaved).
  assert (Hrun : IncomingMessage.handleIncomingMessage h rest message w
                 = (Done tt,
                    withHandlerAndEffects w (swept (now h) (commandHandler w))
                      (effects w ++ saved))).
  { unfold IncomingMessage.handleIncomingMessage. fold chatId.
    rewrite Hgroup. unfold bind at 1, gets. cbn [fst snd]. rewrite Howner.
    unfold bind at 1, ret. unfold bind. rewrite Hdis, Hv. reflexivity. }
  rewrite Hrun. unfold result, after. cbn [fst snd].
  split; [reflexivity |]. split; [reflexivity |]. split; [reflexivity |].
  intros e He. cbn in He. apply elem_of_app in He as [He | He]; [by left |].
  destruct Hsaved as [-> | ->].
  - by apply elem_of_nil in He.
  - apply list_elem_of_singleton in He as ->. by right.
Qed.

Lemma incoming_disabled_chat_is_silent_witness :
  stateManager
    (after (IncomingMessage.handleIncomingMessage (laterHost 5000) noOtherCommands
              (incoming customer "hola") (interventionUntil 9000)))
  = stateManager (interventionUntil 9000).
Proof.
  refine (proj1 (proj2 (incoming_disabled_chat_is_silent (laterHost 5000)
                          noOtherCommands (incoming customer "hola")
                          (interventionUntil 9000) eq_refl eq_refl _))).
  right. left. eexists. split; [vm_compute; reflexivity | vm_compute; reflexivity].
Defined.

(** X18. When the call to Dialogflow fails for a customer whose chat is not
    disabled, the turn ends with the apology in the session's language
    (English only for "en") and nothing else: the session is the one found
    or the default one created for a new user, and no [CompletedChat] entry
    is written even if the session is flagged [processCompleted]. *)
Theorem incoming_dialogflow_failure
    (h : Host) (rest : CommandHandlerOps.Unembedded)
    (message : IncomingMessage.Message) (w : World) :
  let chatId := IncomingMessage.remoteJid message in
  let userId := Str.first_part "@" chatId in
  let u := sessionOf h w userId in
  Str.endsWith chatId "@g.us" = false ->
  CommandHandlerOps.isOwner (commandHandler w) userId = false ->
  ~ liveEntry (commandHandler w) (now h) chatId ->
  IncomingMessage.askDialogflow h userId (IncomingMessage.userMessage message) u = None ->
  let r := IncomingMessage.handleIncomingMessage h rest message w in
  result r = sending h chatId (Text (apologyFor u))
  /\ reported (after r) = Some (chatId, Text (apologyFor u))
  /\ commandHandler (after r) = swept (now h) (commandHandler w)
  /\ states (stateManager (after r)) = <[userId := u]> (states (stateManager w)).
Proof.
  intros chatId userId u Hgroup Howner Hdead Hask r. subst r.
  destruct (isChatDisabled_not_live h chatId w Hdead) as (v & saved & Hdis & Hv & Hsaved).
  set (w1 := withHandlerAndEffects w (swept (now h) (commandHandler w))
               (effects w ++ saved)) in *.
  destruct (getUserState_run h userId w1) as (created & Hget & _).
  change (sessionOf h w1 userId) with u in Hget.
  assert (Hrun : IncomingMessage.handleIncomingMessage h rest message w
                 = sendBotMessage h chatId (Text (apologyFor u))
                     (withStates w1 (<[userId := u]> (states (stateManager w1)))
                        (effects w1 ++ created))).
  { unfold IncomingMessage.handleIncomingMessage. fold chatId.
    rewrite Hgroup. fold userId. unfold bind at 1, gets. cbn [fst snd]. rewrite Howner.
    unfold bind at 1, ret. unfold bind at 1. rewrite Hdis, Hv.
    unfold IncomingMessage.converse, bind. rewrite Hget. unfold try_catch.
    rewrite Hask. reflexivity. }
  rewrite Hrun.
  unfold sendBotMessage, try_catch, sock_sendMessage, throw, sending, result, after.
  destruct (accepts h chatId (Text (apologyFor u))); cbn [fst snd];
    (split; [reflexivity |]);
    (split; [eapply reported_snoc; cbn [effects emit]; reflexivity |]);
    split; reflexivity.
Qed.

Lemma incoming_dialogflow_failure_witness :
  reported (after (IncomingMessage.handleIncomingMessage (laterHost 1000)
                     noOtherCommands (incoming customer "gracias") completedWorld))
  = Some (customer, Text (apologyFor completedSession)).
Proof.
  refine (proj1 (proj2 (incoming_dialogflow_failure (laterHost 1000) noOtherCommands
                          (incoming customer "gracias") completedWorld
                          eq_refl eq_refl _ eq_refl))).
  intros [(e & He & _) | [(e & He & _) | (e & He & _)]]; vm_compute in He; discriminate.
Defined.

(** ** Intents (handlers/intentProcessor.js) *)

Lemma reported_afterSending h chatId content w :
  reported (afterSending h chatId content w) = Some (chatId, content).
Proof. eapply reported_snoc. reflexivity. Qed.

Section Intents.

Import StateManagerOps IntentProcessor.

Lemma productSelection_known h chatId userId p u w :
  knownProduct (productType p) ->
  exists response,
    response ∈ productResponses (languageCode u)
    /\ productSelection h chatId userId p u w
       = (updateUserState h userId
            [set_currentContext "product_selected";
             set_selectedProduct (productType p);
             set_processCompleted true] ;;;
          sendBotMessage h chatId
            (Paragraphs response
               (MessageProvider.getClosingMessage (languageCode u)
                  (TimeManager.isBusinessHours (today h))))) w.
Proof.
  intros Hknown. unfold knownProduct in Hknown.
  unfold productSelection, productResponses.
  destruct (JS.includes watches (productType p)) eqn:Hw.
  { eexists. split; [| reflexivity]. apply elem_of_cons. by left. }
  destruct (JS.includes diamonds (productType p)) eqn:Hd.
  { eexists. split; [| reflexivity].
    apply elem_of_cons. right. apply elem_of_cons. by left. }
  destruct (JS.includes gold (productType p)) eqn:Hg.
  { eexists. split; [| reflexivity].
    apply elem_of_cons. right. apply elem_of_cons. right. apply elem_of_cons. by left. }
  destruct Hknown as [? | [? | ?]]; discriminate.
Qed.

End Intents.

(** X19. "ProductSelection" with a product of one of the three lists flags
    the session before anything is sent: whatever the transport does with
    the answer, the session is afterwards at [product_selected] with
    [processCompleted = true], the product as Dialogflow gave it and
    [lastInteraction = now]; the registry is untouched; the message handed to
    the transport last is one of the three product answers followed by the
    closing message for the time of day, in the language the handler was
    given. *)
Theorem product_choice_flags_session
    (h : Host) (chatId userId : string) (p : Parameters) (u : UserState) (w : World) :
  knownProduct (IntentProcessor.productType p) ->
  let closing :=
    MessageProvider.getClosingMessage (languageCode u)
      (TimeManager.isBusinessHours (today h)) in
  let r := IntentProcessor.processIntent h chatId userId "ProductSelection" p u w in
  (exists s,
      states (stateManager (after r)) !! userId = Some s
      /\ processCompleted s = true
      /\ currentContext s = "product_selected"
      /\ selectedProduct s = IntentProcessor.productType p
      /\ lastInteraction s = now h
      /\ languageCode s = languageCode (sessionOf h w userId))
  /\ commandHandler (after r) = commandHandler w
  /\ exists response,
       response ∈ productResponses (languageCode u)
       /\ result r = sending h chatId (Paragraphs response closing)
       /\ reported (after r) = Some (chatId, Paragraphs response closing).
Proof.
  intros Hknown closing r.
  destruct (productSelection_known h chatId userId p u w Hknown)
    as (response & Hin & Hsel).
  destruct (updateUserState_run h userId
              [StateManagerOps.set_currentContext "product_selected";
               StateManagerOps.set_selectedProduct (IntentProcessor.productType p);
               StateManagerOps.set_processCompleted true] w) as (created & Hupd & _).
  match type of Hupd with _ = (_, ?w') => set (w1 := w') in Hupd end.
  assert (Hrun : r = (sending h chatId (Paragraphs response closing),
                      afterSending h chatId (Paragraphs response closing) w1)).
  { subst r. unfold IntentProcessor.processIntent. cbn [String.eqb Ascii.eqb Bool.eqb].
    rewrite Hsel. unfold bind. rewrite Hupd. apply sendBotMessage_run. }
  rewrite Hrun. unfold result, after. cbn [fst snd].
  split; [| split; [reflexivity |]].
  - eexists. split; [simpl; apply lookup_insert_eq |]. by repeat split.
  - exists response. split; [exact Hin |]. split; [reflexivity |].
    apply reported_afterSending.
Qed.

Lemma product_choice_flags_session_witness :
  commandHandler
    (after (IntentProcessor.processIntent (deafHostAt 1000 (monday 11) None)
              customer "5550001111" "ProductSelection" (numberOnly 2) waitingSession
              waitingWorld))
  = commandHandler waitingWorld.
Proof.
  refine (proj1 (proj2 (product_choice_flags_session (deafHostAt 1000 (monday 11) None)
                          customer "5550001111" (numberOnly 2) waitingSession
                          waitingWorld _))).
  right. left. reflexivity.
Defined.

(** X20. The two turns that answer with the fallback message do nothing
    else: "ProductSelection" with a product outside the three lists (or
    with no product at all), and "Default Fallback Intent" outside the
    language selection. Sessions and registry are as before and the trace gains
    exactly the one message. *)
Theorem fallback_answer_touches_nothing
    (h : Host) (chatId userId intent : string) (p : Parameters) (u : UserState)
    (w : World) :
  (intent = "ProductSelection" /\ ~ knownProduct (IntentProcessor.productType p))
  \/ (intent = "Default Fallback Intent"
      /\ currentContext u <> "waiting_language_selection") ->
  let answer := MessageProvider.getFallbackMessage (languageCode u) in
  let r := IntentProcessor.processIntent h chatId userId intent p u w in
  result r = sending h chatId answer
  /\ stateManager (after r) = stateManager w
  /\ commandHandler (after r) = commandHandler w
  /\ effects (after r)
     = (effects w ++ [Sent chatId answer (accepts h chatId answer)])%list.
Proof.
  intros Hcase answer r.
  assert (Hrun : r = sendBotMessage h chatId answer w).
  { subst r. unfold IntentProcessor.processIntent.
    destruct Hcase as [[-> Hunknown] | [-> Hctx]]; cbn [String.eqb Ascii.eqb Bool.eqb].
    - unfold IntentProcessor.productSelection, knownProduct in *.
      destruct (JS.includes IntentProcessor.watches _); [tauto |].
      destruct (JS.includes IntentProcessor.diamonds _); [tauto |].
      destruct (JS.includes IntentProcessor.gold _); [tauto |]. reflexivity.
    - unfold IntentProcessor.fallbackIntent.
      destruct (String.eqb_spec (currentContext u) "waiting_language_selection");
        [contradiction | reflexivity]. }
  rewrite Hrun, sendBotMessage_run. unfold result, after. cbn [fst snd].
  by repeat split.
Qed.

Lemma fallback_answer_touches_nothing_witness :
  stateManager
    (after (IntentProcessor.processIntent (laterHost 1000) customer "5550001111"
              "ProductSelection" noParameters completedSession completedWorld))
  = stateManager completedWorld.
Proof.
  refine (proj1 (proj2 (fallback_answer_touches_nothing (laterHost 1000) customer
                          "5550001111" "ProductSelection" noParameters
                          completedSession completedWorld _))).
  left. split; [reflexivity |]. intros [H | [H | H]]; discriminate H.
Defined.

(** X21. An intent that is none of the four named ones is answered with the
    default response and nothing else: sessions and registry stay as they
    were, and the trace gains exactly that message. *)
Theorem other_intents_get_default_response
    (h : Host) (chatId userId intent : string) (p : Parameters) (u : UserState)
    (w : World) :
  intent ∉ ["Default Welcome Intent"; "lenguaje"; "ProductSelection";
            "Default Fallback Intent"] ->
  let answer := MessageProvider.getDefaultResponse (languageCode u) in
  let r := IntentProcessor.processIntent h chatId userId intent p u w in
  result r = sending h chatId answer
  /\ stateManager (after r) = stateManager w
  /\ commandHandler (after r) = commandHandler w
  /\ effects (after r)
     = (effects w ++ [Sent chatId answer (accepts h chatId answer)])%list.
Proof.
  intros Hother answer r.
  assert (Hrun : r = sendBotMessage h chatId answer w).
  { subst r. unfold IntentProcessor.processIntent.
    repeat match goal with
           | |- context [String.eqb intent ?s] =>
               destruct (String.eqb_spec intent s) as [-> | _]
           end; try reflexivity;
      exfalso; apply Hother;
      repeat (first [by apply list_elem_of_here | apply list_elem_of_further]). }
  rewrite Hrun, sendBotMessage_run. unfold result, after. cbn [fst snd].
  by repeat split.
Qed.

Lemma other_intents_get_default_response_witness :
  result (IntentProcessor.processIntent (laterHost 1000) customer "5550001111"
            "Precios" noParameters completedSession completedWorld)
  = sending (laterHost 1000) customer (DefaultResponse true).
Proof.
  refine (proj1 (other_intents_get_default_response (laterHost 1000) customer
                   "5550001111" "Precios" noParameters completedSession
                   completedWorld _)).
  intros H. repeat (apply elem_of_cons in H as [H | H]; [discriminate H |]).
  by apply elem_of_nil in H.
Defined.

(** X22. The welcome turn moves the session to the language selection only
    after the welcome message was accepted: if the transport rejects it the
    turn throws and the sessions are as before; if it accepts, the session is
    at [waiting_language_selection] and the sessions were saved after the
    message went out. *)
Theorem welcome_context_needs_delivery
    (h : Host) (chatId userId : string) (p : Parameters) (u : UserState) (w : World) :
  let r := IntentProcessor.processIntent h chatId userId "Default Welcome Intent"
             p u w in
  (accepts h chatId WelcomeMessage = false ->
     result r = Thrown TransportError
     /\ stateManager (after r) = stateManager w
     /\ effects (after r) = (effects w ++ [Sent chatId WelcomeMessage false])%list)
  /\ (accepts h chatId WelcomeMessage = true ->
        result r = Done tt
        /\ (exists s,
              states (stateManager (after r)) !! userId = Some s
              /\ currentContext s = "waiting_language_selection"
              /\ lastInteraction s = now h)
        /\ exists created,
             effects (after r)
             = (effects w ++ [Sent chatId WelcomeMessage true] ++ created
                ++ [SavedStates (states (stateManager (after r)))])%list).
Proof.
  intros r.
  assert (Hstep : r = (let (o, w') := sendBotMessage h chatId WelcomeMessage w in
                       match o with
                       | Done _ =>
                           (StateManagerOps.updateUserState h userId
                              [StateManagerOps.set_currentContext
                                 "waiting_language_selection"] ;;; ret tt) w'
                       | Thrown e => (Thrown e, w')
                       end)) by reflexivity.
  rewrite sendBotMessage_run in Hstep. unfold sending, afterSending in Hstep.
  split; intros Hacc; rewrite Hacc in Hstep.
  - rewrite Hstep. unfold result, after. cbn [fst snd]. by repeat split.
  - destruct (updateUserState_run h userId
                [StateManagerOps.set_currentContext "waiting_language_selection"]
                (emit (Sent chatId WelcomeMessage true) w)) as (created & Hupd & _).
    unfold bind in Hstep. rewrite Hupd in Hstep. unfold ret in Hstep.
    rewrite Hstep. unfold result, after. cbn [fst snd].
    split; [reflexivity |]. split.
    + eexists. split; [simpl; apply lookup_insert_eq |]. by split.
    + exists created. simpl. by rewrite <- !app_assoc.
Qed.

(** X23. A turn that cannot read a language asks again and stays in the
    language selection: "lenguaje" with a falsy language input, and
    "Default Fallback Intent" while the session waits for the language. The
    session written is at [waiting_language_selection] with its language as
    it was, it is saved before the prompt is sent, and so also when the
    transport rejects the prompt. *)
Theorem unread_language_is_asked_again
    (h : Host) (chatId userId intent : string) (p : Parameters) (u : UserState)
    (w : World) :
  (intent = "lenguaje" /\ JS.truthy (IntentProcessor.languageInput p u) = false)
  \/ (intent = "Default Fallback Intent"
      /\ currentContext u = "waiting_language_selection") ->
  let r := IntentProcessor.processIntent h chatId userId intent p u w in
  result r = sending h chatId LanguagePrompt
  /\ reported (after r) = Some (chatId, LanguagePrompt)
  /\ commandHandler (after r) = commandHandler w
  /\ exists s,
       states (stateManager (after r)) !! userId = Some s
       /\ currentContext s = "waiting_language_selection"
       /\ languageCode s = languageCode (sessionOf h w userId)
       /\ processCompleted s = processCompleted (sessionOf h w userId).
Proof.
  intros Hcase r.
  destruct (updateUserState_run h userId
              [StateManagerOps.set_currentContext "waiting_language_selection"] w)
    as (created & Hupd & _).
  match type of Hupd with _ = (_, ?w') => set (w1 := w') in Hupd end.
  assert (Hrun : r = (sending h chatId LanguagePrompt,
                      afterSending h chatId LanguagePrompt w1)).
  { subst r. unfold IntentProcessor.processIntent.
    destruct Hcase as [[-> Hfalsy] | [-> Hctx]]; cbn [String.eqb Ascii.eqb Bool.eqb].
    - unfold IntentProcessor.lenguaje. rewrite Hfalsy.
      unfold IntentProcessor.repromptLanguage, bind. rewrite Hupd.
      apply sendBotMessage_run.
    - unfold IntentProcessor.fallbackIntent. rewrite Hctx.
      cbn [String.eqb Ascii.eqb Bool.eqb].
      unfold IntentProcessor.repromptLanguage, bind. rewrite Hupd.
      apply sendBotMessage_run. }
  rewrite Hrun. unfold result, after. cbn [fst snd].
  split; [reflexivity |]. split; [apply reported_afterSending |].
  split; [reflexivity |].
  eexists. split; [simpl; apply lookup_insert_eq |]. by repeat split.
Qed.

Lemma unread_language_is_asked_again_witness :
  reported
    (after (IntentProcessor.processIntent (laterHost 1000) customer "5550001111"
              "lenguaje" (numberOnly 0) waitingSession waitingWorld))
  = Some (customer, LanguagePrompt).
Proof.
  refine (proj1 (proj2 (unread_language_is_asked_again (laterHost 1000) customer
                          "5550001111" "lenguaje" (numberOnly 0) waitingSession
                          waitingWorld _))).
  left. split; reflexivity.
Defined.

Section Choice.

Import StateManagerOps IntentProcessor IncomingMessage.

Lemma productSelection_run h chatId userId p u w :
  knownProduct (productType p) ->
  exists content w',
    processIntent h chatId userId "ProductSelection" p u w
    = (sending h chatId content, afterSending h chatId content w')
    /\ commandHandler w' = commandHandler w
    /\ exists s,
         states (stateManager w') !! userId = Some s
         /\ processCompleted s = true.
Proof.
  intros Hknown.
  destruct (productSelection_known h chatId userId p u w Hknown)
    as (response & _ & Hsel).
  destruct (updateUserState_run h userId
              [set_currentContext "product_selected";
               set_selectedProduct (productType p);
               set_processCompleted true] w) as (created & Hupd & _).
  do 2 eexists. split; [| split].
  - unfold processIntent. cbn [String.eqb Ascii.eqb Bool.eqb].
    rewrite Hsel. unfold bind. rewrite Hupd. apply sendBotMessage_run.
  - reflexivity.
  - eexists. split; [simpl; apply lookup_insert_eq | reflexivity].
Qed.

Lemma liveEntry_swept_back c t t' chatId :
  liveEntry (swept t c) t' chatId -> liveEntry c t' chatId.
Proof.
  unfold liveEntry, swept. simpl.
  intros [(e & He & Hlt) | [(e & He & Hlt) | (e & He & Hlt)]];
    apply lookup_remaining in He as [He _]; eauto 6.
Qed.

End Choice.

(** X24. Choosing a product closes the conversation at the customer's next
    message. After a turn in which Dialogflow reports "ProductSelection" with
    a product of the three lists, the session is flagged
    [processCompleted]; so the next message of the same chat, whatever it
    says and whatever intent Dialogflow finds in it, is answered with the
    farewell and written to the registry as a completed conversation of one
    hour, provided Dialogflow answers, the transport accepts the farewell and
    the chat is not disabled at that time. Nothing is asked of the transport
    in the first turn. *)
Theorem product_choice_closes_next_turn
    (h h' : Host) (rest : CommandHandlerOps.Unembedded)
    (message message' : IncomingMessage.Message) (w : World)
    (q q' : QueryResult) :
  let chatId := IncomingMessage.remoteJid message in
  let userId := Str.first_part "@" chatId in
  let u := sessionOf h w userId in
  Str.endsWith chatId "@g.us" = false ->
  CommandHandlerOps.isOwner (commandHandler w) userId = false ->
  ~ liveEntry (commandHandler w) (now h) chatId ->
  IncomingMessage.askDialogflow h userId (IncomingMessage.userMessage message) u
  = Some q ->
  intent q = "ProductSelection" ->
  processCompleted u = false ->
  knownProduct (IntentProcessor.productType (parameters q)) ->
  let w1 := after (IncomingMessage.handleIncomingMessage h rest message w) in
  let u1 := sessionOf h' w1 userId in
  IncomingMessage.remoteJid message' = chatId ->
  ~ liveEntry (commandHandler w) (now h') chatId ->
  IncomingMessage.askDialogflow h' userId (IncomingMessage.userMessage message') u1
  = Some q' ->
  accepts h' chatId (Text (IncomingMessage.farewellFor u1)) = true ->
  let r := IncomingMessage.handleIncomingMessage h' rest message' w1 in
  processCompleted u1 = true
  /\ result r = Done tt
  /\ closedFor h' chatId userId 1 u1 w1 (after r).
Proof.
  intros chatId userId u Hgroup Howner Hdead Hask Hintent Hopen Hknown w1 u1
    Hsame Hdead' Hask' Hacc r.
  destruct (isChatDisabled_not_live h chatId w Hdead) as (v & saved & Hdis & Hv & _).
  set (w0 := withHandlerAndEffects w (swept (now h) (commandHandler w))
               (effects w ++ saved)) in *.
  destruct (getUserState_run h userId w0) as (created & Hget & _).
  change (sessionOf h w0 userId) with u in Hget.
  match type of Hget with _ = (_, ?w') => set (w0' := w') in Hget end.
  destruct (productSelection_run h chatId userId (parameters q) u w0' Hknown)
    as (content & w0'' & Hrun & Hhandler & s & Hs & Hflag).
  assert (Hturn : exists o wx,
             IncomingMessage.handleIncomingMessage h rest message w = (o, wx)
             /\ commandHandler wx = swept (now h) (commandHandler w)
             /\ states (stateManager wx) !! userId = Some s).
  { unfold IncomingMessage.handleIncomingMessage. fold chatId.
    rewrite Hgroup. fold userId. unfold bind at 1, gets. cbn [fst snd]. rewrite Howner.
    unfold bind at 1, ret. unfold bind at 1. rewrite Hdis, Hv.
    unfold IncomingMessage.converse, bind. rewrite Hget. unfold try_catch.
    rewrite Hask, Hintent. cbn [String.eqb Ascii.eqb Bool.eqb orb]. rewrite Hopen.
    rewrite Hrun. unfold sending.
    destruct (accepts h chatId content).
    - do 2 eexists. split; [reflexivity |]. split; [exact Hhandler | exact Hs].
    - rewrite sendBotMessage_run.
      do 2 eexists. split; [reflexivity |]. split; [exact Hhandler | exact Hs]. }
  destruct Hturn as (o & wx & Hturn & Hc1 & Hs1).
  assert (Hw1 : w1 = wx) by (unfold w1; by rewrite Hturn).
  rewrite <- Hw1 in Hc1, Hs1.
  assert (Hu1 : u1 = s) by (unfold u1, sessionOf; by rewrite Hs1).
  assert (Hflag1 : processCompleted u1 = true) by (by rewrite Hu1).
  split; [exact Hflag1 |].
  pose proof (handleIncomingMessage_completed h' rest message' w1 q') as Hclose.
  cbv zeta in Hclose. rewrite Hsame in Hclose. apply Hclose.
  - exact Hgroup.
  - rewrite Hc1. exact Howner.
  - rewrite Hc1. intros Hlive. apply Hdead'. by apply liveEntry_swept_back in Hlive.
  - exact Hask'.
  - by right.
  - exact Hacc.
Qed.

Lemma product_choice_closes_next_turn_witness :
  result
    (IncomingMessage.handleIncomingMessage (hostAt 2000 (monday 11) (Some thanks))
       noOtherCommands (incoming customer "gracias")
       (after (IncomingMessage.handleIncomingMessage
                 (deafHostAt 1000 (monday 11) (Some diamondsChoice))
                 noOtherCommands (incoming customer "2") waitingWorld)))
  = Done tt.
Proof.
  refine (proj1 (proj2 (product_choice_closes_next_turn
                          (deafHostAt 1000 (monday 11) (Some diamondsChoice))
                          (hostAt 2000 (monday 11) (Some thanks))
                          noOtherCommands (incoming customer "2")
                          (incoming customer "gracias") waitingWorld
                          diamondsChoice thanks
                          eq_refl eq_refl _ eq_refl eq_refl eq_refl _
                          eq_refl _ eq_refl eq_refl))).
  - intros [(e & He & _) | [(e & He & _) | (e & He & _)]]; vm_compute in He; discriminate.
  - right. left. reflexivity.
  - intros [(e & He & _) | [(e & He & _) | (e & He & _)]]; vm_compute in He; discriminate.
Defined.

(** ** Starting and retiming the scheduler (modules/autoReactivationManager.js) *)

Section Scheduler.

Import CommandHandlerOps AutoReactivation AutoReactivationControl.

Lemma closingDetected_same a b :
  wasBusinessHours a = Some b -> closingDetected a b = false.
Proof. unfold closingDetected. intros ->. by destruct b. Qed.

Lemma startAutoReactivation_fresh h w :
  isRunning (autoReactivation w) = false ->
  exists w',
    startAutoReactivation h w = (Done tt, w')
    /\ commandHandler w' = sweptDue (now h) (commandHandler w)
    /\ stateManager w' = stateManager w
    /\ isRunning (autoReactivation w') = true
    /\ checkInterval (autoReactivation w') = checkInterval (autoReactivation w)
    /\ wasBusinessHours (autoReactivation w')
       = Some (TimeManager.isBusinessHours (today h))
    /\ massReactivationDone (autoReactivation w')
       = massReactivationDone (autoReactivation w).
Proof.
  intros Hidle.
  unfold startAutoReactivation, bind at 1, gets. cbn [fst snd]. rewrite Hidle.
  unfold checkAndReactivate, bind, gets, modify, ret, saveDisabledState, sweptDue.
  cbn [fst snd].
  rewrite closingDetected_same by reflexivity.
  cbn -[removed remaining size Z.of_nat Z.add Z.ltb].
  match goal with
  | |- context [if 0 <? ?x then _ else _] => destruct (0 <? x)
  end; cbn -[removed remaining size Z.of_nat Z.add Z.ltb];
    eexists; (split; [reflexivity |]); by repeat split.
Qed.

End Scheduler.

(** X25. Starting the scheduler never performs the mass reactivation, and
    starting it twice does nothing. The flag [wasBusinessHours] is set to the
    present reading before the immediate check, so that check sees no
    closing: the registry only loses the entries with [expiry <= now] and
    the marker of the last mass reactivation is as it was. When the
    scheduler is already running, the call returns with the world
    unchanged. *)
Theorem start_only_sweeps (h : Host) (w : World) :
  let r := AutoReactivation.startAutoReactivation h w in
  (isRunning (autoReactivation w) = true -> r = (Done tt, w))
  /\ (isRunning (autoReactivation w) = false ->
        result r = Done tt
        /\ commandHandler (after r) = sweptDue (now h) (commandHandler w)
        /\ isRunning (autoReactivation (after r)) = true
        /\ wasBusinessHours (autoReactivation (after r))
           = Some (TimeManager.isBusinessHours (today h))
        /\ massReactivationDone (autoReactivation (after r))
           = massReactivationDone (autoReactivation w)).
Proof.
  intros r. split; intros Hrun.
  - subst r. unfold AutoReactivation.startAutoReactivation, bind, gets.
    cbn [fst snd]. by rewrite Hrun.
  - destruct (startAutoReactivation_fresh h w Hrun)
      as (w' & Hr & Hc & _ & Hon & _ & Hwas & Hmark).
    subst r. rewrite Hr. unfold result, after. cbn [fst snd]. by repeat split.
Qed.

(** X26. Changing the check interval of a running scheduler restarts it, and
    the restart swallows a closing that the next periodic check would have
    acted on: for a positive number of minutes the call returns [true], the
    interval is that many minutes in milliseconds, the scheduler is running
    again, and the registry has only lost its entries with [expiry <= now],
    also when the business was open at the previous check and is closed now
    (the situation in which [checkAndReactivate] alone empties the three
    maps). *)
Theorem retiming_swallows_the_closing (h : Host) (minutes : Z) (w : World) :
  0 < minutes ->
  isRunning (autoReactivation w) = true ->
  let r := AutoReactivationControl.setCheckInterval h minutes w in
  result r = Done true
  /\ checkInterval (autoReactivation (after r)) = minutes * 60 * 1000
  /\ isRunning (autoReactivation (after r)) = true
  /\ commandHandler (after r) = sweptDue (now h) (commandHandler w)
  /\ stateManager (after r) = stateManager w
  /\ massReactivationDone (autoReactivation (after r))
     = massReactivationDone (autoReactivation w)
  /\ AutoReactivation.firesMass h (after r) = false.
Proof.
  intros Hpos Hrun r.
  set (w0 := after (modify (set_autoReactivation
                       (AutoReactivation.set_isRunning false))
                     (after (modify (set_autoReactivation
                               (AutoReactivationControl.set_checkInterval
                                  (minutes * 60 * 1000))) w)))).
  destruct (startAutoReactivation_fresh h w0 eq_refl)
    as (w' & Hr & Hc & Hst & Hon & Hint & Hwas & Hmark).
  assert (Hstep : r = (Done true, w')).
  { subst r. unfold AutoReactivationControl.setCheckInterval.
    destruct (Z.leb_spec minutes 0) as [? | _]; [lia |].
    unfold AutoReactivationControl.stopAutoReactivation, bind, modify, gets, ret.
    cbn [fst snd autoReactivation set_autoReactivation
         AutoReactivationControl.set_checkInterval isRunning].
    rewrite Hrun.
    cbn [negb fst snd autoReactivation set_autoReactivation
         AutoReactivationControl.set_checkInterval isRunning].
    rewrite Hrun. cbn [negb].
    match goal with
    | |- context [AutoReactivation.startAutoReactivation h ?x] => change x with w0
    end.
    rewrite Hr. reflexivity. }
  rewrite Hstep. unfold result, after. cbn [fst snd].
  split; [reflexivity |]. split; [by rewrite Hint |]. split; [exact Hon |].
  split; [exact Hc |]. split; [exact Hst |]. split; [exact Hmark |].
  unfold AutoReactivation.firesMass, AutoReactivation.closingDetected.
  rewrite Hwas. by destruct (TimeManager.isBusinessHours (today h)).
Qed.

Lemma retiming_swallows_the_closing_witness :
  AutoReactivation.firesMass (mondayEvening 5000) (runningSince 9000) = true
  /\ commandHandler
       (after (AutoReactivationControl.setCheckInterval (mondayEvening 5000) 10
                 (runningSince 9000)))
     = sweptDue 5000 (commandHandler (runningSince 9000)).
Proof.
  split; [reflexivity |].
  exact (proj1 (proj2 (proj2 (proj2
           (retiming_swallows_the_closing (mondayEvening 5000) 10 (runningSince 9000)
              ltac:(lia) eq_refl))))).
Defined.

(** X27. [setCheckInterval] outside a running scheduler: a number of minutes
    that is zero or negative is refused and nothing changes; a positive one
    on a stopped scheduler only records the interval, and no check is
    run. *)
Theorem setCheckInterval_when_stopped (h : Host) (minutes : Z) (w : World) :
  let r := AutoReactivationControl.setCheckInterval h minutes w in
  (minutes <= 0 -> r = (Done false, w))
  /\ (0 < minutes -> isRunning (autoReactivation w) = false ->
        result r = Done true
        /\ checkInterval (autoReactivation (after r)) = minutes * 60 * 1000
        /\ isRunning (autoReactivation (after r)) = false
        /\ lastCheck (autoReactivation (after r)) = lastCheck (autoReactivation w)
        /\ commandHandler (after r) = commandHandler w
        /\ stateManager (after r) = stateManager w
        /\ effects (after r) = effects w).
Proof.
  intros r. subst r. unfold AutoReactivationControl.setCheckInterval.
  split.
  - intros Hneg. destruct (Z.leb_spec minutes 0) as [_ | ?]; [reflexivity | lia].
  - intros Hpos Hidle. destruct (Z.leb_spec minutes 0) as [? | _]; [lia |].
    unfold bind, modify, gets, ret, result, after.
    cbn [fst snd autoReactivation set_autoReactivation
         AutoReactivationControl.set_checkInterval isRunning].
    rewrite Hidle. by repeat split.
Qed.

(** ** The next opening (timeManager.js) *)

Section Opening.

Import TimeManager NextOpening.

Lemma businessHours_nonempty day start finish :
  businessHours day = Open start finish -> start < finish.
Proof. destruct day; intros [= <- <-]; lia. Qed.

Lemma isHoliday_atHour d hour : isHoliday (atHour d hour) = isHoliday d.
Proof. reflexivity. Qed.

Lemma keepsWeekdays_commonYear : keepsWeekdays commonYear.
Proof.
  intros d n _. unfold commonYear.
  induction (Z.to_nat n) as [| k IH]; [reflexivity |].
  rewrite !Nat.iter_succ, <- IH. unfold tomorrow.
  by destruct (getDate _ <? monthLength _).
Qed.

Variable addDays : Date -> Z -> Date.
Hypothesis weekdays : keepsWeekdays addDays.

Lemma scan_later rounds now :
  forall nextDay k d,
    0 <= k ->
    nextDay = Nat.iter (Z.to_nat k) dayAfter (weekDay now) ->
    (k = 0 -> ~ opensLaterToday now) ->
    scan addDays rounds now nextDay k = Some d ->
    exists n start finish,
      k < n <= k + Z.of_nat rounds
      /\ businessHours (weekDay (addDays now n)) = Open start finish
      /\ isHoliday (addDays now n) = false
      /\ d = atHour (addDays now n) start
      /\ forall m, k < m < n ->
           businessHours (weekDay (addDays now m)) = Closed
           \/ isHoliday (addDays now m) = true.
Proof.
  induction rounds as [| rounds IH]; intros nextDay k d Hk Hday Hlate Hscan;
    [discriminate |].
  cbn [scan] in Hscan.
  assert (Htoday :
            match businessHours nextDay with
            | Open start _ =>
                if (k =? 0) && (getHours now <? start) then Some start else None
            | Closed => None
            end = None).
  { destruct (businessHours nextDay) as [| start finish] eqn:Hopen; [reflexivity |].
    destruct (Z.eqb_spec k 0) as [-> | _]; [| reflexivity].
    destruct (Z.ltb_spec (getHours now) start) as [Hlt | _]; [| reflexivity].
    exfalso. apply Hlate; [reflexivity |].
    unfold opensLaterToday. change (nextDay = weekDay now) in Hday.
    rewrite <- Hday, Hopen. exact Hlt. }
  rewrite Htoday in Hscan.
  assert (Hnext : dayAfter nextDay
                  = Nat.iter (Z.to_nat (k + 1)) dayAfter (weekDay now)).
  { rewrite Z2Nat.inj_add, Nat.add_1_r, Nat.iter_succ by lia. by rewrite Hday. }
  assert (Hweekday : weekDay (addDays now (k + 1)) = dayAfter nextDay).
  { rewrite Hnext. apply weekdays. lia. }
  assert (Hgo : scan addDays rounds now (dayAfter nextDay) (k + 1) = Some d ->
                (businessHours (weekDay (addDays now (k + 1))) = Closed
                 \/ isHoliday (addDays now (k + 1)) = true) ->
                exists n start finish,
                  k < n <= k + Z.of_nat (S rounds)
                  /\ businessHours (weekDay (addDays now n)) = Open start finish
                  /\ isHoliday (addDays now n) = false
                  /\ d = atHour (addDays now n) start
                  /\ forall m, k < m < n ->
                       businessHours (weekDay (addDays now m)) = Closed
                       \/ isHoliday (addDays now m) = true).
  { intros Hrest Hskip.
    destruct (IH (dayAfter nextDay) (k + 1) d ltac:(lia) Hnext ltac:(lia) Hrest)
      as (n & start & finish & Hn & Hopen & Hwork & Heq & Hfirst).
    exists n, start, finish. split; [lia |]. split; [exact Hopen |].
    split; [exact Hwork |]. split; [exact Heq |].
    intros m Hm. destruct (decide (m = k + 1)) as [-> | Hne]; [exact Hskip |].
    apply Hfirst. lia. }
  destruct (businessHours (dayAfter nextDay)) as [| start finish] eqn:Hopen.
  - apply Hgo; [exact Hscan |]. left. by rewrite Hweekday.
  - destruct (isHoliday (atHour (addDays now (k + 1)) start)) eqn:Hholiday;
      cbn [negb] in Hscan.
    + apply Hgo; [exact Hscan |]. right. exact Hholiday.
    + injection Hscan as <-. exists (k + 1), start, finish.
      split; [lia |]. split; [by rewrite Hweekday |].
      split; [exact Hholiday |]. split; [reflexivity |].
      intros m Hm. lia.
Qed.

Lemma scan_finds now :
  ~ opensLaterToday now ->
  oneHolidayAtMost addDays now ->
  is_Some (scan addDays 7 now (weekDay now) 0).
Proof.
  intros Hlate Hsparse.
  assert (Hh : forall n m s s', 1 <= n < m -> m <= 7 ->
            isHoliday (atHour (addDays now n) s) = true ->
            isHoliday (atHour (addDays now m) s') = true -> False).
  { intros n m s s' Hn Hm H1 H2. rewrite isHoliday_atHour in H1, H2.
    by rewrite (Hsparse n m Hn Hm H1) in H2. }
  unfold opensLaterToday in Hlate.
  destruct (weekDay now) eqn:Hday; cbn [businessHours] in Hlate;
    lazy -[isHoliday Z.ltb atHour is_Some getHours];
    try (destruct (Z.ltb_spec (getHours now) 10) as [? | _]; [lia |]);
    try (destruct (Z.ltb_spec (getHours now) 12) as [? | _]; [lia |]);
    lazy -[isHoliday Z.ltb atHour is_Some getHours];
    repeat match goal with
      | |- is_Some (Some _) => eexists; reflexivity
      | |- context [isHoliday (atHour (addDays now ?n) ?s)] =>
          destruct (isHoliday (atHour (addDays now n) s)) eqn:?;
            lazy -[isHoliday Z.ltb atHour is_Some getHours]
      end;
    exfalso;
    match goal with
    | H1 : isHoliday (atHour (addDays now ?n) _) = true,
      H2 : isHoliday (atHour (addDays now ?m) _) = true |- _ =>
        first [ apply (Hh n m _ _ ltac:(lia) ltac:(lia) H1 H2)
              | apply (Hh m n _ _ ltac:(lia) ltac:(lia) H2 H1) ]
    end.
Qed.

End Opening.

(** X28. Before the opening hour of a working day [getNextOpeningTime]
    returns that same day at its opening hour without asking whether the day
    is a holiday: on a configured holiday it names a time at which
    [isBusinessHours] is false. *)
Theorem same_day_opening_ignores_holidays
    (addDays : TimeManager.Date -> Z -> TimeManager.Date)
    (now : TimeManager.Date) (start finish : Z) :
  TimeManager.businessHours (TimeManager.weekDay now) = TimeManager.Open start finish ->
  TimeManager.getHours now < start ->
  NextOpening.getNextOpeningTime addDays now = Some (NextOpening.atHour now start)
  /\ (TimeManager.isHoliday now = true ->
        TimeManager.isBusinessHours (NextOpening.atHour now start) = false).
Proof.
  intros Hopen Hearly. split.
  - unfold NextOpening.getNextOpeningTime. cbn [NextOpening.scan]. rewrite Hopen.
    destruct (Z.ltb_spec (TimeManager.getHours now) start) as [_ | ?]; [| lia].
    reflexivity.
  - intros Hholiday. unfold TimeManager.isBusinessHours.
    by rewrite isHoliday_atHour, Hholiday.
Qed.

Lemma same_day_opening_ignores_holidays_witness :
  TimeManager.isHoliday (christmasMonday 8) = true
  /\ NextOpening.getNextOpeningTime NextOpening.commonYear (christmasMonday 8)
     = Some (christmasMonday 10).
Proof.
  split; [reflexivity |].
  exact (proj1 (same_day_opening_ignores_holidays NextOpening.commonYear
                  (christmasMonday 8) 10 17 eq_refl eq_refl)).
Defined.

(** X29. Outside the case of X28 the search succeeds and is right. On a
    calendar whose [setDate] moves the day of the week along with the date,
    and when at most one of the next seven days is a holiday,
    [getNextOpeningTime] never returns [null]: it returns the first of the
    next seven days that the weekly table marks open and that is no holiday,
    set to the opening hour of that day, and [isBusinessHours] is true at
    that time. *)
Theorem next_opening_is_open
    (addDays : TimeManager.Date -> Z -> TimeManager.Date) (now : TimeManager.Date) :
  NextOpening.keepsWeekdays addDays ->
  oneHolidayAtMost addDays now ->
  ~ opensLaterToday now ->
  exists n start finish,
    1 <= n <= 7
    /\ TimeManager.businessHours (TimeManager.weekDay (addDays now n))
       = TimeManager.Open start finish
    /\ TimeManager.isHoliday (addDays now n) = false
    /\ (forall m, 1 <= m < n ->
          TimeManager.businessHours (TimeManager.weekDay (addDays now m))
          = TimeManager.Closed
          \/ TimeManager.isHoliday (addDays now m) = true)
    /\ NextOpening.getNextOpeningTime addDays now
       = Some (NextOpening.atHour (addDays now n) start)
    /\ TimeManager.isBusinessHours (NextOpening.atHour (addDays now n) start) = true.
Proof.
  intros Hweek Hsparse Hlate.
  destruct (scan_finds addDays now Hlate Hsparse) as [d Hd].
  destruct (scan_later addDays Hweek 7 now (TimeManager.weekDay now) 0 d
              ltac:(lia) eq_refl (fun _ => Hlate) Hd)
    as (n & start & finish & Hn & Hopen & Hwork & Heq & Hfirst).
  exists n, start, finish. split; [lia |]. split; [exact Hopen |].
  split; [exact Hwork |]. split; [intros m Hm; apply Hfirst; lia |].
  split; [unfold NextOpening.getNextOpeningTime; by rewrite Hd, Heq |].
  unfold TimeManager.isBusinessHours. rewrite isHoliday_atHour, Hwork.
  cbn [TimeManager.weekDay NextOpening.atHour TimeManager.getHours]. rewrite Hopen.
  apply businessHours_nonempty in Hopen.
  apply andb_true_iff. split; [apply Z.leb_le | apply Z.ltb_lt]; lia.
Qed.

(** Saturday 23 December at noon: Sunday is closed and Monday is Christmas,
    so the next opening is Tuesday 26 at 10 h. *)
Lemma next_opening_is_open_witness :
  exists n start finish,
    1 <= n <= 7
    /\ TimeManager.businessHours
         (TimeManager.weekDay (NextOpening.commonYear saturdayBeforeChristmas n))
       = TimeManager.Open start finish
    /\ TimeManager.isHoliday (NextOpening.commonYear saturdayBeforeChristmas n) = false
    /\ (forall m, 1 <= m < n ->
          TimeManager.businessHours
            (TimeManager.weekDay (NextOpening.commonYear saturdayBeforeChristmas m))
          = TimeManager.Closed
          \/ TimeManager.isHoliday (NextOpening.commonYear saturdayBeforeChristmas m)
             = true)
    /\ NextOpening.getNextOpeningTime NextOpening.commonYear saturdayBeforeChristmas
       = Some (NextOpening.atHour
                 (NextOpening.commonYear saturdayBeforeChristmas n) start)
    /\ TimeManager.isBusinessHours
         (NextOpening.atHour (NextOpening.commonYear saturdayBeforeChristmas n) start)
       = true.
Proof.
  apply (next_opening_is_open NextOpening.commonYear saturdayBeforeChristmas).
  - exact keepsWeekdays_commonYear.
  - intros n m Hn Hm Hholiday.
    assert (Hcases : n = 1 \/ n = 2 \/ n = 3 \/ n = 4 \/ n = 5 \/ n = 6) by lia.
    destruct Hcases as [-> | [-> | [-> | [-> | [-> | ->]]]]];
      vm_compute in Hholiday; try discriminate Hholiday.
    assert (Hlater : m = 3 \/ m = 4 \/ m = 5 \/ m = 6 \/ m = 7) by lia.
    destruct Hlater as [-> | [-> | [-> | [-> | ->]]]]; reflexivity.
  - unfold opensLaterToday. simpl. lia.
Defined.

Example next_opening_before_christmas :
  NextOpening.getNextOpeningTime NextOpening.commonYear saturdayBeforeChristmas
  = Some {| TimeManager.getMonth := 11; TimeManager.getDate := 26;
            TimeManager.weekDay := TimeManager.Tuesday;
            TimeManager.getHours := 10 |}.
Proof. vm_compute. reflexivity. Qed.

(** ** The statistics of the owner (services/commandHandler.js) *)

Section Statistics.

Import CommandHandlerOps OwnerCommands.

Lemma size_removed_le {A} (cond : A -> Prop) `{!forall a, Decision (cond a)}
    (m : gmap string A) :
  (size (removed cond m) <= size m)%nat.
Proof. apply map_subseteq_size, map_filter_subseteq. Qed.

Lemma size_removed_mono {A} (cond cond' : A -> Prop)
    `{!forall a, Decision (cond a)} `{!forall a, Decision (cond' a)}
    (m : gmap string A) :
  (forall a, cond a -> cond' a) ->
  (size (removed cond m) <= size (removed cond' m))%nat.
Proof.
  intros Himpl. apply map_subseteq_size. unfold removed.
  apply map_filter_subseteq_ext. intros i x _. apply Himpl.
Qed.

Lemma countStats_consistent h st :
  let s := countStats h st in
  (spanishUsers s + englishUsers s <= totalUsers s)%nat
  /\ (activeToday s <= activeLast7Days s)%nat
  /\ (activeLast7Days s <= totalUsers s)%nat.
Proof.
  cbn [countStats spanishUsers englishUsers totalUsers activeToday activeLast7Days].
  split; [| split].
  - rewrite (size_removed_remaining (speaks "es") st).
    apply Nat.add_le_mono_l, map_subseteq_size. unfold removed, remaining.
    apply map_filter_subseteq_ext. intros i x _. unfold speaks. simpl.
    intros Hen Hes. rewrite Hen in Hes. discriminate.
  - apply size_removed_mono. unfold activeWithin, sevenDaysMs, oneDayMs. intros a. lia.
  - apply size_removed_le.
Qed.

End Statistics.

(** X30. The figures of [/stats] are consistent for every store of sessions:
    the Spanish and English users together are no more than all users (so
    the count "without a language" that the message prints is never
    negative), the users active today are among those of the last seven
    days, and those among all. The command reads the sessions and the
    registry and changes neither; the message is the only effect. *)
Theorem stats_are_consistent (h : Host) (chatId : string) (w : World) :
  let s := OwnerCommands.countStats h (SessionStore.sessions w) in
  let r := OwnerCommands.getStats h chatId w in
  (OwnerCommands.spanishUsers s + OwnerCommands.englishUsers s
   <= OwnerCommands.totalUsers s)%nat
  /\ (OwnerCommands.activeToday s <= OwnerCommands.activeLast7Days s
      <= OwnerCommands.totalUsers s)%nat
  /\ reported (after r)
     = Some (chatId, Text (OwnerCommands.statsMessage s (commandHandler w)))
  /\ commandHandler (after r) = commandHandler w
  /\ stateManager (after r) = stateManager w.
Proof.
  intros s r.
  destruct (countStats_consistent h (SessionStore.sessions w)) as (Hlang & Hday & Hweek).
  split; [exact Hlang |]. split; [split; [exact Hday | exact Hweek] |].
  subst r. unfold OwnerCommands.getStats, bind, gets, sock_sendMessage, after.
  cbn [fst snd]. fold s.
  destruct (accepts h chatId _); cbn [snd];
    (split; [eapply reported_snoc; reflexivity |]); by split.
Qed.
